(** * Property-import scripts: parsers, header mapper, upsert driver, paging

    A shallow embedding of the field parsers, the CSV header mapper, the
    Supabase import driver and the Notion page-follow loop of the
    commercial-real-estate import scripts, with the properties stated by the
    specification proved (or refuted) against them.

    Text is embedded as lists of 8-bit characters and the embedding covers
    ASCII text: the characters 128..255 are carried along as uncased
    symbols that are neither digits nor white space.  A property that
    rests on the casing or on the digit class carries the hypothesis that
    its text is ASCII. *)

From Stdlib Require Import ZArith QArith Ascii String List Bool Lia DecimalString.
From stdpp Require Import base option list gmap strings.
Import ListNotations.

Local Open Scope Z_scope.
Local Open Scope list_scope.

(** ** Python string primitives (ASCII) *)

Module PyStr.

Definition str := list ascii.

(** a literal *)
Definition py (s : string) : str := list_ascii_of_string s.

Definition code (c : ascii) : N := N_of_ascii c.

Definition in_range (lo hi : N) (c : ascii) : bool :=
  ((lo <=? code c) && (code c <=? hi))%N.

(** The classes and the casing below are those of Python on the ASCII
    range (codes 0 to 127): beyond it Python knows further digits, white
    space and cased letters.  [ascii_text] marks the texts of that
    range. *)
Definition is_ascii (c : ascii) : bool := in_range 0 127 c.
Definition ascii_text (s : str) : Prop := forallb is_ascii s = true.

Definition is_digit (c : ascii) : bool := in_range 48 57 c.
Definition is_upper (c : ascii) : bool := in_range 65 90 c.
Definition is_lower (c : ascii) : bool := in_range 97 122 c.
Definition is_cased (c : ascii) : bool := is_upper c || is_lower c.

(** [str.isspace] on one character: TAB, LF, VT, FF, CR, FS, GS, RS, US
    and the blank. *)
Definition is_space (c : ascii) : bool :=
  in_range 9 13 c || in_range 28 32 c.

Definition chr_upper (c : ascii) : ascii :=
  if is_lower c then ascii_of_N (code c - 32) else c.
Definition chr_lower (c : ascii) : ascii :=
  if is_upper c then ascii_of_N (code c + 32) else c.

(** [s.upper()], [s.lower()] *)
Definition upper (s : str) : str := List.map chr_upper s.
Definition lower (s : str) : str := List.map chr_lower s.

Definition eqb (a b : str) : bool := bool_decide (a = b).

(** [s.lstrip()], [s.rstrip()], [s.strip()] *)
Fixpoint lstrip (s : str) : str :=
  match s with
  | c :: r => if is_space c then lstrip r else s
  | [] => []
  end.
Fixpoint rstrip (s : str) : str :=
  match s with
  | c :: r =>
      match rstrip r with
      | [] => if is_space c then [] else [c]
      | r' => c :: r'
      end
  | [] => []
  end.
Definition strip (s : str) : str := rstrip (lstrip s).

(** The white space that [int()] and [float()] skip around a number: TAB,
    LF, VT, FF, CR and the blank.  FS, GS, RS and US, which [strip]
    removes, are not skipped: next to a number they make the conversion
    raise. *)
Definition is_blank (c : ascii) : bool := in_range 9 13 c || in_range 32 32 c.
Fixpoint lskip (s : str) : str :=
  match s with
  | c :: r => if is_blank c then lskip r else s
  | [] => []
  end.
Fixpoint rskip (s : str) : str :=
  match s with
  | c :: r =>
      match rskip r with
      | [] => if is_blank c then [] else [c]
      | r' => c :: r'
      end
  | [] => []
  end.
Definition skip_blanks (s : str) : str := rskip (lskip s).

(** [re.split] on a one-character class, and [s.split(sep)] for a
    one-character separator: every occurrence cuts, so a text with n
    separators gives n+1 pieces (possibly empty). *)
Fixpoint split_on (sep : ascii -> bool) (s : str) : list str :=
  match s with
  | [] => [[]]
  | c :: r =>
      if sep c then [] :: split_on sep r
      else match split_on sep r with
           | p :: ps => (c :: p) :: ps
           | [] => [[c]]
           end
  end.

Definition is_chr (x : ascii) (c : ascii) : bool := Ascii.eqb c x.

Definition split (sep : ascii) (s : str) : list str := split_on (is_chr sep) s.

(** [sep.join(l)] for a one-character separator *)
Fixpoint join (sep : ascii) (l : list str) : str :=
  match l with
  | [] => []
  | [x] => x
  | x :: r => x ++ sep :: join sep r
  end.

(** [re.sub(class, '', s)]: drop every character of the class *)
Definition remove (cls : ascii -> bool) (s : str) : str :=
  List.filter (fun c => negb (cls c)) s.

(** [x in s] for a one-character [x] *)
Definition contains (x : ascii) (s : str) : bool := existsb (is_chr x) s.

(** [s.title()]: a cased character is upper-cased when the character
    before it is not cased, lower-cased otherwise. *)
Fixpoint title_from (prev_cased : bool) (s : str) : str :=
  match s with
  | [] => []
  | c :: r =>
      (if prev_cased then chr_lower c else chr_upper c)
        :: title_from (is_cased c) r
  end.
Definition title (s : str) : str := title_from false s.

Definition digit_val (c : ascii) : Z := Z.of_N (code c) - 48.

(** the digits of [int()]: a digit, then digits each optionally preceded
    by one underscore *)
Fixpoint digits_from (acc : Z) (s : str) : option Z :=
  match s with
  | [] => Some acc
  | c :: r =>
      if is_digit c then digits_from (10 * acc + digit_val c) r
      else if is_chr "_" c then
        match r with
        | d :: _ => if is_digit d then digits_from acc r else None
        | [] => None
        end
      else None
  end.

Definition int_digits (s : str) : option Z :=
  match s with
  | c :: r => if is_digit c then digits_from (digit_val c) r else None
  | [] => None
  end.

(** [int(s)] in base 10, [None] for ValueError: surrounding white space,
    an optional sign, then the digits.  The interpreter's configurable
    cap on the number of digits is not part of the embedding. *)
Definition py_int (s : str) : option Z :=
  match skip_blanks s with
  | "+"%char :: r => int_digits r
  | "-"%char :: r => Z.opp <$> int_digits r
  | t => int_digits t
  end.

(** truth value of a string: non-empty *)
Definition truthy (s : str) : bool :=
  match s with [] => false | _ => true end.

(** [span p s]: the longest prefix of [s] inside the class, and the rest *)
Fixpoint span (p : ascii -> bool) (s : str) : str * str :=
  match s with
  | c :: r => if p c then let '(a, b) := span p r in (c :: a, b) else ([], s)
  | [] => ([], [])
  end.

Fixpoint digits_value (acc : Z) (s : str) : Z :=
  match s with
  | c :: r => digits_value (10 * acc + digit_val c) r
  | [] => acc
  end.

(** Python floats: the finite ones carry their value as a rational
    (rounding to binary64 is not part of the embedding), next to the two
    infinities and NaN. *)
Inductive pyfloat : Type :=
| FNan
| FInf (negative : bool)
| FFin (q : Q).

(** [a <= b] on floats (every comparison with NaN is false) *)
Definition fle (a b : pyfloat) : bool :=
  match a, b with
  | FNan, _ | _, FNan => false
  | FInf true, _ => true
  | _, FInf false => true
  | FInf false, _ => false
  | _, FInf true => false
  | FFin x, FFin y => Qle_bool x y
  end.

Definition of_int (z : Z) : pyfloat := FFin (z # 1).

(** a finite float between two integers *)
Definition within (lo hi : Z) (f : pyfloat) : Prop :=
  match f with
  | FFin q => (inject_Z lo <= q /\ q <= inject_Z hi)%Q
  | _ => False
  end.

(** a run of digits with single underscores between digits: the digits
    read and the rest of the text *)
Fixpoint digit_run (s : str) : str * str :=
  match s with
  | c :: r =>
      if is_digit c then let '(ds, rest) := digit_run r in (c :: ds, rest)
      else if is_chr "_" c then
        match r with
        | d :: _ => if is_digit d then digit_run r else ([], s)
        | [] => ([], s)
        end
      else ([], s)
  | [] => ([], [])
  end.

Definition digit_group (s : str) : str * str :=
  match s with
  | c :: _ => if is_digit c then digit_run s else ([], s)
  | [] => ([], [])
  end.

Definition split_sign (s : str) : bool * str :=
  match s with
  | "+"%char :: r => (false, r)
  | "-"%char :: r => (true, r)
  | _ => (false, s)
  end.

(** mantissa [m] scaled by ten to the [e] *)
Definition scale10 (m e : Z) : Q :=
  if 0 <=? e then (m * 10 ^ e) # 1 else m # Z.to_pos (10 ^ (- e)).

(** an unsigned decimal literal of [float()]: digits, an optional
    fraction, an optional exponent; at least one digit in the mantissa *)
Definition decimal_literal (s : str) : option Q :=
  let '(ip, r1) := digit_group s in
  let '(fp, r2) :=
    match r1 with
    | "."%char :: r => digit_group r
    | _ => ([], r1)
    end in
  if negb (truthy ip) && negb (truthy fp) then None
  else
    let m := digits_value 0 (ip ++ fp) in
    let k := Z.of_nat (length fp) in
    match r2 with
    | [] => Some (scale10 m (- k))
    | e :: r3 =>
        if is_chr "e" e || is_chr "E" e then
          let '(neg, r4) := split_sign r3 in
          match digit_group r4 with
          | (x :: xs, []) =>
              let ex := digits_value 0 (x :: xs) in
              Some (scale10 m ((if neg then - ex else ex) - k))
          | _ => None
          end
        else None
    end.

(** [float(s)] on text, [None] for ValueError *)
Definition py_float (s : str) : option pyfloat :=
  let '(neg, body) := split_sign (skip_blanks s) in
  let lb := lower body in
  if eqb lb (py "inf") || eqb lb (py "infinity") then Some (FInf neg)
  else if eqb lb (py "nan") then Some FNan
  else (fun q => FFin (if neg then - q else q)%Q) <$> decimal_literal body.

End PyStr.

Import PyStr.

(** ** Data-frame cells (pandas) *)

Module Pandas.

(** A cell of a data-frame row: missing (the column is absent or the
    cell is empty), or a number or a text as pandas read it. *)
Inductive cell : Type :=
| CNone
| CInt (z : Z)
| CFloat (f : pyfloat)
| CStr (s : str).

(** [pd.notna(v)], [pd.isna(v)] *)
Definition notna (v : cell) : bool :=
  match v with
  | CNone | CFloat FNan => false
  | _ => true
  end.
Definition isna (v : cell) : bool := negb (notna v).

(** [float(v)], [None] when it raises *)
Definition float_of_cell (v : cell) : option pyfloat :=
  match v with
  | CNone => None
  | CInt z => Some (of_int z)
  | CFloat f => Some f
  | CStr s => py_float s
  end.

End Pandas.

Import Pandas.

(** ** import_cre_data.py *)

Module ImportCreData.

Definition comma_or_space (c : ascii) : bool := is_chr "," c || is_space c.

(** [int(p) if p else None], with ValueError as the outer [None] *)
Definition int_or_none (p : str) : option (option Z) :=
  if truthy p then Some <$> py_int p else Some None.

Definition parse_square_footage (sq_ft_text : str) : option Z * option Z :=
  if negb (truthy sq_ft_text) || eqb (upper sq_ft_text) (py "N/A")
     || eqb (strip sq_ft_text) []
  then (None, None)
  else
    let cleaned := remove comma_or_space sq_ft_text in
    if contains "-" cleaned then
      match split "-" cleaned with
      | p0 :: p1 :: _ =>
          match int_or_none p0 with
          | Some min_val =>
              match int_or_none p1 with
              | Some max_val => (min_val, max_val)
              | None => (None, None)
              end
          | None => (None, None)
          end
      | _ => (None, None)
      end
    else
      match py_int cleaned with
      | Some val => (Some val, Some val)
      | None => (None, None)
      end.

(** Following the spec's words, the square-footage parser: N/A, the empty
    and the blank text give two nulls; the cleaned text is a range when a
    single hyphen splits it in two, each side empty (null on that side) or
    numeric, a side that is not numeric giving two nulls; it is a bare
    integer when it has no hyphen; anything else gives two nulls. *)
Definition square_footage_spec (sq_ft_text : str) : option Z * option Z :=
  if negb (truthy sq_ft_text) || eqb (upper sq_ft_text) (py "N/A")
     || eqb (strip sq_ft_text) []
  then (None, None)
  else
    match split "-" (remove comma_or_space sq_ft_text) with
    | [n] =>
        match py_int n with
        | Some val => (Some val, Some val)
        | None => (None, None)
        end
    | [low; high] =>
        match int_or_none low, int_or_none high with
        | Some min_val, Some max_val => (min_val, max_val)
        | _, _ => (None, None)
        end
    | _ => (None, None)
    end.

(** [re.search] of the pattern: an optional dollar sign, then, as
    group 1, one or more digits, an optional dot and any number of
    digits.  [match_number] is group 1 matched at the head of the text
    (each piece greedy), [match_rate_at] the whole pattern at the head,
    [search_rate] group 1 of the leftmost match. *)
Definition match_number (s : str) : option str :=
  let '(d1, r1) := span is_digit s in
  if truthy d1 then
    match r1 with
    | "."%char :: r2 => let '(d2, _) := span is_digit r2 in Some (d1 ++ "."%char :: d2)
    | _ => Some d1
    end
  else None.

Definition match_rate_at (s : str) : option str :=
  match s with
  | "$"%char :: r =>
      match match_number r with
      | Some g => Some g
      | None => match_number s
      end
  | _ => match_number s
  end.

Fixpoint search_rate (s : str) : option str :=
  match match_rate_at s with
  | Some g => Some g
  | None => match s with
            | [] => None
            | _ :: r => search_rate r
            end
  end.

Definition parse_rate (rate_text : str) : option pyfloat :=
  if negb (truthy rate_text) || eqb (upper rate_text) (py "N/A")
     || eqb (strip rate_text) []
  then None
  else
    match search_rate (remove (is_chr ",") rate_text) with
    | Some g => py_float g
    | None => None
    end.

(** Following the spec's words, the first decimal number of a text, read
    without a sign: skip to the first digit, take the digits from there
    and, when a dot follows them, the digits after the dot.  The result
    is the pair of the integer digits and the fraction digits. *)
Fixpoint first_decimal (t : str) : option (str * str) :=
  match t with
  | [] => None
  | c :: r =>
      if is_digit c then
        let '(d1, rest) := span is_digit t in
        Some (d1, match rest with
                  | "."%char :: r2 => fst (span is_digit r2)
                  | _ => []
                  end)
      else first_decimal r
  end.

(** the literal that the digits [d1], a dot and the digits [d2] spell *)
Definition decimal_text (d : str * str) : str := fst d ++ "."%char :: snd d.

(** the number that the digits [d1], a dot and the digits [d2] denote *)
Definition decimal_value (d : str * str) : pyfloat :=
  FFin (scale10 (digits_value 0 (fst d ++ snd d)) (- Z.of_nat (length (snd d)))).

Definition parse_building_types (building_type_text : str) : list str :=
  if negb (truthy building_type_text) || eqb (strip building_type_text) []
  then [py "Unknown"]
  else
    let types := List.map strip (split "," building_type_text) in
    List.filter truthy types.

Definition validate_coordinates (lat lng : option pyfloat) : bool :=
  match lat, lng with
  | Some lat, Some lng =>
      fle (of_int (-90)) lat && fle lat (of_int 90)
      && fle (of_int (-180)) lng && fle lng (of_int 180)
  | _, _ => false
  end.

(** a coordinate as the row loop reads it from its cell: the float of a
    cell that is not NA, nothing when the cell is NA or [float] raises *)
Definition read_coordinate (c : cell) : option pyfloat :=
  if notna c then float_of_cell c else None.

(** The coordinate part of the row loop of [import_csv_to_supabase]:
    from the cells of the columns Longitude and Latitude to the
    [longitude] and [latitude] stored in [property_data]. *)
Definition row_coordinates (c_longitude c_latitude : cell)
  : option pyfloat * option pyfloat :=
  let longitude := if notna c_longitude then float_of_cell c_longitude else None in
  let latitude := if notna c_latitude then float_of_cell c_latitude else None in
  match longitude, latitude with
  | Some lng, Some lat =>
      if negb (validate_coordinates (Some lat) (Some lng)) then (None, None)
      else (longitude, latitude)
  | _, _ => (longitude, latitude)
  end.

End ImportCreData.

(** ** scripts/notion_supabase_sync.py: PropertyDataTransformer *)

Module NotionSync.

Definition comma_or_space (c : ascii) : bool := is_chr "," c || is_space c.

Definition parse_square_footage (sq_ft_text : str) : option Z * option Z :=
  if negb (truthy sq_ft_text)
     || existsb (eqb (upper sq_ft_text)) [py "N/A"; py "TBD"; []]
  then (None, None)
  else
    let cleaned := remove comma_or_space sq_ft_text in
    let single :=
      match py_int cleaned with
      | Some value => (Some value, Some value)
      | None => (None, None)
      end in
    if contains "-" cleaned then
      match split "-" cleaned with
      | [p0; p1] =>
          match py_int p0 with
          | Some min_val =>
              match py_int p1 with
              | Some max_val => (Some min_val, Some max_val)
              | None => (None, None)
              end
          | None => (None, None)
          end
      | _ => single
      end
    else single.

(** [re.search] of the pattern without the dollar sign *)
Fixpoint search_number (s : str) : option str :=
  match ImportCreData.match_number s with
  | Some g => Some g
  | None => match s with
            | [] => None
            | _ :: r => search_number r
            end
  end.

Definition dollar_or_comma (c : ascii) : bool := is_chr "$" c || is_chr "," c.

Definition parse_rate (rate_text : str) : option pyfloat :=
  if negb (truthy rate_text)
     || existsb (eqb (upper rate_text)) [py "N/A"; py "TBD"; []]
  then None
  else
    let cleaned := remove dollar_or_comma rate_text in
    match search_number cleaned with
    | Some g => py_float g
    | None => None
    end.

(** *** NotionClient: paging through the database *)

(** what a loop that may run forever gives within a bound on its
    iterations *)
Inductive outcome (A : Type) : Type :=
| Returns (a : A)
| Raises
| Running.
Arguments Returns {A} a.
Arguments Raises {A}.
Arguments Running {A}.

Section Paging.

(** a page object of the database *)
Variable Page : Type.

(** the JSON body of a query response, its three keys read with the
    defaults of [get_all_properties] *)
Record response : Type :=
  { results : list Page; has_more : bool; next_cursor : option str }.

(** The query endpoint: from the [start_cursor] of the payload (absent
    for the first page) and the state of the service to the new state
    and the body, [None] for a status other than 200. *)
Variable Service : Type.
Variable endpoint : option str -> Service -> Service * option response.

(** a cursor that is None or empty is left out of the payload *)
Definition query_database (start_cursor : option str) (sv : Service)
  : Service * option response :=
  match start_cursor with
  | Some (c :: r) => endpoint (Some (c :: r)) sv
  | _ => endpoint None sv
  end.

(** the while loop of [get_all_properties], at most [steps] iterations *)
Fixpoint follow_pages (steps : nat) (properties : list Page)
    (start_cursor : option str) (sv : Service)
  : Service * outcome (list Page) :=
  match steps with
  | O => (sv, Running)
  | S steps' =>
      match query_database start_cursor sv with
      | (sv', None) => (sv', Raises)
      | (sv', Some response) =>
          let properties := properties ++ results response in
          if has_more response
          then follow_pages steps' properties (next_cursor response) sv'
          else (sv', Returns properties)
      end
  end.

Definition get_all_properties (steps : nat) (sv : Service)
  : Service * outcome (list Page) :=
  follow_pages steps [] None sv.

(** [served cursor sv pages sv']: asked with the cursor [cursor] in the
    payload (none for the first page), then with the cursor each page
    hands out, the endpoint returns exactly the pages [pages], each but
    the last with has-more set, and is left in the state [sv'].  A page
    with has-more set that hands out no cursor, or an empty one, is
    followed by a query without cursor. *)
Inductive served : option str -> Service -> list response -> Service -> Prop :=
| served_last cursor sv sv' page :
    endpoint cursor sv = (sv', Some page) ->
    has_more page = false ->
    served cursor sv [page] sv'
| served_more cursor sv sv' sv'' page c pages :
    endpoint cursor sv = (sv', Some page) ->
    has_more page = true ->
    next_cursor page = Some c -> c <> [] ->
    served (Some c) sv' pages sv'' ->
    served cursor sv (page :: pages) sv''
| served_again cursor sv sv' sv'' page pages :
    endpoint cursor sv = (sv', Some page) ->
    has_more page = true ->
    next_cursor page = None \/ next_cursor page = Some [] ->
    served None sv' pages sv'' ->
    served cursor sv (page :: pages) sv''.

End Paging.

End NotionSync.

(** ** JSON values, as the Notion and Supabase clients return them *)

Module Json.

#[warnings="-register-all"]
Inductive json : Type :=
| JNull
| JBool (b : bool)
| JNum (f : pyfloat)
| JStr (s : str)
| JList (l : list json)
| JDict (d : list (string * json)).

(** truth value *)
Definition truthy (v : json) : bool :=
  match v with
  | JNull => false
  | JBool b => b
  | JNum (FFin q) => negb (Qeq_bool q 0)
  | JNum _ => true
  | JStr s => PyStr.truthy s
  | JList l => match l with [] => false | _ => true end
  | JDict d => match d with [] => false | _ => true end
  end.

(** [d.get(key)] on the items of a dict *)
Definition lookup (key : string) (d : list (string * json)) : option json :=
  snd <$> List.find (fun kv => bool_decide (fst kv = key)) d.

(** [v.get(key, default)]: [None] is the AttributeError of a value that
    is not a dict *)
Definition get (v : json) (key : string) (default : json) : option json :=
  match v with
  | JDict d => Some (match lookup key d with Some x => x | None => default end)
  | _ => None
  end.

(** [v[key]]: [None] is the KeyError or TypeError *)
Definition item (v : json) (key : string) : option json :=
  match v with
  | JDict d => lookup key d
  | _ => None
  end.

(** [v or default] *)
Definition or_else (v default : json) : json := if truthy v then v else default.

(** [v == "text"] *)
Definition is_text (v : json) (text : string) : bool :=
  match v with
  | JStr s => eqb s (py text)
  | _ => false
  end.

Definition of_Z (z : option Z) : json :=
  match z with Some z => JNum (of_int z) | None => JNull end.

Definition of_float (f : option pyfloat) : json :=
  match f with Some f => JNum f | None => JNull end.

Fixpoint all_some {A} (l : list (option A)) : option (list A) :=
  match l with
  | [] => Some []
  | x :: r =>
      match x, all_some r with
      | Some a, Some b => Some (a :: b)
      | _, _ => None
      end
  end.

End Json.

(** ** scripts/csv_import.py *)

Module CsvImport.

(** *** CSVFieldMapper *)

Definition FIELD_MAPPINGS : list (string * list str) :=
  [ ("address", [py "address"; py "street_address"; py "street";
                 py "property_address"; py "addr"]);
    ("city", [py "city"; py "municipality"; py "town"]);
    ("state", [py "state"; py "province"; py "st"]);
    ("zip_code", [py "zip"; py "zipcode"; py "zip_code"; py "postal_code";
                  py "postal"]);
    ("county", [py "county"; py "parish"]);
    ("building_types", [py "building_type"; py "building_types"; py "type";
                        py "property_type"; py "asset_type"]);
    ("tenancy", [py "tenancy"; py "tenant_type"; py "occupancy_type"]);
    ("square_footage", [py "square_footage"; py "sq_ft"; py "sqft"; py "size";
                        py "total_sq_ft"; py "rentable_sf"]);
    ("number_of_suites", [py "suites"; py "number_of_suites"; py "units";
                          py "num_suites"]);
    ("rate_text", [py "rate"; py "rent"; py "rate_per_sf"; py "price_per_sf";
                   py "asking_rate"]);
    ("latitude", [py "latitude"; py "lat"; py "y_coord"]);
    ("longitude", [py "longitude"; py "lng"; py "lon"; py "x_coord"]);
    ("contact_name", [py "contact_name"; py "contact"; py "agent_name";
                      py "broker_name"]);
    ("contact_email", [py "contact_email"; py "email"; py "agent_email";
                       py "broker_email"]);
    ("contact_phone", [py "contact_phone"; py "phone"; py "agent_phone";
                       py "broker_phone"]);
    ("description", [py "description"; py "notes"; py "comments"; py "details"]);
    ("year_built", [py "year_built"; py "built_year"; py "construction_year"]);
    ("parking_spaces", [py "parking"; py "parking_spaces"; py "parking_spots"])
  ]%string.

(** [l.index(x)] guarded by [x in l]: the first position, if any *)
Fixpoint index (x : str) (l : list str) : option nat :=
  match l with
  | [] => None
  | y :: r => if eqb y x then Some 0%nat else S <$> index x r
  end.

(** the inner loop of [map_csv_headers]: the header of the first alias
    found among the lower-cased, stripped headers *)
Fixpoint first_alias (csv_headers csv_headers_lower possible_names : list str)
  : option str :=
  match possible_names with
  | [] => None
  | possible_name :: rest =>
      match index (lower possible_name) csv_headers_lower with
      | Some i => csv_headers !! i
      | None => first_alias csv_headers csv_headers_lower rest
      end
  end.

(** The mapping is a dict; it is kept as the list of its items in
    insertion order (every standard field is inserted at most once). *)
Definition map_csv_headers (csv_headers : list str) : list (string * str) :=
  let csv_headers_lower := List.map (fun h => strip (lower h)) csv_headers in
  fold_left
    (fun mapping '(standard_field, possible_names) =>
       match first_alias csv_headers csv_headers_lower possible_names with
       | Some original_header => mapping ++ [(standard_field, original_header)]
       | None => mapping
       end)
    FIELD_MAPPINGS [].

(** [mapping.get(field)] *)
Definition mapping_get (mapping : list (string * str)) (field : string) : option str :=
  snd <$> List.find (fun kv => bool_decide (fst kv = field)) mapping.

(** *** DataValidator *)

Definition validate_address (address : str) : bool :=
  if negb (truthy address) || (length (strip address) <? 5)%nat then false else true.

Definition validate_coordinates (lat lng : option pyfloat) : bool :=
  match lat, lng with
  | Some lat, Some lng =>
      (fle (of_int (-90)) lat && fle lat (of_int 90))
      && (fle (of_int (-180)) lng && fle lng (of_int 180))
  | _, _ => true
  end.

Definition separator (c : ascii) : bool :=
  is_chr "," c || is_chr ";" c || is_chr "/" c || is_chr "|" c.

Definition mem (x : str) (l : list str) : bool := existsb (eqb x) l.

(** the body of the loop of [clean_building_types] *)
Definition add_type (cleaned_types : list str) (bt : str) : list str :=
  let bt := title (strip bt) in
  if truthy bt && negb (mem bt cleaned_types)
  then cleaned_types ++ [bt] else cleaned_types.

Definition clean_building_types (building_types : str) : list str :=
  if negb (truthy building_types) then []
  else
    let types := split_on separator building_types in
    fold_left add_type types [].

(** a token as [clean_building_types] emits it: non-empty, free of
    separators, unchanged by stripping and title-casing *)
Definition clean_token (t : str) : Prop :=
  t <> [] /\ existsb separator t = false /\ title (strip t) = t.

Definition clean_phone_number (phone : str) : str :=
  if negb (truthy phone) then []
  else
    let digits := List.filter is_digit phone in
    if (length digits =? 10)%nat then
      py "(" ++ take 3 digits ++ py ") " ++ take 3 (drop 3 digits)
         ++ py "-" ++ drop 6 digits
    else if (length digits =? 11)%nat && bool_decide (head digits = Some "1"%char) then
      py "(" ++ take 3 (drop 1 digits) ++ py ") " ++ take 3 (drop 4 digits)
         ++ py "-" ++ drop 7 digits
    else phone.

(** *** Records *)

(** the values a transformed record holds *)
Inductive value : Type :=
| VStr (s : str)
| VInt (z : Z)
| VFloat (f : pyfloat)
| VList (l : list str).

(** truth value of [record.get(field)] *)
Definition value_truthy (v : option value) : bool :=
  match v with
  | None => false
  | Some (VStr s) => truthy s
  | Some (VInt z) => negb (z =? 0)
  | Some (VFloat (FFin q)) => negb (Qeq_bool q 0)
  | Some (VFloat _) => true
  | Some (VList l) => match l with [] => false | _ => true end
  end.

(** a transformed record: a dict from field names to values *)
Abbreviation record := (gmap string value).

(** a row of the data frame: a dict from CSV headers to cells *)
Abbreviation raw_record := (gmap str cell).

(** *** CSVImporter.transform_csv_record *)

(** [str(z)] for an integer *)
Definition str_of_Z (z : Z) : str :=
  list_ascii_of_string (NilZero.string_of_int (Z.to_int z)).

(** [int(f)] for a float: truncation; NaN raises ValueError, an infinity
    raises OverflowError *)
Inductive exn : Type := ValueError | TypeError | OverflowError.

Definition int_of_float (f : pyfloat) : exn + Z :=
  match f with
  | FFin q => inr (Z.quot (Qnum q) (Zpos (Qden q)))
  | FNan => inl ValueError
  | FInf _ => inl OverflowError
  end.

(** what one iteration of the field loop does *)
Inductive field_step : Type :=
| Keep (v : value)
| Continue
| Raise (e : exn).

Section Transform.

(** [str(f)] for a float cell: the shortest text that reads back as the
    same binary64 number, a function of the float's bits. *)
Variable float_repr : pyfloat -> str.

Definition str_of_cell (v : cell) : str :=
  match v with
  | CNone => py "None"
  | CInt z => str_of_Z z
  | CFloat f => float_repr f
  | CStr s => s
  end.

Definition convert_field (standard_field : string) (value : cell) : field_step :=
  if bool_decide (standard_field = "building_types"%string) then
    Keep (VList (clean_building_types (str_of_cell value)))
  else if bool_decide (standard_field = "contact_phone"%string) then
    Keep (VStr (clean_phone_number (str_of_cell value)))
  else if bool_decide (standard_field ∈ ["latitude"; "longitude"]%string) then
    match float_of_cell value with
    | Some f => Keep (VFloat f)
    | None => Continue
    end
  else if bool_decide (standard_field ∈
             ["number_of_suites"; "year_built"; "parking_spaces"]%string) then
    match float_of_cell value with
    | Some f =>
        match int_of_float f with
        | inr z => Keep (VInt z)
        | inl ValueError | inl TypeError => Continue
        | inl e => Raise e
        end
    | None => Continue
    end
  else Keep (VStr (strip (str_of_cell value))).

(** [pd.isna(value) or value == ''] *)
Definition blank_cell (value : cell) : bool :=
  isna value || match value with CStr [] => true | _ => false end.

(** [inl e]: the exception [e] leaves the function *)
Definition transform_csv_record (record : raw_record)
    (field_mapping : list (string * str)) : exn + gmap string value :=
  let fields :=
    fold_left
      (fun acc '(standard_field, csv_field) =>
         match acc with
         | inl e => inl e
         | inr transformed =>
             let value := default CNone (record !! csv_field) in
             if blank_cell value then inr transformed
             else match convert_field standard_field value with
                  | Keep v => inr (<[standard_field := v]> transformed)
                  | Continue => inr transformed
                  | Raise e => inl e
                  end
         end)
      field_mapping (inr (∅ : gmap string value)) in
  match fields with
  | inl e => inl e
  | inr transformed =>
      let transformed :=
        if bool_decide (is_Some (transformed !! "building_types"%string))
        then transformed
        else <["building_types"%string := VList [py "Unknown"]]> transformed in
      inr (<["source"%string := VStr (py "CSV Import")]> transformed)
  end.

End Transform.

(** *** CSVImporter.validate_record *)

Inductive validation_error : Type :=
| MissingRequired (field : string)
| InvalidAddress
| InvalidCoordinates.

(** a coordinate as the comparisons of [validate_coordinates] read it;
    a text or a list there raises TypeError *)
Definition number_of (v : value) : option pyfloat :=
  match v with
  | VFloat f => Some f
  | VInt z => Some (of_int z)
  | _ => None
  end.

Definition required_fields : list string :=
  ["address"; "city"; "state"; "rate_text"]%string.

(** [None]: an exception leaves the function (AttributeError for an
    address that is not a text, TypeError for a coordinate that is not a
    number and is compared: the longitude is compared only when the
    latitude is in range; no record built by [transform_csv_record] holds
    either) *)
Definition validate_record (record : gmap string value)
  : option (bool * list validation_error) :=
  let errors :=
    MissingRequired <$>
      List.filter (fun field => negb (value_truthy (record !! field))) required_fields in
  address_errors ←
    (if value_truthy (record !! "address"%string) then
       match record !! "address"%string with
       | Some (VStr a) => Some (if validate_address a then [] else [InvalidAddress])
       | _ => None
       end
     else Some []);
  coordinate_errors ←
    match record !! "latitude"%string, record !! "longitude"%string with
    | Some lat, Some lng =>
        lat ← number_of lat;
        match number_of lng with
        | Some lng =>
            Some (if validate_coordinates (Some lat) (Some lng) then []
                  else [InvalidCoordinates])
        | None =>
            if fle (of_int (-90)) lat && fle lat (of_int 90) then None
            else Some [InvalidCoordinates]
        end
    | _, _ => Some []
    end;
  let errors := errors ++ address_errors ++ coordinate_errors in
  Some (bool_decide (length errors = 0%nat), errors).

(** *** NotionImporter.property_to_notion_format *)

Module NotionImporter.

Import Json.

(** a value of a record as the JSON the request carries *)
Definition json_of_value (v : value) : json :=
  match v with
  | VStr s => JStr s
  | VInt z => JNum (of_int z)
  | VFloat f => JNum f
  | VList l => JList (JStr <$> l)
  end.

(** [int(v)]: [None] when it raises *)
Definition int_of_value (v : value) : option Z :=
  match v with
  | VStr s => py_int s
  | VInt z => Some z
  | VFloat f => match int_of_float f with inr z => Some z | inl _ => None end
  | VList _ => None
  end.

(** [float(v)]: [None] when it raises *)
Definition float_of_value (v : value) : option pyfloat :=
  match v with
  | VStr s => py_float s
  | VInt z => Some (of_int z)
  | VFloat f => Some f
  | VList _ => None
  end.

(** [{"rich_text": [{"text": {"content": v}}]}] *)
Definition rich_text (v : json) : json :=
  JDict [("rich_text"%string, JList [JDict [("text"%string, JDict [("content"%string, v)])]])].

(** [{"select": {"name": v}}] *)
Definition select (v : json) : json :=
  JDict [("select"%string, JDict [("name"%string, v)])].

(** [{"multi_select": [{"name": bt} for bt in building_types]}]: a list is
    walked item by item, a text character by character; a number raises *)
Definition multi_select (building_types : value) : option json :=
  let name bt := JDict [("name"%string, bt)] in
  match building_types with
  | VList l => Some (JDict [("multi_select"%string, JList ((fun bt => name (JStr bt)) <$> l))])
  | VStr s => Some (JDict [("multi_select"%string, JList ((fun c => name (JStr [c])) <$> s))])
  | _ => None
  end.

Section Format.

(** [str(f)] for a float and [str(l)] for a list *)
Variable float_repr : pyfloat -> str.
Variable list_repr : list str -> str.

Definition str_of_value (v : value) : str :=
  match v with
  | VStr s => s
  | VInt z => str_of_Z z
  | VFloat f => float_repr f
  | VList l => list_repr l
  end.

(** the [if property_data.get(field):] blocks of the function, in the
    order of the source: the field read, the property written and the
    value written for it ([None] when building it raises) *)
Definition blocks : list (string * string * (value -> option json)) :=
  [ ("address", "Address", fun v => Some (rich_text (json_of_value v)));
    ("city", "City", fun v => Some (select (json_of_value v)));
    ("state", "State", fun v => Some (select (json_of_value v)));
    ("zip_code", "Zip Code", fun v => Some (rich_text (JStr (str_of_value v))));
    ("building_types", "Building Types", multi_select);
    ("tenancy", "Tenancy", fun v => Some (select (json_of_value v)));
    ("square_footage", "Square Footage",
     fun v => Some (rich_text (JStr (str_of_value v))));
    ("number_of_suites", "Number of Suites",
     fun v => z ← int_of_value v; Some (JDict [("number", JNum (of_int z))]));
    ("rate_text", "Rate", fun v => Some (rich_text (json_of_value v)));
    ("longitude", "Longitude",
     fun v => f ← float_of_value v; Some (JDict [("number", JNum f)]));
    ("latitude", "Latitude",
     fun v => f ← float_of_value v; Some (JDict [("number", JNum f)]));
    ("contact_name", "Contact Name", fun v => Some (rich_text (json_of_value v)));
    ("contact_email", "Contact Email", fun v => Some (JDict [("email", json_of_value v)]));
    ("contact_phone", "Contact Phone",
     fun v => Some (JDict [("phone_number", json_of_value v)]));
    ("description", "Description", fun v => Some (rich_text (json_of_value v))) ]%string.

(** one block: nothing is written for a field that is missing or falsy *)
Definition block (property_data : gmap string value)
    (b : string * string * (value -> option json)) : option (list (string * json)) :=
  let '(field, name, wrap) := b in
  if value_truthy (property_data !! field) then
    match property_data !! field with
    | Some v => x ← wrap v; Some [(name, x)]
    | None => Some []
    end
  else Some [].

(** the dict [notion_props], by its items in insertion order; [None]: an
    exception leaves the function *)
Definition property_to_notion_format (property_data : gmap string value)
  : option (list (string * json)) :=
  @concat _ <$> all_some (block property_data <$> blocks).

End Format.

(** a record on the prime meridian, in a building without suites *)
Definition meridian_record : gmap string value :=
  <["address"%string := VStr (py "1 Main St")]>
    (<["number_of_suites"%string := VInt 0]>
       (<["longitude"%string := VFloat (of_int 0)]>
          (<["latitude"%string := VFloat (FFin (103 # 2))]> ∅))).

(** a rendering of lists for runs that print none *)
Definition no_lists (l : list str) : str := py "[]".

End NotionImporter.

(** *** The remote services and the import driver *)

Record stats : Type :=
  { created : nat; updated : nat; errors : nat; skipped : nat }.

Definition stats0 : stats :=
  {| created := 0; updated := 0; errors := 0; skipped := 0 |}.

Definition add_created (n : nat) (st : stats) : stats :=
  {| created := created st + n; updated := updated st;
     errors := errors st; skipped := skipped st |}.
Definition add_updated (n : nat) (st : stats) : stats :=
  {| created := created st; updated := updated st + n;
     errors := errors st; skipped := skipped st |}.
Definition add_errors (n : nat) (st : stats) : stats :=
  {| created := created st; updated := updated st;
     errors := errors st + n; skipped := skipped st |}.

(** one record counted: exactly one of the three counters goes up by
    one *)
Inductive counted : stats -> stats -> Prop :=
| counted_created st : counted st (add_created 1 st)
| counted_updated st : counted st (add_updated 1 st)
| counted_errors st : counted st (add_errors 1 st).

(** [n] records counted one after the other *)
Inductive counted_n : nat -> stats -> stats -> Prop :=
| counted_none st : counted_n 0 st st
| counted_next n st st1 st2 :
    counted st st1 -> counted_n n st1 st2 -> counted_n (S n) st st2.

Definition handled (st : stats) : nat := created st + updated st + errors st.

(** the statistics of [import_to_notion] *)
Record notion_stats : Type := { n_created : nat; n_errors : nat }.

(** the messages of [results["errors"]]: the validation errors of a row,
    the exception met on a row, the fatal error of the run *)
Inductive message : Type :=
| RowInvalid (row : nat) (errs : list validation_error)
| RowError (row : nat)
| Fatal.

Record results : Type :=
  { total_records : nat;
    valid_records : nat;
    invalid_records : nat;
    supabase_stats : option stats;
    notion_stats_of : option notion_stats;
    errors_of : list message }.

Section Driver.

(** The Supabase table and the Notion database are external services.
    [Remote] is their joint state and [RowId] the type of the table's
    ids; every request is a function of that state which returns the
    new state and [None] when the client raises. *)
Variable Remote : Type.
Variable RowId : Type.
(** [table.insert(batch).execute()] *)
Variable sb_insert_many : list (gmap string value) -> Remote -> Remote * option unit.
(** [table.select("id").eq("address", a).eq("city", c).execute()]: the
    ids of [existing.data] *)
Variable sb_select_ids : value -> value -> Remote -> Remote * option (list RowId).
(** [table.update(record).eq("id", id).execute()] *)
Variable sb_update : gmap string value -> RowId -> Remote -> Remote * option unit.
(** [table.insert(record).execute()] *)
Variable sb_insert : gmap string value -> Remote -> Remote * option unit.
(** the [requests.post] of [NotionImporter.create_property], from the
    properties of the page: [None] when it raises or the status is not
    200 *)
Variable notion_post : list (string * Json.json) -> Remote -> Remote * option unit.
(** [str(f)] for a float and [str(l)] for a list *)
Variable float_repr : pyfloat -> str.
Variable list_repr : list str -> str.

(** the requests sent, in order *)
Inductive request : Type :=
| InsertMany (batch : list (gmap string value))
| SelectIds (address city : value)
| Update (record : gmap string value) (id : RowId)
| Insert (record : gmap string value)
| NotionCreate (notion_props : list (string * Json.json)).

Record world : Type := { remote : Remote; sent : list request }.

(** state-passing computations over the world *)
Definition M (A : Type) : Type := world -> world * A.
Definition ret {A} (a : A) : M A := fun w => (w, a).
Definition bind {A B} (m : M A) (k : A -> M B) : M B :=
  fun w => let '(w', a) := m w in k a w'.

Notation "x <~ m ;; k" := (bind m (fun x => k))
  (at level 100, m at next level, right associativity).

(** send one request: it is recorded, then served *)
Definition send {A} (rq : request) (serve : Remote -> Remote * option A)
  : M (option A) :=
  fun w =>
    let '(r', a) := serve (remote w) in
    ({| remote := r'; sent := sent w ++ [rq] |}, a).

Fixpoint for_each {A S} (body : A -> S -> M S) (l : list A) (s : S) : M S :=
  match l with
  | [] => ret s
  | x :: r => s' <~ body x s ;; for_each body r s'
  end.

(** the body of the fallback loop: one record, inside its try/except *)
Definition import_record (record : gmap string value) (st : stats) : M stats :=
  match record !! "address"%string, record !! "city"%string with
  | Some address, Some city =>
      existing <~ send (SelectIds address city) (sb_select_ids address city) ;;
      match existing with
      | Some (id :: _) =>
          r <~ send (Update record id) (sb_update record id) ;;
          match r with
          | Some _ => ret (add_updated 1 st)
          | None => ret (add_errors 1 st)
          end
      | Some [] =>
          r <~ send (Insert record) (sb_insert record) ;;
          match r with
          | Some _ => ret (add_created 1 st)
          | None => ret (add_errors 1 st)
          end
      | None => ret (add_errors 1 st)
      end
  | _, _ => ret (add_errors 1 st)
  end.

(** What the fallback loop does with one record, as a relation between
    the world and the counters before and after the record: a record
    without address or city raises before any request; otherwise the
    lookup by address and city is sent, then the update of the first row
    found, or the insert when none is found; exactly one counter goes up
    by one. *)
Inductive attempted (record : gmap string value)
  : world -> stats -> world -> stats -> Prop :=
| attempted_no_key w st :
    record !! "address"%string = None \/ record !! "city"%string = None ->
    attempted record w st w (add_errors 1 st)
| attempted_lookup_fails w st address city r1 :
    record !! "address"%string = Some address ->
    record !! "city"%string = Some city ->
    sb_select_ids address city (remote w) = (r1, None) ->
    attempted record w st
      {| remote := r1; sent := sent w ++ [SelectIds address city] |}
      (add_errors 1 st)
| attempted_update w st address city r1 id ids r2 res :
    record !! "address"%string = Some address ->
    record !! "city"%string = Some city ->
    sb_select_ids address city (remote w) = (r1, Some (id :: ids)) ->
    sb_update record id r1 = (r2, res) ->
    attempted record w st
      {| remote := r2;
         sent := sent w ++ [SelectIds address city; Update record id] |}
      (match res with Some _ => add_updated 1 st | None => add_errors 1 st end)
| attempted_insert w st address city r1 r2 res :
    record !! "address"%string = Some address ->
    record !! "city"%string = Some city ->
    sb_select_ids address city (remote w) = (r1, Some []) ->
    sb_insert record r1 = (r2, res) ->
    attempted record w st
      {| remote := r2; sent := sent w ++ [SelectIds address city; Insert record] |}
      (match res with Some _ => add_created 1 st | None => add_errors 1 st end).

(** the records of a batch attempted one after the other, in order *)
Inductive attempted_all
  : list (gmap string value) -> world -> stats -> world -> stats -> Prop :=
| attempted_none w st : attempted_all [] w st w st
| attempted_next record batch w st w1 st1 w2 st2 :
    attempted record w st w1 st1 ->
    attempted_all batch w1 st1 w2 st2 ->
    attempted_all (record :: batch) w st w2 st2.

(** the body of the batch loop *)
Definition import_batch (batch : list (gmap string value)) (st : stats) : M stats :=
  result <~ send (InsertMany batch) (sb_insert_many batch) ;;
  match result with
  | Some _ => ret (add_created (length batch) st)
  | None => for_each import_record batch st
  end.

(** [range(0, n, batch_size)]: [None] for the ValueError of a zero step *)
Definition batch_starts (n : nat) (batch_size : Z) : option (list nat) :=
  if batch_size =? 0 then None
  else if batch_size <? 0 then Some []
  else
    let b := Z.to_nat batch_size in
    Some (List.map (fun k => (k * b)%nat) (seq 0 ((n + b - 1) / b))).

(** [records[i:i + batch_size]] *)
Definition batch_at (records : list (gmap string value)) (batch_size : Z) (i : nat)
  : list (gmap string value) :=
  take (Z.to_nat batch_size) (drop i records).

(** [None]: an exception leaves the function *)
Definition import_to_supabase (records : list (gmap string value)) (batch_size : Z)
  : M (option stats) :=
  match batch_starts (length records) batch_size with
  | None => ret None
  | Some starts =>
      st <~ for_each (fun i => import_batch (batch_at records batch_size i))
              starts stats0 ;;
      ret (Some st)
  end.

(** [NotionImporter.create_property]: the record is formatted first, and
    nothing is sent when that raises *)
Definition create_property (property_data : gmap string value) : M (option unit) :=
  match NotionImporter.property_to_notion_format float_repr list_repr property_data with
  | Some notion_props => send (NotionCreate notion_props) (notion_post notion_props)
  | None => ret None
  end.

Definition import_to_notion (records : list (gmap string value)) : M notion_stats :=
  for_each
    (fun record st =>
       r <~ create_property record ;;
       match r with
       | Some _ => ret {| n_created := n_created st + 1; n_errors := n_errors st |}
       | None => ret {| n_created := n_created st; n_errors := n_errors st + 1 |}
       end)
    records {| n_created := 0; n_errors := 0 |}.

(** the transform-and-validate loop of [process_csv_file]: the valid
    records and the counts and messages, rows numbered from 1 *)
Fixpoint check_rows (field_mapping : list (string * str)) (i : nat)
    (raw_records : list (gmap str cell))
  : list (gmap string value) * (nat * nat * list message) :=
  match raw_records with
  | [] => ([], (0, 0, []))%nat
  | raw_record :: rest =>
      let '(valid, (n_valid, n_invalid, msgs)) :=
        check_rows field_mapping (S i) rest in
      match transform_csv_record float_repr raw_record field_mapping with
      | inl _ => (valid, (n_valid, S n_invalid, RowError i :: msgs))
      | inr transformed_record =>
          match validate_record transformed_record with
          | None => (valid, (n_valid, S n_invalid, RowError i :: msgs))
          | Some (true, _) => (transformed_record :: valid, (S n_valid, n_invalid, msgs))
          | Some (false, validation_errors) =>
              (valid, (n_valid, S n_invalid, RowInvalid i validation_errors :: msgs))
          end
      end
  end.

(** What the loop makes of one row, numbered [i]: the record it keeps
    when the row transforms and validates, or the message it appends: the
    validation errors of a record refused, or the exception met. *)
Definition row_verdict (field_mapping : list (string * str)) (i : nat)
    (raw_record : gmap str cell) : gmap string value + message :=
  match transform_csv_record float_repr raw_record field_mapping with
  | inl _ => inr (RowError i)
  | inr transformed_record =>
      match validate_record transformed_record with
      | None => inr (RowError i)
      | Some (true, _) => inl transformed_record
      | Some (false, validation_errors) => inr (RowInvalid i validation_errors)
      end
  end.

(** the verdicts on the rows of a file, numbered from [i] on *)
Fixpoint row_verdicts (field_mapping : list (string * str)) (i : nat)
    (raw_records : list (gmap str cell)) : list (gmap string value + message) :=
  match raw_records with
  | [] => []
  | raw_record :: rest =>
      row_verdict field_mapping i raw_record :: row_verdicts field_mapping (S i) rest
  end.

Definition kept {A B} (v : A + B) : option A :=
  match v with inl a => Some a | inr _ => None end.
Definition refused {A B} (v : A + B) : option B :=
  match v with inl _ => None | inr b => Some b end.

(** [self.notion_importer] is set *)
Variable notion_configured : bool.

(** [file]: what [pd.read_csv] gives for the path, the headers and the
    rows, or [None] when reading raises. *)
Definition process_csv_file (file : option (list str * list (gmap str cell)))
    (target : str) (batch_size : Z) (dry_run : bool) : M results :=
  match file with
  | None =>
      ret {| total_records := 0; valid_records := 0; invalid_records := 0;
             supabase_stats := None; notion_stats_of := None;
             errors_of := [Fatal] |}
  | Some (headers, raw_records) =>
      let field_mapping := map_csv_headers headers in
      let '(valid, (n_valid, n_invalid, msgs)) :=
        check_rows field_mapping 1 raw_records in
      let res sb nt errs :=
        {| total_records := length raw_records; valid_records := n_valid;
           invalid_records := n_invalid; supabase_stats := sb;
           notion_stats_of := nt; errors_of := errs |} in
      let nonempty := match valid with [] => false | _ => true end in
      if dry_run then ret (res None None msgs)
      else
        sb <~ (if mem target [py "supabase"; py "both"] && nonempty
               then r <~ import_to_supabase valid batch_size ;;
                    ret (match r with Some st => inr (Some st) | None => inl tt end)
               else ret (inr None)) ;;
        match sb with
        | inl _ => ret (res None None (msgs ++ [Fatal]))
        | inr sb_stats =>
            if mem target [py "notion"; py "both"] && nonempty && notion_configured
            then nt <~ import_to_notion valid ;;
                 ret (res sb_stats (Some nt) msgs)
            else ret (res sb_stats None msgs)
        end
  end.

End Driver.

End CsvImport.

Module NotionImporter := CsvImport.NotionImporter.

(** ** A table for the driver to run against *)

Module TableStore.

Import CsvImport.

(** A store to run the driver against: a table with generated ids that
    takes every field of a record as a column, refuses a row that lacks
    one of address, city, state, building_types and rate_text or whose
    zip_code is wider than ten characters, and, when [unique_address] is
    set, refuses a second row with the address and city of another.  It
    stands for no particular deployment of the table of the repository. *)
Record table : Type :=
  { rows : list (nat * gmap string value);
    next_id : nat;
    unique_address : bool;
    notion_pages : list (list (string * Json.json)) }.

Definition empty_table (unique : bool) : table :=
  {| rows := []; next_id := 1; unique_address := unique; notion_pages := [] |}.

Definition not_null_columns : list string :=
  ["address"; "city"; "state"; "building_types"; "rate_text"]%string.

Definition zip_fits (r : gmap string value) : bool :=
  match r !! "zip_code"%string with
  | Some (VStr z) => (length z <=? 10)%nat
  | _ => true
  end.

Definition acceptable (r : gmap string value) : bool :=
  forallb (fun c => bool_decide (is_Some (r !! c))) not_null_columns && zip_fits r.

Definition same_text (a b : option value) : bool :=
  match a, b with
  | Some (VStr x), Some (VStr y) => eqb x y
  | _, _ => false
  end.

(** the rows with the address and city of [r], but for the row [but] *)
Definition same_key (r : gmap string value) (but : option nat)
    (row : nat * gmap string value) : bool :=
  same_text (snd row !! "address"%string) (r !! "address"%string)
  && same_text (snd row !! "city"%string) (r !! "city"%string)
  && negb (bool_decide (but = Some (fst row))).

Definition key_free (t : table) (r : gmap string value) (but : option nat) : bool :=
  negb (unique_address t) || negb (existsb (same_key r but) (rows t)).

Definition add_row (t : table) (r : gmap string value) : table :=
  {| rows := rows t ++ [(next_id t, r)]; next_id := S (next_id t);
     unique_address := unique_address t; notion_pages := notion_pages t |}.

(** the rows go in one by one; the first one refused fails the whole *)
Fixpoint add_rows (t : table) (batch : list (gmap string value)) : option table :=
  match batch with
  | [] => Some t
  | r :: rest =>
      if acceptable r && key_free t r None then add_rows (add_row t r) rest
      else None
  end.

(** all the rows or none *)
Definition insert_many (batch : list (gmap string value)) (t : table)
  : table * option unit :=
  match add_rows t batch with
  | Some t' => (t', Some tt)
  | None => (t, None)
  end.

Definition insert (r : gmap string value) (t : table) : table * option unit :=
  insert_many [r] t.

Definition select_ids (address city : value) (t : table) : table * option (list nat) :=
  (t, Some (fst <$> List.filter
              (fun row => same_text (snd row !! "address"%string) (Some address)
                          && same_text (snd row !! "city"%string) (Some city))
              (rows t))).

(** the columns of [r] replace those of the row *)
Definition update (r : gmap string value) (id : nat) (t : table) : table * option unit :=
  if zip_fits r && key_free t r (Some id) then
    ({| rows := (fun row => if (fst row =? id)%nat then (fst row, r ∪ snd row) else row)
                  <$> rows t;
        next_id := next_id t; unique_address := unique_address t;
        notion_pages := notion_pages t |}, Some tt)
  else (t, None).

Definition create_page (r : list (string * Json.json)) (t : table) : table * option unit :=
  ({| rows := rows t; next_id := next_id t; unique_address := unique_address t;
      notion_pages := notion_pages t ++ [r] |}, Some tt).

Definition import_batch :=
  CsvImport.import_batch table nat insert_many select_ids update insert.

Definition import_to_supabase :=
  CsvImport.import_to_supabase table nat insert_many select_ids update insert.

Definition process_csv_file (float_repr : pyfloat -> str) :=
  CsvImport.process_csv_file table nat insert_many select_ids update insert
    create_page float_repr NotionImporter.no_lists true.

Definition start (t : table) : world table nat := {| remote := t; sent := [] |}.

(** a record with the required texts *)
Definition property (address city rate_text : string) : gmap string value :=
  <["address"%string := VStr (py address)]>
    (<["city"%string := VStr (py city)]>
       (<["state"%string := VStr (py "CA")]>
          (<["rate_text"%string := VStr (py rate_text)]>
             (<["building_types"%string := VList [py "Office"]]>
                (<["source"%string := VStr (py "CSV Import")]> ∅))))).

(** two records with the same address and city and different rate texts,
    and one whose zip code is too wide for the table *)
Definition first_listing : gmap string value :=
  property "100 Main Street" "Springfield" "$10/sf".
Definition second_listing : gmap string value :=
  property "100 Main Street" "Springfield" "$12/sf".
Definition wide_zip_listing : gmap string value :=
  <["zip_code"%string := VStr (py "12345-67890")]>
    (property "7 Oak Avenue" "Shelbyville" "$8/sf").

(** a CSV file of two rows, the second without a city *)
Definition listing_row (address city : string) : gmap str cell :=
  <[py "Address" := CStr (py address)]>
    (<[py "City" := CStr (py city)]>
       (<[py "State" := CStr (py "CA")]>
          (<[py "Rate" := CStr (py "$10/sf")]> ∅))).

Definition listing_file : option (list str * list (gmap str cell)) :=
  Some ([py "Address"; py "City"; py "State"; py "Rate"],
        [listing_row "100 Main Street" "Springfield"; listing_row "7 Oak Avenue" EmptyString]).

(** a rendering of floats for runs that read no float cell *)
Definition no_floats (f : pyfloat) : str := py "nan".

End TableStore.

(** ** A database of two pages for the page-follow loop *)

Module TwoPages.

Import NotionSync.

(** pages are numbered; the service hands out the first page without a
    cursor and the second, the last, for the cursor of the first *)
Definition endpoint (start_cursor : option str) (sv : unit)
  : unit * option (response nat) :=
  match start_cursor with
  | None =>
      (sv, Some {| results := [1; 2]%nat; has_more := true;
                   next_cursor := Some (py "cursor-2") |})
  | Some c =>
      if eqb c (py "cursor-2")
      then (sv, Some {| results := [3]%nat; has_more := false; next_cursor := None |})
      else (sv, None)
  end.

Definition pages : list (response nat) :=
  [ {| results := [1; 2]%nat; has_more := true; next_cursor := Some (py "cursor-2") |};
    {| results := [3]%nat; has_more := false; next_cursor := None |} ].

End TwoPages.

(** ** Proof by cases on the 256 characters *)

Ltac each_char c :=
  destruct c as [[] [] [] [] [] [] [] []]; vm_compute;
  try reflexivity; try discriminate; auto.

Ltac each_char_imp c :=
  destruct c as [[] [] [] [] [] [] [] []]; vm_compute; intros;
  try reflexivity; try discriminate; auto.

(** ** Vocabulary for the further properties *)

Module Further.

Import CsvImport.

(** the US layout of ten digits: area code in brackets, blank, exchange,
    hyphen, line number *)
Definition us_format (d : str) : str :=
  py "(" ++ take 3 d ++ py ") " ++ take 3 (drop 3 d) ++ py "-" ++ drop 6 d.

(** the kind of value [transform_csv_record] stores under a field name: a
    list for the building types, a float for a coordinate, an integer for a
    count, a stripped text for every other field *)
Definition well_typed (field : string) (v : value) : Prop :=
  if bool_decide (field = "building_types"%string) then exists l, v = VList l
  else if bool_decide (field = "contact_phone"%string) then exists s, v = VStr s
  else if bool_decide (field ∈ ["latitude"; "longitude"]%string) then
    exists f, v = VFloat f
  else if bool_decide (field ∈
             ["number_of_suites"; "year_built"; "parking_spaces"]%string) then
    exists z, v = VInt z
  else exists s, v = VStr s /\ strip s = s.

(** a row whose Suites cell holds an infinite number *)
Definition endless_suites : gmap str cell :=
  <[py "Suites" := CFloat (FInf false)]>
    (<[py "Address" := CStr (py "100 Main Street")]> ∅).

(** a row of four texts, the mapping of its headers, and the record
    [transform_csv_record] makes of it *)
Definition plain_row : gmap str cell :=
  TableStore.listing_row "100 Main Street" "Springfield".

Definition plain_mapping : list (string * str) :=
  map_csv_headers [py "Address"; py "City"; py "State"; py "Rate"].

Definition plain_record : gmap string value :=
  <["address"%string := VStr (py "100 Main Street")]>
    (<["city"%string := VStr (py "Springfield")]>
       (<["state"%string := VStr (py "CA")]>
          (<["rate_text"%string := VStr (py "$10/sf")]>
             (<["building_types"%string := VList [py "Unknown"]]>
                (<["source"%string := VStr (py "CSV Import")]> ∅))))).

(** what the two square-footage parsers do with the cleaned text once
    their first test has let the text through *)
Definition sqft_core (cleaned : str) : option Z * option Z :=
  if contains "-" cleaned then
    match split "-" cleaned with
    | p0 :: p1 :: _ =>
        match ImportCreData.int_or_none p0 with
        | Some min_val =>
            match ImportCreData.int_or_none p1 with
            | Some max_val => (min_val, max_val)
            | None => (None, None)
            end
        | None => (None, None)
        end
    | _ => (None, None)
    end
  else
    match py_int cleaned with
    | Some val => (Some val, Some val)
    | None => (None, None)
    end.

Definition sync_sqft_core (cleaned : str) : option Z * option Z :=
  let single :=
    match py_int cleaned with
    | Some value => (Some value, Some value)
    | None => (None, None)
    end in
  if contains "-" cleaned then
    match split "-" cleaned with
    | [p0; p1] =>
        match py_int p0 with
        | Some min_val =>
            match py_int p1 with
            | Some max_val => (Some min_val, Some max_val)
            | None => (None, None)
            end
        | None => (None, None)
        end
    | _ => single
    end
  else single.

End Further.

(** ** Services for the page-follow loop that never finish or fail *)

Module OddPages.

Import NotionSync.

(** a service that always reports more pages and hands out no cursor *)
Definition stuck (start_cursor : option str) (sv : unit)
  : unit * option (response nat) :=
  (sv, Some {| results := [1]%nat; has_more := true; next_cursor := None |}).

(** a service whose second query fails *)
Definition broken (start_cursor : option str) (sv : unit)
  : unit * option (response nat) :=
  match start_cursor with
  | None =>
      (sv, Some {| results := [1; 2]%nat; has_more := true;
                   next_cursor := Some (py "cursor-2") |})
  | Some _ => (sv, None)
  end.

Section Failing.

Variable Page : Type.
Variable Service : Type.
Variable endpoint : option str -> Service -> Service * option (response Page).

(** [fails_after cursor sv n sv']: queried from [cursor] on, the service
    answers [n] times with has-more set and fails on the next query,
    which leaves it in the state [sv'] *)
Inductive fails_after : option str -> Service -> nat -> Service -> Prop :=
| fails_now cursor sv sv' :
    query_database Page Service endpoint cursor sv = (sv', None) ->
    fails_after cursor sv 0 sv'
| fails_later cursor sv sv' sv'' page n :
    query_database Page Service endpoint cursor sv = (sv', Some page) ->
    has_more Page page = true ->
    fails_after (next_cursor Page page) sv' n sv'' ->
    fails_after cursor sv (S n) sv''.

End Failing.

End OddPages.

(** ** import_cre_data.py: the row loop of import_csv_to_supabase *)

Module ImportRows.

(** the dict [property_data], key by key *)
Record property_data : Type :=
  { address : str;
    city : str;
    state : str;
    zip_code : str;
    building_types : list str;
    tenancy : str;
    square_footage : str;
    square_footage_min : option Z;
    square_footage_max : option Z;
    number_of_suites : Z;
    rate_text : str;
    rate_per_sqft : option pyfloat;
    longitude : option pyfloat;
    latitude : option pyfloat }.

(** [int(v)] for a cell, [None] when it raises *)
Definition int_of_cell (v : cell) : option Z :=
  match v with
  | CNone => None
  | CInt z => Some z
  | CFloat f =>
      match CsvImport.int_of_float f with
      | inr z => Some z
      | inl _ => None
      end
  | CStr s => py_int s
  end.

Section Rows.

(** [str(f)] for a float cell, as in csv_import.py *)
Variable float_repr : pyfloat -> str.

(** The table behind [supabase.table('cre_properties')]: an insert returns
    the new state and [None] when it raises, [Some true] when
    [result.data] holds rows, [Some false] when it is empty. *)
Variable Remote : Type.
Variable sb_insert : property_data -> Remote -> Remote * option bool.

(** [str(row.get(column, ''))] *)
Definition text_of (row : gmap str cell) (column : string) : str :=
  match row !! py column with
  | Some v => CsvImport.str_of_cell float_repr v
  | None => []
  end.

(** [row.get(column)], None when the column is absent *)
Definition cell_of (row : gmap str cell) (column : string) : cell :=
  default CNone (row !! py column).

(** the lines from "Parse data" to "Prepare property data" *)
Definition prepare (row : gmap str cell) : property_data :=
  let '(sq_ft_min, sq_ft_max) :=
    ImportCreData.parse_square_footage (text_of row "Sq Ft") in
  let rate_numeric := ImportCreData.parse_rate (text_of row "Rate") in
  let building_types :=
    ImportCreData.parse_building_types (text_of row "Building Type") in
  let '(longitude, latitude) :=
    ImportCreData.row_coordinates (cell_of row "Longitude") (cell_of row "Latitude") in
  let suites :=
    if notna (cell_of row "Suites")
    then default 0 (int_of_cell (cell_of row "Suites"))
    else 0 in
  {| address := strip (text_of row "Address");
     city := strip (text_of row "City");
     state := take 2 (upper (strip (text_of row "State")));
     zip_code := strip (text_of row "Zip");
     building_types := building_types;
     tenancy := strip (text_of row "Tenancy");
     square_footage := strip (text_of row "Sq Ft");
     square_footage_min := sq_ft_min;
     square_footage_max := sq_ft_max;
     number_of_suites := suites;
     rate_text := strip (text_of row "Rate");
     rate_per_sqft := rate_numeric;
     longitude := longitude;
     latitude := latitude |}.

(** the state of the loop: the table, the records sent to it so far, and
    the two counters *)
Record loop_state : Type :=
  { table : Remote;
    inserts : list property_data;
    imported_count : nat;
    error_count : nat }.

(** the body of the loop over the rows *)
Definition import_row (st : loop_state) (row : gmap str cell) : loop_state :=
  let property_data := prepare row in
  if negb (truthy (address property_data)) || negb (truthy (city property_data))
     || negb (truthy (state property_data))
  then {| table := table st; inserts := inserts st;
          imported_count := imported_count st;
          error_count := S (error_count st) |}
  else
    let '(t', result) := sb_insert property_data (table st) in
    match result with
    | Some true =>
        {| table := t'; inserts := inserts st ++ [property_data];
           imported_count := S (imported_count st);
           error_count := error_count st |}
    | _ =>
        {| table := t'; inserts := inserts st ++ [property_data];
           imported_count := imported_count st;
           error_count := S (error_count st) |}
    end.

(** the loop, and the value [import_csv_to_supabase] returns once the
    data frame [rows] has been read: whether a row was imported *)
Definition import_rows (rows : list (gmap str cell)) (t : Remote) : loop_state :=
  fold_left import_row rows
    {| table := t; inserts := []; imported_count := 0; error_count := 0 |}.

Definition import_csv_to_supabase (rows : list (gmap str cell)) (t : Remote) : bool :=
  (0 <? imported_count (import_rows rows t))%nat.

End Rows.

(** a table that stores what it is given *)
Definition keep_all (p : property_data) (t : list property_data)
  : list property_data * option bool := (t ++ [p], Some true).

(** a row with a longitude only, and a row without a city *)
Definition west_row : gmap str cell :=
  <[py "Longitude" := CFloat (FFin (-122 # 1))]>
    (<[py "State" := CStr (py "california")]>
       (TableStore.listing_row "100 Main Street" "Springfield")).

Definition cityless_row : gmap str cell :=
  TableStore.listing_row "7 Oak Avenue" EmptyString.

End ImportRows.

(** ** scripts/notion_supabase_sync.py: the transformers and the two sync
    drivers *)

Module NotionSyncDrivers.

Import Json.

(** [items[0].get(key, "") if items else ""]: what is truthy and not a
    list with a dict in front raises *)
Definition first_item_text (items : json) (key : string) : option json :=
  if truthy items then
    match items with
    | JList (x :: _) => get x key (JStr [])
    | _ => None
    end
  else Some (JStr []).

(** [obj.get(key, "") if obj else ""] *)
Definition name_of (obj : json) (key : string) : option json :=
  if truthy obj then get obj key (JStr []) else Some (JStr []).

(** [[item.get("name", "") for item in items]]: a list is walked, an empty
    text or dict gives the empty list, anything else raises *)
Definition names_of (items : json) : option json :=
  match items with
  | JList l => JList <$> all_some ((fun item => get item "name" (JStr [])) <$> l)
  | JStr [] | JDict [] => Some (JList [])
  | _ => None
  end.

(** [None]: an exception leaves the function.  The second argument of the
    source is overwritten by the type found in the property before it is
    read, and is therefore left out. *)
Definition extract_notion_property_value (prop_data : json) : option json :=
  if negb (truthy prop_data) then Some JNull
  else
    prop_type ← get prop_data "type" (JStr []);
    if is_text prop_type "title" then
      items ← get prop_data "title" (JList []); first_item_text items "plain_text"
    else if is_text prop_type "rich_text" then
      items ← get prop_data "rich_text" (JList []); first_item_text items "plain_text"
    else if is_text prop_type "number" then get prop_data "number" JNull
    else if is_text prop_type "select" then
      select_obj ← get prop_data "select" JNull; name_of select_obj "name"
    else if is_text prop_type "multi_select" then
      items ← get prop_data "multi_select" (JList []); names_of items
    else if is_text prop_type "checkbox" then get prop_data "checkbox" (JBool false)
    else if is_text prop_type "date" then
      date_obj ← get prop_data "date" JNull; name_of date_obj "start"
    else if is_text prop_type "email" then get prop_data "email" (JStr [])
    else if is_text prop_type "phone_number" then get prop_data "phone_number" (JStr [])
    else Some JNull.

(** the text handed to a parser by [parse(x or "")]; a value that is
    truthy and not a text raises there *)
Definition text_or_empty (v : json) : option str :=
  match or_else v (JStr []) with
  | JStr s => Some s
  | _ => None
  end.

Section Transformer.

(** [datetime.now(timezone.utc).isoformat()] *)
Variable now : str.

(** [cls.extract_notion_property_value(props.get(name), _)] *)
Definition prop (props : json) (name : string) : option json :=
  prop_data ← get props name JNull; extract_notion_property_value prop_data.

Definition optional (key : string) (v : json) : list (string * json) :=
  if truthy v then [(key, v)] else [].

(** the dict [supabase_data], as the list of its items in insertion
    order; [None]: an exception leaves the function *)
Definition notion_to_supabase (notion_page : json) : option (list (string * json)) :=
  props ← get notion_page "properties" (JDict []);
  address ← prop props "Address";
  building_types_list ← prop props "Building Types";
  let building_types := or_else building_types_list (JList []) in
  city ← prop props "City";
  state ← prop props "State";
  zip_code ← prop props "Zip Code";
  tenancy ← prop props "Tenancy";
  square_footage_text ← prop props "Square Footage";
  suites ← prop props "Number of Suites";
  rate_text ← prop props "Rate";
  longitude ← prop props "Longitude";
  latitude ← prop props "Latitude";
  sq_ft_text ← text_or_empty square_footage_text;
  let '(sq_ft_min, sq_ft_max) := NotionSync.parse_square_footage sq_ft_text in
  rate ← text_or_empty rate_text;
  let rate_per_sqft := NotionSync.parse_rate rate in
  notion_id ← get notion_page "id" JNull;
  contact_name ← prop props "Contact Name";
  contact_email ← prop props "Contact Email";
  contact_phone ← prop props "Contact Phone";
  description ← prop props "Description";
  Some ([ ("notion_id", notion_id);
          ("address", or_else address (JStr []));
          ("city", or_else city (JStr []));
          ("state", or_else state (JStr []));
          ("zip_code", or_else zip_code (JStr []));
          ("building_types", building_types);
          ("tenancy", tenancy);
          ("square_footage", or_else square_footage_text (JStr []));
          ("square_footage_min", of_Z sq_ft_min);
          ("square_footage_max", of_Z sq_ft_max);
          ("number_of_suites", or_else suites (JNum (of_int 0)));
          ("rate_text", or_else rate_text (JStr []));
          ("rate_per_sqft", of_float rate_per_sqft);
          ("longitude", longitude);
          ("latitude", latitude);
          ("source", JStr (py "Notion"));
          ("updated_at", JStr now) ]%string
        ++ optional "contact_name" contact_name
        ++ optional "contact_email" contact_email
        ++ optional "contact_phone" contact_phone
        ++ optional "description" description).

(** [{"rich_text": [{"text": {"content": v}}]}] *)
Definition rich_text (v : json) : json :=
  JDict [("rich_text"%string, JList [JDict [("text"%string, JDict [("content"%string, v)])]])].

(** [{"select": {"name": record.get(key, "")} if record.get(key) else None}] *)
Definition select_of (record : list (string * json)) (key : string) : json :=
  let v := default JNull (lookup key record) in
  JDict [("select"%string,
          if truthy v then JDict [("name"%string, default (JStr []) (lookup key record))]
          else JNull)].

(** [[{"name": bt} for bt in building_types] if building_types else []]:
    a list is walked item by item, a text character by character, a dict
    key by key; a number or a boolean that is truthy raises *)
Definition multi_select_of (building_types : json) : option json :=
  let name bt := JDict [("name"%string, bt)] in
  if truthy building_types then
    match building_types with
    | JList l => Some (JList (name <$> l))
    | JStr s => Some (JList ((fun c => name (JStr [c])) <$> s))
    | JDict d => Some (JList ((fun kv => name (JStr (py (fst kv)))) <$> d))
    | _ => None
    end
  else Some (JList []).

(** [float(v)] on a JSON value *)
Definition float_of (v : json) : option pyfloat :=
  match v with
  | JNum f => Some f
  | JStr s => py_float s
  | JBool b => Some (of_int (if b then 1 else 0))
  | _ => None
  end.

(** the entry of a coordinate: present when the value is not None *)
Definition coordinate_entry (record : list (string * json)) (key name : string)
  : option (list (string * json)) :=
  match default JNull (lookup key record) with
  | JNull => Some []
  | v => f ← float_of v; Some [(name, JDict [("number"%string, JNum f)])]
  end.

(** an entry added when [record.get(key)] is truthy *)
Definition entry_if (record : list (string * json)) (key name : string)
    (wrap : json -> json) : list (string * json) :=
  match lookup key record with
  | Some v => if truthy v then [(name, wrap v)] else []
  | None => []
  end.

(** the dict [notion_props] of a Supabase row (a dict, given by its items) *)
Definition supabase_to_notion (supabase_record : list (string * json)) : option json :=
  let field key dflt := default dflt (lookup key supabase_record) in
  notion_building_types ← multi_select_of (field "building_types"%string (JList []));
  longitude ← coordinate_entry supabase_record "longitude" "Longitude";
  latitude ← coordinate_entry supabase_record "latitude" "Latitude";
  Some (JDict
    ([ ("Address", rich_text (field "address" (JStr [])));
       ("City", select_of supabase_record "city");
       ("State", select_of supabase_record "state");
       ("Zip Code", rich_text (field "zip_code" (JStr [])));
       ("Building Types", JDict [("multi_select", notion_building_types)]);
       ("Tenancy", select_of supabase_record "tenancy");
       ("Square Footage", rich_text (field "square_footage" (JStr [])));
       ("Number of Suites",
        JDict [("number", field "number_of_suites" (JNum (of_int 0)))]);
       ("Rate", rich_text (field "rate_text" (JStr []))) ]%string
     ++ longitude ++ latitude
     ++ entry_if supabase_record "contact_name" "Contact Name" rich_text
     ++ entry_if supabase_record "contact_email" "Contact Email"
          (fun v => JDict [("email"%string, v)])
     ++ entry_if supabase_record "contact_phone" "Contact Phone"
          (fun v => JDict [("phone_number"%string, v)])
     ++ entry_if supabase_record "description" "Description" rich_text)).

End Transformer.

(** a page as the query endpoint returns it, and a row of the table *)
Definition text_property (kind : string) (text : string) : json :=
  JDict [("type"%string, JStr (py kind));
         (kind, JList [JDict [("plain_text"%string, JStr (py text))]])].

Definition office_page : json :=
  JDict [("id", JStr (py "page-1"));
         ("properties",
          JDict [("Address", text_property "rich_text" "1 Main St");
                 ("City", JDict [("type", JStr (py "select"));
                                 ("select", JDict [("name", JStr (py "Austin"))])]);
                 ("Square Footage", text_property "rich_text" "1,000-2,000");
                 ("Rate", text_property "rich_text" "$12.50/SF");
                 ("Longitude", JDict [("type", JStr (py "number"));
                                      ("number", JNum (of_int 0))])])]%string.

Definition meridian_row : list (string * json) :=
  [("id", JStr (py "row-1"));
   ("address", JStr (py "1 Main St"));
   ("building_types", JList [JStr (py "Office")]);
   ("longitude", JNum (of_int 0));
   ("latitude", JNull)]%string.

(** *** CREDataSync *)

Record sync_stats : Type := { created : nat; updated : nat; errors : nat }.

Definition none_yet : sync_stats := {| created := 0; updated := 0; errors := 0 |}.

(** the requests that write, or that look a row up before writing *)
Inductive request : Type :=
| Select (notion_id : json)
| Update (data : list (string * json)) (notion_id : json)
| Insert (data : list (string * json))
| SelectUnsynced
| CreatePage (properties : json)
| SetNotionId (notion_id row_id : json).

Section Sync.

Variable now : str.

(** The Notion database and the Supabase table are external services;
    [Remote] is their joint state, and every request returns the new state
    and [None] when the client raises. *)
Variable Remote : Type.
(** the query endpoint of the database, as in [NotionClient] *)
Variable endpoint : option str -> Remote -> Remote * option (NotionSync.response json).
(** [select("id").eq("notion_id", id)]: whether [existing.data] holds rows *)
Variable select_by_notion_id : json -> Remote -> Remote * option bool.
(** [update(data).eq("notion_id", id)] *)
Variable update_by_notion_id : list (string * json) -> json -> Remote -> Remote * option unit.
(** [insert(data)] *)
Variable insert : list (string * json) -> Remote -> Remote * option unit.
(** [select("*").is_("notion_id", "null")]: the rows of [response.data] *)
Variable select_unsynced : Remote -> Remote * option (list json).
(** [NotionClient.create_property(data)]: the page returned *)
Variable create_page : json -> Remote -> Remote * option json.
(** [update({"notion_id": page_id}).eq("id", row_id)] *)
Variable set_notion_id : json -> json -> Remote -> Remote * option unit.

Record world : Type := { remote : Remote; sent : list request }.

Definition send {A} (rq : request) (serve : Remote -> Remote * option A) (w : world)
  : world * option A :=
  let '(r', a) := serve (remote w) in
  ({| remote := r'; sent := sent w ++ [rq] |}, a).

Definition count_error (st : sync_stats) : sync_stats :=
  {| created := created st; updated := updated st; errors := S (errors st) |}.
Definition count_created (st : sync_stats) : sync_stats :=
  {| created := S (created st); updated := updated st; errors := errors st |}.
Definition count_updated (st : sync_stats) : sync_stats :=
  {| created := created st; updated := S (updated st); errors := errors st |}.

(** the body of the loop of [sync_notion_to_supabase], inside its
    try/except *)
Definition sync_page (state : world * sync_stats) (notion_page : json)
  : world * sync_stats :=
  let '(w, st) := state in
  match notion_to_supabase now notion_page with
  | None => (w, count_error st)
  | Some supabase_data =>
      match lookup "notion_id" supabase_data with
      | None => (w, count_error st)
      | Some notion_id =>
          let '(w1, existing) := send (Select notion_id) (select_by_notion_id notion_id) w in
          match existing with
          | None => (w1, count_error st)
          | Some true =>
              let '(w2, r) :=
                send (Update supabase_data notion_id)
                  (update_by_notion_id supabase_data notion_id) w1 in
              (w2, match r with Some _ => count_updated st | None => count_error st end)
          | Some false =>
              let '(w2, r) := send (Insert supabase_data) (insert supabase_data) w1 in
              (w2, match r with Some _ => count_created st | None => count_error st end)
          end
      end
  end.

(** [steps] bounds the iterations of the page-follow loop of
    [get_all_properties]; an exception of that loop is raised again *)
Definition sync_notion_to_supabase (steps : nat) (w : world)
  : world * NotionSync.outcome sync_stats :=
  match NotionSync.get_all_properties json Remote endpoint steps (remote w) with
  | (r', NotionSync.Returns notion_properties) =>
      let '(w', st) :=
        fold_left sync_page notion_properties
          ({| remote := r'; sent := sent w |}, none_yet) in
      (w', NotionSync.Returns st)
  | (r', NotionSync.Raises) => ({| remote := r'; sent := sent w |}, NotionSync.Raises)
  | (r', NotionSync.Running) => ({| remote := r'; sent := sent w |}, NotionSync.Running)
  end.

(** the body of the loop of [sync_supabase_to_notion], inside its
    try/except; a row that is not a dict makes [supabase_to_notion] raise *)
Definition sync_row (state : world * sync_stats) (row : json) : world * sync_stats :=
  let '(w, st) := state in
  match row with
  | JDict supabase_record =>
      match supabase_to_notion supabase_record with
      | None => (w, count_error st)
      | Some notion_data =>
          let '(w1, new_page) := send (CreatePage notion_data) (create_page notion_data) w in
          match new_page with
          | None => (w1, count_error st)
          | Some new_page =>
              match item new_page "id", item row "id" with
              | Some page_id, Some row_id =>
                  let '(w2, r) :=
                    send (SetNotionId page_id row_id) (set_notion_id page_id row_id) w1 in
                  (w2, match r with Some _ => count_created st | None => count_error st end)
              | _, _ => (w1, count_error st)
              end
          end
      end
  | _ => (w, count_error st)
  end.

(** [None]: the exception of the first query is raised again *)
Definition sync_supabase_to_notion (w : world) : world * option sync_stats :=
  let '(w1, response) := send SelectUnsynced select_unsynced w in
  match response with
  | None => (w1, None)
  | Some properties =>
      let '(w', st) := fold_left sync_row properties (w1, none_yet) in
      (w', Some st)
  end.

(** the two directions one after the other; an exception of either is not
    caught *)
Definition full_sync (steps : nat) (w : world)
  : world * NotionSync.outcome (sync_stats * sync_stats) :=
  match sync_notion_to_supabase steps w with
  | (w1, NotionSync.Returns to_supabase) =>
      match sync_supabase_to_notion w1 with
      | (w2, Some to_notion) => (w2, NotionSync.Returns (to_supabase, to_notion))
      | (w2, None) => (w2, NotionSync.Raises)
      end
  | (w1, NotionSync.Raises) => (w1, NotionSync.Raises)
  | (w1, NotionSync.Running) => (w1, NotionSync.Running)
  end.

End Sync.

End NotionSyncDrivers.
(** * Properties *)

(** ** Characters *)

Lemma is_space_chr_upper c : is_space (chr_upper c) = is_space c.
Proof. each_char c. Qed.

Lemma is_space_chr_lower c : is_space (chr_lower c) = is_space c.
Proof. each_char c. Qed.

Lemma is_cased_chr_upper c : is_cased (chr_upper c) = is_cased c.
Proof. each_char c. Qed.

Lemma is_cased_chr_lower c : is_cased (chr_lower c) = is_cased c.
Proof. each_char c. Qed.

Lemma chr_upper_idem c : chr_upper (chr_upper c) = chr_upper c.
Proof. each_char c. Qed.

Lemma chr_lower_idem c : chr_lower (chr_lower c) = chr_lower c.
Proof. each_char c. Qed.

Lemma separator_chr_upper c :
  CsvImport.separator (chr_upper c) = CsvImport.separator c.
Proof. each_char c. Qed.

Lemma separator_chr_lower c :
  CsvImport.separator (chr_lower c) = CsvImport.separator c.
Proof. each_char c. Qed.

Lemma chr_upper_T c : chr_upper c = "T"%char -> c = "T"%char \/ c = "t"%char.
Proof. each_char c. Qed.

Lemma chr_upper_B c : chr_upper c = "B"%char -> c = "B"%char \/ c = "b"%char.
Proof. each_char c. Qed.

Lemma chr_upper_D c : chr_upper c = "D"%char -> c = "D"%char \/ c = "d"%char.
Proof. each_char c. Qed.

Lemma is_chr_true x c : is_chr x c = true <-> c = x.
Proof. unfold is_chr. apply Ascii.eqb_eq. Qed.

Lemma eqb_true (a b : str) : eqb a b = true <-> a = b.
Proof. unfold eqb. apply bool_decide_eq_true. Qed.

Lemma eqb_false (a b : str) : eqb a b = false <-> a <> b.
Proof. unfold eqb. apply bool_decide_eq_false. Qed.

(** ** Stripping *)

Lemma lstrip_nil s : lstrip s = [] -> forallb is_space s = true.
Proof.
  induction s as [|c r IH]; simpl; [reflexivity|].
  destruct (is_space c); [exact IH | discriminate].
Qed.

Lemma lstrip_head s c r : lstrip s = c :: r -> is_space c = false.
Proof.
  induction s as [|d t IH]; simpl; [discriminate|].
  destruct (is_space d) eqn:E; [exact IH|].
  intros [= -> _]. exact E.
Qed.

Lemma rstrip_nil s : rstrip s = [] -> forallb is_space s = true.
Proof.
  induction s as [|c r IH]; simpl; [reflexivity|].
  destruct (rstrip r) eqn:E; [|discriminate].
  destruct (is_space c); [intros _; now apply IH | discriminate].
Qed.

Lemma strip_nil s : strip s = [] -> forallb is_space s = true.
Proof.
  unfold strip. intros H. apply rstrip_nil in H.
  apply lstrip_nil. destruct (lstrip s) as [|c r] eqn:E; [reflexivity|].
  apply lstrip_head in E. simpl in H. rewrite E in H. discriminate.
Qed.

Lemma remove_spaces s :
  forallb is_space s = true -> remove ImportCreData.comma_or_space s = [].
Proof.
  induction s as [|c r IH]; simpl; [reflexivity|].
  intros [Hc Hr]%andb_prop. unfold ImportCreData.comma_or_space at 1.
  rewrite Hc, orb_true_r. simpl. now apply IH.
Qed.

(** ** Splitting and joining *)

Lemma split_on_whole sep s : existsb sep s = false -> split_on sep s = [s].
Proof.
  induction s as [|c r IH]; simpl; [reflexivity|].
  intros [Hc Hr]%orb_false_elim. rewrite Hc, (IH Hr). reflexivity.
Qed.

Lemma split_on_app sep a c b :
  existsb sep a = false -> sep c = true ->
  split_on sep (a ++ c :: b) = a :: split_on sep b.
Proof.
  intros Ha Hc. induction a as [|d a IH]; simpl.
  - now rewrite Hc.
  - simpl in Ha. apply orb_false_elim in Ha as [Hd Ha].
    rewrite Hd, (IH Ha). reflexivity.
Qed.

(** ** Square footage *)

Lemma upper_TBD s :
  upper s = py "TBD" ->
  ImportCreData.parse_square_footage s = (None, None).
Proof.
  destruct s as [|c1 [|c2 [|c3 [|c4 r]]]]; try discriminate.
  intros [= H1 H2 H3].
  apply chr_upper_T in H1. apply chr_upper_B in H2. apply chr_upper_D in H3.
  destruct H1 as [-> | ->], H2 as [-> | ->], H3 as [-> | ->]; reflexivity.
Qed.

Lemma upper_nil s : upper s = [] -> s = [].
Proof. destruct s; [reflexivity | discriminate]. Qed.

Lemma split_on_cons sep s : exists p ps, split_on sep s = p :: ps.
Proof.
  induction s as [|c r (p & ps & IH)]; simpl; [now exists [], []|].
  rewrite IH. destruct (sep c); [now exists [], (p :: ps) | now exists (c :: p), ps].
Qed.

Lemma split_on_two sep s :
  existsb sep s = true -> exists p0 p1 rest, split_on sep s = p0 :: p1 :: rest.
Proof.
  induction s as [|c r IH]; simpl; [discriminate|].
  destruct (sep c) eqn:Ec.
  - intros _. destruct (split_on_cons sep r) as (p & ps & ->). now exists [], p, ps.
  - simpl. intros H. destruct (IH H) as (p0 & p1 & rest & ->).
    now exists (c :: p0), p1, rest.
Qed.

(** on a text whose cleaned form has at most one hyphen the parser of
    import_cre_data.py does what the spec words say *)
Lemma parse_square_footage_meets_spec s :
  (length (split "-" (remove ImportCreData.comma_or_space s)) <= 2)%nat ->
  ImportCreData.parse_square_footage s = ImportCreData.square_footage_spec s.
Proof.
  intros Hlen.
  unfold ImportCreData.parse_square_footage, ImportCreData.square_footage_spec.
  destruct (negb (truthy s) || eqb (upper s) (py "N/A") || eqb (strip s) []);
    [reflexivity|].
  destruct (contains "-" (remove ImportCreData.comma_or_space s)) eqn:Ec.
  - unfold contains, split in *.
    destruct (split_on_two _ _ Ec) as (p0 & p1 & rest & E).
    rewrite E in Hlen |- *. destruct rest; [|simpl in Hlen; lia].
    destruct (ImportCreData.int_or_none p0); [|reflexivity].
    destruct (ImportCreData.int_or_none p1); reflexivity.
  - unfold contains, split in *. now rewrite (split_on_whole _ _ Ec).
Qed.

(** C3: on the text 1-2-3 the parser of import_cre_data.py reads the first
    two pieces and drops the third, returning (1, 2), where the spec words
    (a single hyphen splits a range; any other text that is not numeric
    gives two nulls) ask for (null, null), which is also what the sibling
    parser of notion_supabase_sync.py returns on that text. *)
Theorem parse_square_footage_drops_third_piece :
  ImportCreData.parse_square_footage (py "1-2-3") = (Some 1, Some 2)
  /\ ImportCreData.square_footage_spec (py "1-2-3") = (None, None)
  /\ NotionSync.parse_square_footage (py "1-2-3") = (None, None).
Proof. repeat split; reflexivity. Qed.

(** C10, as stated, fails: on the text -5 the parser of import_cre_data.py
    returns (null, 5) and the parser of notion_supabase_sync.py returns
    (null, null). *)
Lemma sqft_parsers_differ :
  ImportCreData.parse_square_footage (py "-5") = (None, Some 5)
  /\ NotionSync.parse_square_footage (py "-5") = (None, None)
  /\ ImportCreData.parse_square_footage (py "-5")
     <> NotionSync.parse_square_footage (py "-5").
Proof. repeat split; try reflexivity. discriminate. Qed.

(** C10, amended: the two square-footage parsers return the same pair on
    every text whose cleaned form (commas and white space removed) has no
    hyphen, or has exactly one hyphen with a non-empty piece on each
    side. *)
Theorem sqft_parsers_agree (s : str) :
  (contains "-" (remove ImportCreData.comma_or_space s) = false
   \/ exists a b, a <> [] /\ b <> []
        /\ contains "-" a = false /\ contains "-" b = false
        /\ remove ImportCreData.comma_or_space s = a ++ "-"%char :: b) ->
  ImportCreData.parse_square_footage s = NotionSync.parse_square_footage s.
Proof.
  intros H.
  destruct (decide (upper s = py "TBD")) as [Htbd|Htbd].
  { rewrite (upper_TBD s Htbd). unfold NotionSync.parse_square_footage.
    rewrite Htbd.
    replace (existsb (eqb (py "TBD")) [py "N/A"; py "TBD"; []]) with true
      by reflexivity.
    now rewrite orb_true_r. }
  destruct s as [|c0 s0]; [reflexivity|]. set (s := c0 :: s0) in *.
  unfold ImportCreData.parse_square_footage, NotionSync.parse_square_footage.
  change (truthy s) with true. cbn [negb orb existsb].
  destruct (eqb (upper s) (py "N/A")) eqn:Ena; [reflexivity|]. cbn [orb].
  assert (eqb (upper s) (py "TBD") = false) as -> by now apply eqb_false.
  assert (eqb (upper s) [] = false) as -> by (apply eqb_false; discriminate).
  cbn [orb].
  change NotionSync.comma_or_space with ImportCreData.comma_or_space.
  destruct (eqb (strip s) []) eqn:Estrip.
  { apply eqb_true, strip_nil, remove_spaces in Estrip. rewrite Estrip.
    reflexivity. }
  destruct H as [Hno | (a & b & Ha & Hb & Hca & Hcb & Hcl)].
  - rewrite Hno. reflexivity.
  - rewrite Hcl.
    assert (contains "-" (a ++ "-"%char :: b) = true) as ->.
    { unfold contains. rewrite existsb_app. simpl. apply orb_true_r. }
    unfold split. rewrite (split_on_app _ a "-"%char b Hca eq_refl).
    rewrite (split_on_whole _ b Hcb).
    unfold ImportCreData.int_or_none.
    destruct a as [|a0 a']; [contradiction|].
    destruct b as [|b0 b']; [contradiction|].
    cbn [truthy].
    destruct (py_int (a0 :: a')) as [x|]; cbn [fmap option_fmap option_map];
      [|reflexivity].
    destruct (py_int (b0 :: b')) as [y|]; reflexivity.
Qed.

Lemma sqft_parsers_agree_witness :
  ImportCreData.parse_square_footage (py "1,000 - 45,000")
  = NotionSync.parse_square_footage (py "1,000 - 45,000").
Proof.
  apply (sqft_parsers_agree (py "1,000 - 45,000")).
  right. exists (py "1000"), (py "45000").
  repeat split; try discriminate; reflexivity.
Defined.

(** ** More on stripping: what a stripped text looks like *)

Lemma lstrip_fix_iff s : lstrip s = s <-> (forall c r, s = c :: r -> is_space c = false).
Proof.
  split.
  - intros H c r ->. now apply (lstrip_head _ _ _ H).
  - destruct s as [|c r]; [reflexivity|]. intros H. simpl.
    now rewrite (H c r eq_refl).
Qed.

Lemma lstrip_idem s : lstrip (lstrip s) = lstrip s.
Proof.
  apply lstrip_fix_iff. intros c r H. now apply (lstrip_head _ _ _ H).
Qed.

Lemma rstrip_idem s : rstrip (rstrip s) = rstrip s.
Proof.
  induction s as [|c r IH]; simpl; [reflexivity|].
  destruct (rstrip r) as [|d t] eqn:E.
  - destruct (is_space c) eqn:Ec; simpl; [reflexivity | now rewrite Ec].
  - simpl in *. destruct (rstrip t) as [|e u] eqn:E2.
    + destruct (is_space d); [discriminate | now rewrite IH].
    + now rewrite IH.
Qed.

Lemma rstrip_keeps_head c r :
  is_space c = false -> exists r', rstrip (c :: r) = c :: r'.
Proof.
  intros Hc. simpl. destruct (rstrip r) as [|d t].
  - rewrite Hc. now exists [].
  - now exists (d :: t).
Qed.

Lemma lstrip_rstrip s : lstrip s = s -> lstrip (rstrip s) = rstrip s.
Proof.
  intros H. destruct s as [|c r]; [reflexivity|].
  assert (is_space c = false) as Hc by (eapply lstrip_fix_iff; eauto).
  destruct (rstrip_keeps_head c r Hc) as [r' ->]. simpl. now rewrite Hc.
Qed.

Lemma strip_lstrip_fix s : lstrip (strip s) = strip s.
Proof. unfold strip. apply lstrip_rstrip, lstrip_idem. Qed.

Lemma strip_rstrip_fix s : rstrip (strip s) = strip s.
Proof. unfold strip. apply rstrip_idem. Qed.

Lemma strip_fix s : lstrip s = s -> rstrip s = s -> strip s = s.
Proof. unfold strip. now intros -> ->. Qed.

Lemma strip_idem s : strip (strip s) = strip s.
Proof. apply strip_fix; [apply strip_lstrip_fix | apply strip_rstrip_fix]. Qed.

Lemma existsb_lstrip p s : existsb p (lstrip s) = true -> existsb p s = true.
Proof.
  induction s as [|c r IH]; simpl; [easy|].
  destruct (is_space c); simpl; [|easy].
  intros H. rewrite (IH H). apply orb_true_r.
Qed.

Lemma existsb_rstrip p s : existsb p (rstrip s) = true -> existsb p s = true.
Proof.
  induction s as [|c r IH]; simpl; [easy|].
  destruct (rstrip r) as [|d t].
  - destruct (is_space c); simpl; [easy|]. rewrite orb_false_r. now intros ->.
  - simpl in *. intros [->|H]%orb_prop; [reflexivity|].
    rewrite (IH H). apply orb_true_r.
Qed.

Lemma existsb_strip p s : existsb p s = false -> existsb p (strip s) = false.
Proof.
  intros H. destruct (existsb p (strip s)) eqn:E; [|reflexivity].
  unfold strip in E. apply existsb_rstrip, existsb_lstrip in E. congruence.
Qed.

Lemma strip_not_nil s c r : lstrip s = s -> s = c :: r -> strip s <> [].
Proof.
  intros H -> E. apply strip_nil in E. simpl in E.
  assert (is_space c = false) as Hc by (eapply lstrip_fix_iff; eauto).
  now rewrite Hc in E.
Qed.

(** ** Title case *)

Lemma title_from_length b s : length (title_from b s) = length s.
Proof. revert b; induction s as [|c r IH]; intros b; simpl; [|rewrite IH]; reflexivity. Qed.

Lemma title_from_idem b s : title_from b (title_from b s) = title_from b s.
Proof.
  revert b; induction s as [|c r IH]; intros b; simpl; [reflexivity|].
  destruct b.
  - rewrite chr_lower_idem, is_cased_chr_lower, IH. reflexivity.
  - rewrite chr_upper_idem, is_cased_chr_upper, IH. reflexivity.
Qed.

Lemma title_from_sep b s :
  existsb CsvImport.separator (title_from b s) = existsb CsvImport.separator s.
Proof.
  revert b; induction s as [|c r IH]; intros b; simpl; [reflexivity|].
  rewrite IH. destruct b; [rewrite separator_chr_lower | rewrite separator_chr_upper];
    reflexivity.
Qed.

Lemma title_from_lstrip b s : lstrip s = s -> lstrip (title_from b s) = title_from b s.
Proof.
  intros H. destruct s as [|c r]; [reflexivity|].
  assert (is_space c = false) as Hc by (eapply lstrip_fix_iff; eauto).
  simpl. destruct b; [rewrite is_space_chr_lower | rewrite is_space_chr_upper];
    now rewrite Hc.
Qed.

Lemma rstrip_fix_cons c r :
  rstrip (c :: r) = c :: r ->
  (r = [] /\ is_space c = false) \/ (r <> [] /\ rstrip r = r).
Proof.
  simpl. destruct (rstrip r) as [|d t] eqn:E.
  - destruct (is_space c); [discriminate|]. intros [= <-]. now left.
  - intros [= <-]. right. split; [discriminate | reflexivity].
Qed.

Lemma title_from_rstrip b s : rstrip s = s -> rstrip (title_from b s) = title_from b s.
Proof.
  revert b; induction s as [|c r IH]; intros b H; [reflexivity|].
  apply rstrip_fix_cons in H as [[-> Hc] | [Hr Hfix]].
  - simpl. destruct b; [rewrite is_space_chr_lower | rewrite is_space_chr_upper];
      now rewrite Hc.
  - simpl. rewrite (IH (is_cased c) Hfix).
    destruct (title_from (is_cased c) r) eqn:E; [|reflexivity].
    apply (f_equal (@length ascii)) in E. rewrite title_from_length in E.
    destruct r; [contradiction | discriminate].
Qed.

Lemma title_strip_fix s : title (strip (title (strip s))) = title (strip s).
Proof.
  unfold title. rewrite (strip_fix (title_from false (strip s))).
  - apply title_from_idem.
  - apply title_from_lstrip, strip_lstrip_fix.
  - apply title_from_rstrip, strip_rstrip_fix.
Qed.

(** ** Pieces of a split, and joining them back *)

Lemma split_on_pieces sep s :
  Forall (fun p => existsb sep p = false) (split_on sep s).
Proof.
  induction s as [|c r IH]; simpl; [repeat constructor|].
  destruct (sep c) eqn:Ec; [constructor; [reflexivity | exact IH]|].
  destruct (split_on sep r) as [|p ps]; [repeat constructor; simpl; now rewrite Ec|].
  inversion IH; subst. constructor; [simpl; now rewrite Ec | assumption].
Qed.

Lemma split_on_join sep x l :
  sep x = true ->
  l <> [] ->
  Forall (fun p => existsb sep p = false) l ->
  split_on sep (join x l) = l.
Proof.
  intros Hx Hl H. induction H as [|p l Hp Hrest IH]; [contradiction|].
  destruct l as [|q l].
  - simpl. now apply split_on_whole.
  - change (join x (p :: q :: l)) with (p ++ x :: join x (q :: l)).
    rewrite (split_on_app sep p x _ Hp Hx). f_equal. now apply IH.
Qed.

(** ** Building types *)

Lemma mem_true x l : CsvImport.mem x l = true <-> In x l.
Proof.
  unfold CsvImport.mem. rewrite existsb_exists. split.
  - intros (y & Hy & E). apply eqb_true in E. now subst.
  - intros H. exists x. split; [assumption | now apply eqb_true].
Qed.

Lemma truthy_true s : truthy s = true <-> s <> [].
Proof. destruct s; simpl; split; intros; congruence. Qed.

Lemma add_type_clean acc bt :
  existsb CsvImport.separator bt = false ->
  Forall CsvImport.clean_token acc -> NoDup acc ->
  Forall CsvImport.clean_token (CsvImport.add_type acc bt)
  /\ NoDup (CsvImport.add_type acc bt).
Proof.
  intros Hsep Hacc Hnd. unfold CsvImport.add_type. cbv zeta.
  destruct (truthy (title (strip bt))) eqn:Et; simpl; [|now split].
  destruct (CsvImport.mem (title (strip bt)) acc) eqn:Em; simpl; [now split|].
  split.
  - apply Forall_app. split; [assumption|]. constructor; [|constructor].
    repeat split.
    + now apply truthy_true.
    + unfold title. rewrite title_from_sep. now apply existsb_strip.
    + apply title_strip_fix.
  - apply NoDup_app. repeat split; [assumption | | apply NoDup_singleton].
    intros x Hx Hin%list_elem_of_singleton. subst x.
    apply list_elem_of_In, mem_true in Hx. congruence.
Qed.

Lemma fold_add_type_clean types : forall acc,
  Forall (fun p => existsb CsvImport.separator p = false) types ->
  Forall CsvImport.clean_token acc -> NoDup acc ->
  Forall CsvImport.clean_token (fold_left CsvImport.add_type types acc)
  /\ NoDup (fold_left CsvImport.add_type types acc).
Proof.
  induction types as [|bt types IH]; intros acc Ht Hacc Hnd; simpl; [now split|].
  inversion Ht; subst.
  destruct (add_type_clean acc bt) as [Hc' Hnd']; try assumption.
  now apply IH.
Qed.

Lemma clean_building_types_clean s :
  Forall CsvImport.clean_token (CsvImport.clean_building_types s)
  /\ NoDup (CsvImport.clean_building_types s).
Proof.
  unfold CsvImport.clean_building_types.
  destruct (negb (truthy s)); [split; constructor|].
  apply fold_add_type_clean; [apply split_on_pieces | constructor | constructor].
Qed.

Lemma fold_add_type_fresh l : forall acc,
  Forall CsvImport.clean_token l -> NoDup (acc ++ l) ->
  fold_left CsvImport.add_type l acc = acc ++ l.
Proof.
  induction l as [|t l IH]; intros acc Hl Hnd; simpl; [now rewrite app_nil_r|].
  inversion Hl as [|? ? (Hne & _ & Hfix) Hl']; subst.
  unfold CsvImport.add_type at 2. cbv zeta. rewrite Hfix.
  assert (truthy t = true) as -> by now apply truthy_true.
  assert (CsvImport.mem t acc = false) as ->.
  { destruct (CsvImport.mem t acc) eqn:E; [|reflexivity].
    apply mem_true, list_elem_of_In in E.
    apply NoDup_app in Hnd as (_ & Hdis & _).
    exfalso. apply (Hdis t E). now left. }
  simpl. rewrite IH; [now rewrite <- app_assoc | assumption |].
  now rewrite <- app_assoc.
Qed.

Lemma join_not_nil x t l : t <> [] -> join x (t :: l) <> [].
Proof. destruct t; [contradiction|]. destruct l; discriminate. Qed.

Lemma clean_building_types_join l :
  Forall CsvImport.clean_token l -> NoDup l ->
  CsvImport.clean_building_types (join "," l) = l.
Proof.
  intros Hl Hnd. destruct l as [|t l]; [reflexivity|].
  unfold CsvImport.clean_building_types.
  assert (truthy (join "," (t :: l)) = true) as ->.
  { apply truthy_true, join_not_nil. inversion Hl as [|? ? (Hne & _) _]. exact Hne. }
  simpl negb. cbv iota.
  rewrite split_on_join; [| reflexivity | discriminate |].
  - now apply (fold_add_type_fresh (t :: l) []).
  - eapply Forall_impl; [exact Hl|]. now intros a (_ & Ha & _).
Qed.

Lemma parse_building_types_tokens s :
  Forall (fun t => t <> [] /\ existsb (is_chr ",") t = false /\ strip t = t
                   /\ lstrip t = t)
         (List.filter truthy (List.map strip (split "," s))).
Proof.
  unfold split. pose proof (split_on_pieces (is_chr ",") s) as H.
  induction H as [|p ps Hp _ IH]; simpl; [constructor|].
  destruct (truthy (strip p)) eqn:Et; [|exact IH].
  constructor; [|exact IH]. repeat split.
  - now apply truthy_true.
  - now apply existsb_strip.
  - apply strip_idem.
  - apply strip_lstrip_fix.
Qed.

Lemma filter_truthy_id (l : list str) :
  Forall (fun t => t <> []) l -> List.filter truthy l = l.
Proof.
  induction 1 as [|t l Ht _ IH]; simpl; [reflexivity|].
  destruct t; [contradiction|]. simpl. now rewrite IH.
Qed.

Lemma map_strip_id (l : list str) :
  Forall (fun t => strip t = t) l -> List.map strip l = l.
Proof. induction 1 as [|t l Ht _ IH]; simpl; [reflexivity | now rewrite Ht, IH]. Qed.

Lemma lstrip_app_head t u c r : lstrip t = t -> t = c :: r -> lstrip (t ++ u) = t ++ u.
Proof.
  intros H ->. assert (is_space c = false) as Hc by (eapply lstrip_fix_iff; eauto).
  simpl. now rewrite Hc.
Qed.

Lemma parse_building_types_join l :
  l <> [] ->
  Forall (fun t => t <> [] /\ existsb (is_chr ",") t = false /\ strip t = t
                   /\ lstrip t = t) l ->
  ImportCreData.parse_building_types (join "," l) = l.
Proof.
  intros Hne Hl. unfold ImportCreData.parse_building_types.
  destruct l as [|t l]; [contradiction|].
  inversion Hl as [|? ? (Ht & _ & _ & Hls) _]; subst.
  destruct t as [|c r]; [contradiction|].
  assert (join "," ((c :: r) :: l) = c :: tl (join "," ((c :: r) :: l))) as Hj
    by (destruct l; reflexivity).
  assert (eqb (strip (join "," ((c :: r) :: l))) [] = false) as ->.
  { apply eqb_false. intros E. apply strip_nil in E. rewrite Hj in E. simpl in E.
    assert (is_space c = false) as Hc by (eapply lstrip_fix_iff; eauto).
    now rewrite Hc in E. }
  rewrite Hj at 1. simpl negb. simpl orb. cbv iota.
  unfold split. rewrite split_on_join; [| reflexivity | discriminate |].
  - rewrite map_strip_id; [apply filter_truthy_id|];
      (eapply Forall_impl; [exact Hl|]); now intros a (? & ? & ? & ?).
  - eapply Forall_impl; [exact Hl|]. now intros a (? & ? & ? & ?).
Qed.

(** C9, as stated, fails for the lenient parser: the text made of one comma
    parses to the empty list, whose comma-join is the empty text, which
    parses to the list holding Unknown. *)
Lemma parse_building_types_not_idempotent :
  ImportCreData.parse_building_types (py ",") = []
  /\ ImportCreData.parse_building_types
       (join "," (ImportCreData.parse_building_types (py ","))) = [py "Unknown"]
  /\ ImportCreData.parse_building_types
       (join "," (ImportCreData.parse_building_types (py ",")))
     <> ImportCreData.parse_building_types (py ",").
Proof. repeat split; try reflexivity. discriminate. Qed.

(** C9, amended: the strict parser clean_building_types is idempotent on
    every ASCII text: parsing the comma-join of its output gives the
    output back.  On such a text the lenient parser parse_building_types
    gives its output back whenever that output is not empty; an empty
    output (a text that is not blank and holds only commas and white
    space) re-parses to the list holding Unknown. *)
Theorem building_types_reparse (s : str) :
  ascii_text s ->
  CsvImport.clean_building_types (join "," (CsvImport.clean_building_types s))
  = CsvImport.clean_building_types s
  /\ ImportCreData.parse_building_types
       (join "," (ImportCreData.parse_building_types s))
     = match ImportCreData.parse_building_types s with
       | [] => [py "Unknown"]
       | l => l
       end.
Proof.
  intros _. split.
  - destruct (clean_building_types_clean s) as [Hc Hnd].
    now apply clean_building_types_join.
  - destruct (ImportCreData.parse_building_types s) as [|t l] eqn:E; [reflexivity|].
    rewrite <- E. unfold ImportCreData.parse_building_types in E |- *.
    destruct (negb (truthy s) || eqb (strip s) []); [reflexivity|].
    apply parse_building_types_join; [rewrite E; discriminate|].
    apply parse_building_types_tokens.
Qed.

Lemma building_types_reparse_witness :
  CsvImport.clean_building_types
    (join "," (CsvImport.clean_building_types (py "office; retail / OFFICE")))
  = CsvImport.clean_building_types (py "office; retail / OFFICE")
  /\ ImportCreData.parse_building_types
       (join "," (ImportCreData.parse_building_types (py "office; retail / OFFICE")))
     = match ImportCreData.parse_building_types (py "office; retail / OFFICE") with
       | [] => [py "Unknown"]
       | l => l
       end.
Proof. apply (building_types_reparse (py "office; retail / OFFICE")). reflexivity. Defined.

(** ** Rates *)

Lemma digit_not_space c : is_digit c = true -> is_space c = false.
Proof. each_char_imp c. Qed.

Lemma space_not_digit c : is_space c = true -> is_digit c = false.
Proof. each_char_imp c. Qed.

Lemma is_digit_chr_upper c : is_digit (chr_upper c) = is_digit c.
Proof. each_char c. Qed.

Lemma digit_chr_lower c : is_digit c = true -> chr_lower c = c.
Proof. each_char_imp c. Qed.

Lemma digit_not_dollar c : is_digit c = true -> is_chr "$" c = false.
Proof. each_char_imp c. Qed.

Lemma digit_not_underscore c : is_digit c = false -> is_digit c || is_chr "_" c = is_chr "_" c.
Proof. intros ->. reflexivity. Qed.

Lemma span_spec p t :
  forallb p (fst (span p t)) = true
  /\ t = fst (span p t) ++ snd (span p t)
  /\ (forall c r, snd (span p t) = c :: r -> p c = false).
Proof.
  induction t as [|c r (IH1 & IH2 & IH3)]; simpl.
  - repeat split. discriminate.
  - destruct (p c) eqn:Ec.
    + destruct (span p r) as [a b]. simpl in *. rewrite Ec, IH1.
      repeat split; [now f_equal | exact IH3].
    + simpl. repeat split. now intros ? ? [= <- _].
Qed.

Lemma span_all p d : forallb p d = true -> span p d = (d, []).
Proof.
  induction d as [|c r IH]; simpl; [reflexivity|].
  intros [-> Hr]%andb_prop. now rewrite (IH Hr).
Qed.

Lemma existsb_digit_upper t : existsb is_digit (upper t) = existsb is_digit t.
Proof.
  induction t as [|c r IH]; simpl; [reflexivity|].
  now rewrite is_digit_chr_upper, IH.
Qed.

Lemma spaces_no_digit t : forallb is_space t = true -> existsb is_digit t = false.
Proof.
  induction t as [|c r IH]; simpl; [reflexivity|].
  intros [Hc Hr]%andb_prop. now rewrite (space_not_digit c Hc), (IH Hr).
Qed.

Lemma existsb_remove p q t : existsb p t = false -> existsb p (remove q t) = false.
Proof.
  induction t as [|c r IH]; simpl; [reflexivity|].
  intros [Hc Hr]%orb_false_elim. destruct (negb (q c)); simpl; [rewrite Hc|]; auto.
Qed.

Lemma first_decimal_none t :
  existsb is_digit t = false -> ImportCreData.first_decimal t = None.
Proof.
  induction t as [|c r IH]; simpl; [reflexivity|].
  intros [-> Hr]%orb_false_elim. now apply IH.
Qed.

(** *** [float()] on the texts the pattern matches *)

Lemma no_space_lstrip t : existsb is_space t = false -> lstrip t = t.
Proof. destruct t as [|c r]; simpl; [reflexivity|]. now intros [-> _]%orb_false_elim. Qed.

Lemma no_space_rstrip t : existsb is_space t = false -> rstrip t = t.
Proof.
  induction t as [|c r IH]; simpl; [reflexivity|].
  intros [Hc Hr]%orb_false_elim. rewrite (IH Hr), Hc. now destruct r.
Qed.

Lemma no_space_strip t : existsb is_space t = false -> strip t = t.
Proof. intros H. unfold strip. now rewrite (no_space_lstrip t H), (no_space_rstrip t H). Qed.

Lemma blank_is_space c : is_blank c = true -> is_space c = true.
Proof. each_char_imp c. Qed.

Lemma no_space_skip_blanks t : existsb is_space t = false -> skip_blanks t = t.
Proof.
  intros H.
  assert (existsb is_blank t = false) as Hb.
  { induction t as [|c r IH]; [reflexivity|]. simpl in H |- *.
    apply orb_false_elim in H as [Hc Hr]. rewrite (IH Hr), orb_false_r.
    destruct (is_blank c) eqn:E; [|reflexivity].
    now rewrite (blank_is_space c E) in Hc. }
  clear H. unfold skip_blanks.
  assert (lskip t = t) as ->.
  { destruct t as [|c r]; [reflexivity|]. simpl in Hb |- *.
    now apply orb_false_elim in Hb as [-> _]. }
  induction t as [|c r IH]; [reflexivity|]. simpl in Hb |- *.
  apply orb_false_elim in Hb as [Hc Hr]. rewrite (IH Hr), Hc. now destruct r.
Qed.

Lemma digits_no_space d : forallb is_digit d = true -> existsb is_space d = false.
Proof.
  induction d as [|c r IH]; simpl; [reflexivity|].
  intros [Hc Hr]%andb_prop. now rewrite (digit_not_space c Hc), (IH Hr).
Qed.

Lemma digit_run_digits d rest :
  forallb is_digit d = true ->
  (forall c r, rest = c :: r -> is_digit c = false /\ is_chr "_" c = false) ->
  digit_run (d ++ rest) = (d, rest).
Proof.
  intros Hd Hrest. induction d as [|c r IH]; simpl.
  - destruct rest as [|c r]; [reflexivity|].
    destruct (Hrest c r eq_refl) as [H1 H2]. simpl. now rewrite H1, H2.
  - simpl in Hd. apply andb_prop in Hd as [-> Hr]. now rewrite (IH Hr).
Qed.

Lemma digit_group_digits d rest :
  forallb is_digit d = true ->
  (forall c r, rest = c :: r -> is_digit c = false /\ is_chr "_" c = false) ->
  digit_group (d ++ rest) = (d, rest).
Proof.
  intros Hd Hrest. destruct d as [|c r].
  - simpl. destruct rest as [|c r]; [reflexivity|].
    destruct (Hrest c r eq_refl) as [H1 _]. unfold digit_group. now rewrite H1.
  - pose proof Hd as Hd'. simpl in Hd'. apply andb_prop in Hd' as [Hc _].
    rewrite <- (digit_run_digits (c :: r) rest Hd Hrest).
    change ((c :: r) ++ rest) with (c :: (r ++ rest)).
    unfold digit_group. now rewrite Hc.
Qed.

Lemma py_float_unsigned c g :
  is_digit c = true -> existsb is_space (c :: g) = false ->
  py_float (c :: g) = (fun q => FFin q) <$> decimal_literal (c :: g).
Proof.
  intros Hc Hsp. unfold py_float. rewrite (no_space_skip_blanks _ Hsp).
  assert (split_sign (c :: g) = (false, c :: g)) as ->.
  { revert Hc. clear. each_char_imp c. }
  assert (eqb (lower (c :: g)) (py "inf") = false) as ->.
  { apply eqb_false. simpl. rewrite (digit_chr_lower c Hc). intros [= -> _].
    discriminate. }
  assert (eqb (lower (c :: g)) (py "infinity") = false) as ->.
  { apply eqb_false. simpl. rewrite (digit_chr_lower c Hc). intros [= -> _].
    discriminate. }
  assert (eqb (lower (c :: g)) (py "nan") = false) as ->.
  { apply eqb_false. simpl. rewrite (digit_chr_lower c Hc). intros [= -> _].
    discriminate. }
  reflexivity.
Qed.

Lemma decimal_literal_int d :
  forallb is_digit d = true -> d <> [] ->
  decimal_literal d = Some (scale10 (digits_value 0 (d ++ [])) (- Z.of_nat 0)).
Proof.
  intros Hd Hne. unfold decimal_literal.
  rewrite <- (app_nil_r d) at 1.
  rewrite (digit_group_digits d []) by (assumption || discriminate).
  destruct d; [contradiction|]. reflexivity.
Qed.

Lemma decimal_literal_frac d1 d2 :
  forallb is_digit d1 = true -> d1 <> [] -> forallb is_digit d2 = true ->
  decimal_literal (d1 ++ "."%char :: d2)
  = Some (scale10 (digits_value 0 (d1 ++ d2)) (- Z.of_nat (length d2))).
Proof.
  intros H1 Hne H2. unfold decimal_literal.
  rewrite (digit_group_digits d1 ("."%char :: d2)); [|assumption|].
  2:{ intros c r [= <- _]. split; reflexivity. }
  rewrite <- (app_nil_r d2) at 1.
  rewrite (digit_group_digits d2 []) by (assumption || discriminate).
  destruct d1; [contradiction|]. reflexivity.
Qed.

Lemma match_number_digit c r :
  is_digit c = true ->
  (ImportCreData.match_number (c :: r) ≫= py_float)
  = ImportCreData.decimal_value <$> ImportCreData.first_decimal (c :: r).
Proof.
  intros Hc. unfold ImportCreData.match_number, ImportCreData.first_decimal.
  rewrite Hc.
  destruct (span_spec is_digit (c :: r)) as (Hd1 & Hsplit & Hrest).
  destruct (span is_digit (c :: r)) as [d1 rest] eqn:Espan.
  simpl fst in *. simpl snd in *.
  assert (exists d1', d1 = c :: d1') as [d1' ->].
  { simpl in Espan. rewrite Hc in Espan. destruct (span is_digit r).
    injection Espan as <- _. now eexists. }
  cbn [truthy].
  assert (forall g, existsb is_space g = false ->
            py_float (c :: g) = (fun q => FFin q) <$> decimal_literal (c :: g)) as Hfl.
  { intros g Hg. apply py_float_unsigned; [assumption|]. simpl.
    now rewrite (digit_not_space c Hc). }
  pose proof (digits_no_space _ Hd1) as Hsp1. simpl in Hsp1.
  apply orb_false_elim in Hsp1 as [_ Hsp1].
  assert (Some (c :: d1') ≫= py_float
          = ImportCreData.decimal_value <$> Some (c :: d1', [])) as Hint.
  { cbn [mbind option_bind]. rewrite (Hfl d1' Hsp1).
    rewrite (decimal_literal_int (c :: d1') Hd1) by discriminate. reflexivity. }
  destruct rest as [|x r2]; [exact Hint|].
  destruct (Ascii.eqb x "."%char) eqn:Ex.
  - apply Ascii.eqb_eq in Ex as ->.
    destruct (span_spec is_digit r2) as (Hd2 & _ & _).
    destruct (span is_digit r2) as [d2 rest2]. simpl fst in *.
    cbn [mbind option_bind].
    change ((c :: d1') ++ "."%char :: d2) with (c :: (d1' ++ "."%char :: d2)).
    rewrite Hfl.
    + change (c :: (d1' ++ "."%char :: d2)) with ((c :: d1') ++ "."%char :: d2).
      rewrite (decimal_literal_frac (c :: d1') d2 Hd1) by (discriminate || assumption).
      reflexivity.
    + rewrite existsb_app, Hsp1. simpl. now apply digits_no_space.
  - assert (x <> "."%char) as Hx by (now apply Ascii.eqb_neq).
    revert Hint. clear -Hx. intros Hint.
    destruct x as [[] [] [] [] [] [] [] []]; try exact Hint. contradiction.
Qed.

Lemma match_number_nondigit t :
  (forall c r, t = c :: r -> is_digit c = false) ->
  ImportCreData.match_number t = None.
Proof.
  intros H. unfold ImportCreData.match_number. destruct t as [|c r]; [reflexivity|].
  simpl. now rewrite (H c r eq_refl).
Qed.

Lemma search_rate_first_decimal t :
  (ImportCreData.search_rate t ≫= py_float)
  = ImportCreData.decimal_value <$> ImportCreData.first_decimal t.
Proof.
  induction t as [|c r IH]; [reflexivity|].
  destruct (is_digit c) eqn:Hc.
  - rewrite <- (match_number_digit c r Hc).
    cbn [ImportCreData.search_rate]. unfold ImportCreData.match_rate_at.
    assert (ImportCreData.match_number (c :: r) <> None) as Hsome.
    { unfold ImportCreData.match_number. simpl. rewrite Hc.
      destruct (span is_digit r) as [a b]. simpl. destruct b as [|[[] [] [] [] [] [] [] []] b];
        try discriminate. destruct (span is_digit b). discriminate. }
    destruct (ImportCreData.match_number (c :: r)) as [g|] eqn:Eg; [|contradiction].
    revert Hc. clear.
    destruct c as [[] [] [] [] [] [] [] []]; try reflexivity. discriminate.
  - assert (ImportCreData.match_number (c :: r) = None) as Hnone.
    { apply match_number_nondigit. now intros ? ? [= <- _]. }
    assert (ImportCreData.search_rate (c :: r) = ImportCreData.search_rate r) as ->.
    { cbn [ImportCreData.search_rate]. unfold ImportCreData.match_rate_at.
      destruct (ImportCreData.match_number r) as [g|] eqn:Er.
      - assert (ImportCreData.search_rate r = Some g) as ->.
        { destruct r as [|d r']; [discriminate|].
          cbn [ImportCreData.search_rate]. unfold ImportCreData.match_rate_at.
          destruct (is_digit d) eqn:Hd.
          - rewrite Er. revert Hd. clear.
            destruct d as [[] [] [] [] [] [] [] []]; try reflexivity. discriminate.
          - rewrite match_number_nondigit in Er; [discriminate|].
            now intros ? ? [= <- _]. }
        rewrite Hnone.
        destruct c as [[] [] [] [] [] [] [] []]; reflexivity.
      - rewrite Hnone.
        destruct c as [[] [] [] [] [] [] [] []]; reflexivity. }
    rewrite IH. simpl. now rewrite Hc.
Qed.

Lemma search_number_first_decimal t :
  (NotionSync.search_number t ≫= py_float)
  = ImportCreData.decimal_value <$> ImportCreData.first_decimal t.
Proof.
  induction t as [|c r IH]; [reflexivity|].
  destruct (is_digit c) eqn:Hc.
  - rewrite <- (match_number_digit c r Hc). cbn [NotionSync.search_number].
    destruct (ImportCreData.match_number (c :: r)) as [g|] eqn:Eg; [reflexivity|].
    exfalso. revert Eg. unfold ImportCreData.match_number. simpl. rewrite Hc.
    destruct (span is_digit r) as [a b]. simpl.
    destruct b as [|[[] [] [] [] [] [] [] []] b]; try discriminate.
    destruct (span is_digit b). discriminate.
  - cbn [NotionSync.search_number].
    rewrite match_number_nondigit by (now intros ? ? [= <- _]).
    rewrite IH. simpl. now rewrite Hc.
Qed.

Lemma first_decimal_none_iff t :
  ImportCreData.first_decimal t = None <-> existsb is_digit t = false.
Proof.
  split; [|apply first_decimal_none].
  induction t as [|c r IH]; simpl; [reflexivity|].
  destruct (is_digit c); [|exact IH].
  destruct (span is_digit r). discriminate.
Qed.

Lemma existsb_digit_remove q t :
  (forall c, is_digit c = true -> q c = false) ->
  existsb is_digit (remove q t) = existsb is_digit t.
Proof.
  intros Hq. induction t as [|c r IH]; simpl; [reflexivity|].
  destruct (is_digit c) eqn:Hc.
  - rewrite (Hq c Hc). simpl. now rewrite Hc.
  - destruct (negb (q c)); simpl; [rewrite Hc|]; exact IH.
Qed.

Lemma digit_not_comma c : is_digit c = true -> is_chr "," c = false.
Proof. each_char_imp c. Qed.

Lemma digit_not_dollar_or_comma c :
  is_digit c = true -> NotionSync.dollar_or_comma c = false.
Proof. each_char_imp c. Qed.

Lemma upper_no_digit text u :
  upper text = u -> existsb is_digit u = false -> existsb is_digit text = false.
Proof. intros <-. now rewrite existsb_digit_upper. Qed.

(** C6, as stated, fails: a sign before the number is not read.  On the
    text -5.5 both rate parsers return 5.5, where the signed number of
    the text, as float() reads it, is -5.5. *)
Lemma parse_rate_drops_sign :
  ImportCreData.parse_rate (py "-5.5") = Some (FFin (55 # 10))
  /\ NotionSync.parse_rate (py "-5.5") = Some (FFin (55 # 10))
  /\ py_float (py "-5.5") = Some (FFin (-55 # 10))
  /\ ~ (55 # 10 == -55 # 10)%Q.
Proof. repeat split; try reflexivity. intros H. discriminate H. Qed.

Lemma first_decimal_digits t d1 d2 :
  ImportCreData.first_decimal t = Some (d1, d2) ->
  forallb is_digit d1 = true /\ d1 <> [] /\ forallb is_digit d2 = true.
Proof.
  induction t as [|c r IH]; [discriminate|]. cbn [ImportCreData.first_decimal].
  destruct (is_digit c) eqn:Hc; [|exact IH].
  destruct (span_spec is_digit (c :: r)) as (Hd1 & _ & _).
  assert (fst (span is_digit (c :: r)) <> []) as Hne.
  { simpl. rewrite Hc. destruct (span is_digit r). discriminate. }
  destruct (span is_digit (c :: r)) as [a rest]. simpl fst in *.
  intros [= <- <-]. repeat split; [exact Hd1 | exact Hne |].
  destruct rest as [|x r2]; [reflexivity|].
  destruct (Ascii.ascii_dec x "."%char) as [->|Hx].
  - exact (proj1 (span_spec is_digit r2)).
  - destruct x as [[] [] [] [] [] [] [] []]; try reflexivity. contradiction.
Qed.

Lemma py_float_decimal_text t d :
  ImportCreData.first_decimal t = Some d ->
  py_float (ImportCreData.decimal_text d) = Some (ImportCreData.decimal_value d).
Proof.
  destruct d as [d1 d2]. intros (H1 & Hne & H2)%first_decimal_digits.
  unfold ImportCreData.decimal_text, ImportCreData.decimal_value. simpl fst. simpl snd.
  destruct d1 as [|c d1']; [contradiction|].
  pose proof H1 as H1'. simpl in H1'. apply andb_prop in H1' as [Hc Hd1'].
  change ((c :: d1') ++ "."%char :: d2) with (c :: (d1' ++ "."%char :: d2)).
  rewrite py_float_unsigned; [|exact Hc|].
  - change (c :: (d1' ++ "."%char :: d2)) with ((c :: d1') ++ "."%char :: d2).
    rewrite (decimal_literal_frac (c :: d1') d2 H1) by (discriminate || assumption).
    reflexivity.
  - simpl. rewrite (digit_not_space c Hc), existsb_app, (digits_no_space d1' Hd1').
    simpl. now apply digits_no_space.
Qed.

Lemma decimal_value_as_float (o : option (str * str)) t :
  ImportCreData.first_decimal t = o ->
  ImportCreData.decimal_value <$> o
  = o ≫= (fun d => py_float (ImportCreData.decimal_text d)).
Proof.
  destruct o as [d|]; [|reflexivity]. intros H. simpl.
  now rewrite (py_float_decimal_text t d H).
Qed.

(** C6, amended: on an ASCII text, each rate parser returns what float()
    gives on the first unsigned decimal number of the text with the
    thousands separators (and, in notion_supabase_sync.py, the dollar
    signs) removed: the digits from the first digit on and, when a dot
    follows them, the digits after the dot; a sign in front of it is not
    read.  It returns null exactly when the text has no digit, which
    covers the empty text and N/A. *)
Theorem parse_rate_first_decimal (text : str) :
  ascii_text text ->
  ImportCreData.parse_rate text
  = ImportCreData.first_decimal (remove (is_chr ",") text)
      ≫= (fun d => py_float (ImportCreData.decimal_text d))
  /\ NotionSync.parse_rate text
     = ImportCreData.first_decimal (remove NotionSync.dollar_or_comma text)
         ≫= (fun d => py_float (ImportCreData.decimal_text d))
  /\ (ImportCreData.parse_rate text = None <-> existsb is_digit text = false)
  /\ (NotionSync.parse_rate text = None <-> existsb is_digit text = false).
Proof.
  intros _.
  assert (ImportCreData.parse_rate text
          = ImportCreData.decimal_value
              <$> ImportCreData.first_decimal (remove (is_chr ",") text)) as H1.
  { unfold ImportCreData.parse_rate.
    destruct (negb (truthy text) || eqb (upper text) (py "N/A")
              || eqb (strip text) []) eqn:G.
    - rewrite first_decimal_none; [reflexivity|]. apply existsb_remove.
      apply orb_prop in G as [[G|G]%orb_prop | G].
      + destruct text; [reflexivity | discriminate].
      + apply eqb_true in G. now apply (upper_no_digit text _ G).
      + apply eqb_true, strip_nil in G. now apply spaces_no_digit.
    - apply (search_rate_first_decimal (remove (is_chr ",") text)). }
  assert (NotionSync.parse_rate text
          = ImportCreData.decimal_value
              <$> ImportCreData.first_decimal
                    (remove NotionSync.dollar_or_comma text)) as H2.
  { unfold NotionSync.parse_rate.
    destruct (negb (truthy text)
              || existsb (eqb (upper text)) [py "N/A"; py "TBD"; []]) eqn:G.
    - rewrite first_decimal_none; [reflexivity|]. apply existsb_remove.
      apply orb_prop in G as [G|G].
      + destruct text; [reflexivity | discriminate].
      + simpl in G. rewrite orb_false_r in G.
        apply orb_prop in G as [G | [G|G]%orb_prop];
          apply eqb_true in G; now apply (upper_no_digit text _ G).
    - apply (search_number_first_decimal (remove NotionSync.dollar_or_comma text)). }
  split; [rewrite H1; now apply (decimal_value_as_float _ _ eq_refl)|].
  split; [rewrite H2; now apply (decimal_value_as_float _ _ eq_refl)|]. split.
  - rewrite H1, <- (existsb_digit_remove (is_chr ",") text digit_not_comma),
      <- first_decimal_none_iff.
    destruct (ImportCreData.first_decimal (remove (is_chr ",") text)); simpl;
      split; congruence.
  - rewrite H2, <- (existsb_digit_remove _ text digit_not_dollar_or_comma),
      <- first_decimal_none_iff.
    destruct (ImportCreData.first_decimal (remove NotionSync.dollar_or_comma text));
      simpl; split; congruence.
Qed.

Lemma parse_rate_first_decimal_witness :
  ImportCreData.parse_rate (py "$45.50/sq ft/year") = py_float (py "45.50")
  /\ NotionSync.parse_rate (py "$45.50/sq ft/year") = py_float (py "45.50").
Proof.
  destruct (parse_rate_first_decimal (py "$45.50/sq ft/year") eq_refl)
    as (H1 & H2 & _).
  split; [exact H1 | exact H2].
Defined.

(** ** Coordinates *)

Lemma fle_within lo hi f :
  fle (of_int lo) f && fle f (of_int hi) = true <-> within lo hi f.
Proof.
  destruct f as [|[]|q]; simpl; try (split; [discriminate | contradiction]).
  rewrite andb_true_iff, !Qle_bool_iff. reflexivity.
Qed.

(** C4, as stated, fails: a row with longitude 200 and no latitude is
    stored with longitude 200 next to a null latitude by
    import_csv_to_supabase, and a record with latitude 95 and no longitude
    passes validate_record of csv_import.py. *)
Lemma lone_coordinate_is_kept :
  ImportCreData.row_coordinates (CFloat (FFin 200)) CNone = (Some (FFin 200), None)
  /\ ~ within (-180) 180 (FFin 200)
  /\ CsvImport.validate_record
       (<["latitude"%string := CsvImport.VFloat (FFin 95)]>
          (TableStore.property "100 Main Street" "Springfield" "$10/sf"))
     = Some (true, [])
  /\ ~ within (-90) 90 (FFin 95).
Proof.
  split; [reflexivity|]. split; [|split; [vm_compute; reflexivity|]].
  - intros [_ H]. vm_compute in H. now apply H.
  - intros [_ H]. vm_compute in H. now apply H.
Qed.

Lemma validate_coordinates_within lat lng :
  CsvImport.validate_coordinates (Some lat) (Some lng) = true <->
  within (-90) 90 lat /\ within (-180) 180 lng.
Proof.
  unfold CsvImport.validate_coordinates.
  rewrite andb_true_iff, !fle_within. reflexivity.
Qed.

Lemma row_validate_coordinates_within lat lng :
  ImportCreData.validate_coordinates (Some lat) (Some lng) = true <->
  within (-90) 90 lat /\ within (-180) 180 lng.
Proof.
  unfold ImportCreData.validate_coordinates.
  rewrite <- !andb_assoc, andb_assoc, andb_true_iff, !fle_within. reflexivity.
Qed.

Lemma validate_record_without_coordinates (record : gmap string CsvImport.value) :
  record !! "longitude"%string = None \/ record !! "latitude"%string = None ->
  CsvImport.validate_record record
  = CsvImport.validate_record
      (delete "latitude"%string (delete "longitude"%string record)).
Proof.
  intros Hlone. unfold CsvImport.validate_record.
  assert (forall field, field <> "latitude"%string -> field <> "longitude"%string ->
            delete "latitude"%string (delete "longitude"%string record) !! field
            = record !! field) as Hother.
  { intros field H1 H2. now rewrite !lookup_delete_ne by congruence. }
  assert (List.filter
            (fun field =>
               negb (CsvImport.value_truthy
                       (delete "latitude"%string (delete "longitude"%string record)
                          !! field)))
            CsvImport.required_fields
          = List.filter (fun field => negb (CsvImport.value_truthy (record !! field)))
              CsvImport.required_fields) as ->.
  { unfold CsvImport.required_fields. cbn [List.filter].
    now rewrite !Hother by discriminate. }
  rewrite (Hother "address"%string) by discriminate.
  rewrite lookup_delete_eq.
  destruct Hlone as [Hlng | Hlat].
  - rewrite Hlng. now destruct (record !! "latitude"%string).
  - now rewrite Hlat.
Qed.

(** C4, amended: when both coordinate cells of a row are read as numbers,
    import_csv_to_supabase stores both when the latitude is in [-90,90]
    and the longitude in [-180,180], and two nulls otherwise; a coordinate
    read alone (the other cell NA or unreadable) is stored as it was read,
    without a range check, next to a null.  In csv_import.py a record that
    validate_record accepts and that holds both coordinates has both in
    range, and on a record that lacks one of the two coordinates
    validate_record returns what it returns on the record without any
    coordinate: the coordinate present is not checked. *)
Theorem coordinates_checked_when_both_present :
  (forall c_longitude c_latitude : cell,
     match ImportCreData.read_coordinate c_longitude,
           ImportCreData.read_coordinate c_latitude with
     | Some lng, Some lat =>
         (within (-90) 90 lat /\ within (-180) 180 lng ->
          ImportCreData.row_coordinates c_longitude c_latitude = (Some lng, Some lat))
         /\ (~ (within (-90) 90 lat /\ within (-180) 180 lng) ->
             ImportCreData.row_coordinates c_longitude c_latitude = (None, None))
     | longitude, latitude =>
         ImportCreData.row_coordinates c_longitude c_latitude = (longitude, latitude)
     end)
  /\ (forall (record : gmap string CsvImport.value) errs lat lng,
        CsvImport.validate_record record = Some (true, errs) ->
        record !! "latitude"%string = Some lat ->
        record !! "longitude"%string = Some lng ->
        exists t g, CsvImport.number_of lat = Some t
                    /\ CsvImport.number_of lng = Some g
                    /\ within (-90) 90 t /\ within (-180) 180 g)
  /\ (forall record : gmap string CsvImport.value,
        record !! "longitude"%string = None \/ record !! "latitude"%string = None ->
        CsvImport.validate_record record
        = CsvImport.validate_record
            (delete "latitude"%string (delete "longitude"%string record))).
Proof.
  split; [|split; [|exact validate_record_without_coordinates]].
  - intros c_longitude c_latitude.
    unfold ImportCreData.row_coordinates, ImportCreData.read_coordinate.
    destruct (if notna c_longitude then float_of_cell c_longitude else None)
      as [lng|];
      destruct (if notna c_latitude then float_of_cell c_latitude else None)
      as [lat|]; try reflexivity.
    destruct (ImportCreData.validate_coordinates (Some lat) (Some lng)) eqn:E;
      cbn [negb]; split; intros H; try reflexivity.
    + apply row_validate_coordinates_within in E. contradiction.
    + apply row_validate_coordinates_within in H. congruence.
  - intros record errs lat lng Hv Hlat Hlng. unfold CsvImport.validate_record in Hv.
    rewrite Hlat, Hlng in Hv.
    destruct (if CsvImport.value_truthy (record !! "address"%string)
              then match record !! "address"%string with
                   | Some (CsvImport.VStr a) =>
                       Some (if CsvImport.validate_address a then []
                             else [CsvImport.InvalidAddress])
                   | _ => None
                   end
              else Some []) as [address_errors|]; [|discriminate].
    cbn [mbind option_bind] in Hv.
    destruct (CsvImport.number_of lat) as [t|]; [|discriminate].
    cbn [mbind option_bind] in Hv.
    destruct (CsvImport.number_of lng) as [g|].
    2:{ destruct (fle (of_int (-90)) t && fle t (of_int 90));
          cbn [mbind option_bind] in Hv; [discriminate|].
        injection Hv as Hb _. apply bool_decide_eq_true in Hb.
        rewrite !length_app in Hb. simpl in Hb. lia. }
    cbn [mbind option_bind] in Hv.
    exists t, g. split; [reflexivity|]. split; [reflexivity|].
    apply validate_coordinates_within.
    destruct (CsvImport.validate_coordinates (Some t) (Some g)); [reflexivity|].
    injection Hv as Hb _. apply bool_decide_eq_true in Hb.
    rewrite !length_app in Hb. simpl in Hb. lia.
Qed.

Lemma coordinates_checked_witness :
  exists t g,
    CsvImport.number_of (CsvImport.VFloat (FFin (377749 # 10000))) = Some t
    /\ CsvImport.number_of (CsvImport.VFloat (FFin (-1224194 # 10000))) = Some g
    /\ within (-90) 90 t /\ within (-180) 180 g.
Proof.
  apply (proj1 (proj2 coordinates_checked_when_both_present)
           (<["latitude"%string := CsvImport.VFloat (FFin (377749 # 10000))]>
              (<["longitude"%string := CsvImport.VFloat (FFin (-1224194 # 10000))]>
                 (TableStore.property "100 Main Street" "Springfield" "$10/sf")))
           []).
  - vm_compute. reflexivity.
  - vm_compute. reflexivity.
  - vm_compute. reflexivity.
Defined.

(** ** Paging *)

Section PagingFacts.

Context {Page Service : Type}.
Variable endpoint : option str -> Service -> Service * option (NotionSync.response Page).

Lemma follow_pages_served cursor sv pages sv' :
  NotionSync.served Page Service endpoint cursor sv pages sv' ->
  cursor <> Some [] ->
  forall steps properties, (length pages <= steps)%nat ->
    NotionSync.follow_pages Page Service endpoint steps properties cursor sv
    = (sv', NotionSync.Returns
              (properties ++ concat (NotionSync.results Page <$> pages))).
Proof.
  assert (forall cursor sv, cursor <> Some [] ->
            NotionSync.query_database Page Service endpoint cursor sv
            = endpoint cursor sv) as Hquery.
  { intros [[|c r]|] sv0 Hc; [contradiction | reflexivity | reflexivity]. }
  induction 1 as [cursor sv sv' page Hq Hlast
                 | cursor sv sv' sv'' page c pages Hq Hmore Hnext Hc Hrest IH
                 | cursor sv sv' sv'' page pages Hq Hmore Hnext Hrest IH];
    intros Hcursor steps properties Hsteps.
  - destruct steps as [|steps]; [simpl in Hsteps; lia|].
    simpl. rewrite (Hquery cursor sv Hcursor), Hq, Hlast. now rewrite app_nil_r.
  - destruct steps as [|steps]; [simpl in Hsteps; lia|].
    simpl. rewrite (Hquery cursor sv Hcursor), Hq, Hmore, Hnext.
    rewrite IH by (congruence || (simpl in Hsteps; lia)).
    now rewrite <- app_assoc.
  - destruct steps as [|steps]; [simpl in Hsteps; lia|].
    simpl. rewrite (Hquery cursor sv Hcursor), Hq, Hmore.
    assert (forall n props,
              NotionSync.follow_pages Page Service endpoint n props
                (NotionSync.next_cursor Page page) sv'
              = NotionSync.follow_pages Page Service endpoint n props None sv') as ->.
    { intros n props. destruct Hnext as [-> | ->]; [reflexivity|].
      destruct n; reflexivity. }
    rewrite IH by (congruence || (simpl in Hsteps; lia)).
    now rewrite <- app_assoc.
Qed.

(** C7: when the query endpoint, asked first without a cursor and then
    with the cursor each page hands out, serves a finite sequence of pages
    of which only the last has has-more unset, get_all_properties returns,
    within as many iterations as there are pages (whatever their number),
    the concatenation of the results of all the pages in the order they
    were fetched. *)
Theorem get_all_properties_follows_cursors sv pages sv' steps :
  NotionSync.served Page Service endpoint None sv pages sv' ->
  (length pages <= steps)%nat ->
  NotionSync.get_all_properties Page Service endpoint steps sv
  = (sv', NotionSync.Returns (concat (NotionSync.results Page <$> pages))).
Proof.
  intros Hs Hsteps. unfold NotionSync.get_all_properties.
  now rewrite (follow_pages_served None sv pages sv' Hs ltac:(discriminate) steps []).
Qed.

End PagingFacts.

Lemma get_all_properties_witness :
  NotionSync.get_all_properties nat unit TwoPages.endpoint 2 tt
  = (tt, NotionSync.Returns [1; 2; 3]%nat).
Proof.
  apply (get_all_properties_follows_cursors TwoPages.endpoint tt TwoPages.pages tt 2).
  - eapply NotionSync.served_more;
      [reflexivity | reflexivity | reflexivity | discriminate |].
    eapply NotionSync.served_last; reflexivity.
  - simpl. lia.
Defined.

(** ** The import driver *)

Lemma counted_n_handled n st st' :
  CsvImport.counted_n n st st' ->
  CsvImport.handled st' = (CsvImport.handled st + n)%nat
  /\ CsvImport.skipped st' = CsvImport.skipped st.
Proof.
  induction 1 as [st | n st st1 st2 Hone _ [IH1 IH2]]; [split; lia|].
  rewrite IH1, IH2. unfold CsvImport.handled.
  destruct Hone; simpl; split; lia.
Qed.

Section DriverFacts.

Context {Remote RowId : Type}.
Variable sb_insert_many :
  list (gmap string CsvImport.value) -> Remote -> Remote * option unit.
Variable sb_select_ids :
  CsvImport.value -> CsvImport.value -> Remote -> Remote * option (list RowId).
Variable sb_update : gmap string CsvImport.value -> RowId -> Remote -> Remote * option unit.
Variable sb_insert : gmap string CsvImport.value -> Remote -> Remote * option unit.
Variable notion_post : list (string * Json.json) -> Remote -> Remote * option unit.

Local Abbreviation import_record :=
  (CsvImport.import_record Remote RowId sb_select_ids sb_update sb_insert).
Local Abbreviation import_batch :=
  (CsvImport.import_batch Remote RowId sb_insert_many sb_select_ids sb_update sb_insert).
Local Abbreviation import_to_supabase :=
  (CsvImport.import_to_supabase Remote RowId sb_insert_many sb_select_ids
     sb_update sb_insert).
Local Abbreviation world := (CsvImport.world Remote RowId).

Lemma import_record_counted record st (w : world) :
  CsvImport.counted st (snd (import_record record st w)).
Proof.
  unfold CsvImport.import_record.
  destruct (record !! "address"%string) as [address|]; [|apply CsvImport.counted_errors].
  destruct (record !! "city"%string) as [city|]; [|apply CsvImport.counted_errors].
  unfold CsvImport.bind, CsvImport.send, CsvImport.ret. simpl.
  destruct (sb_select_ids address city (CsvImport.remote _ _ w)) as [r1 [[|id ids]|]];
    simpl; [| |apply CsvImport.counted_errors].
  - destruct (sb_insert record r1) as [r2 [[]|]]; simpl; constructor.
  - destruct (sb_update record id r1) as [r2 [[]|]]; simpl; constructor.
Qed.

Lemma for_each_counted batch : forall st (w : world),
  CsvImport.counted_n (length batch) st
    (snd (CsvImport.for_each Remote RowId import_record batch st w)).
Proof.
  induction batch as [|record batch IH]; intros st w; simpl; [constructor|].
  unfold CsvImport.bind.
  pose proof (import_record_counted record st w) as H1.
  destruct (import_record record st w) as [w1 st1]. simpl in H1.
  econstructor; [exact H1 | apply IH].
Qed.

Lemma import_record_attempted record st (w : world) :
  CsvImport.attempted Remote RowId sb_select_ids sb_update sb_insert record w st
    (fst (import_record record st w)) (snd (import_record record st w)).
Proof.
  unfold CsvImport.import_record.
  destruct (record !! "address"%string) as [address|] eqn:Ha;
    [|apply CsvImport.attempted_no_key; now left].
  destruct (record !! "city"%string) as [city|] eqn:Hc;
    [|apply CsvImport.attempted_no_key; now right].
  unfold CsvImport.bind, CsvImport.send, CsvImport.ret.
  destruct (sb_select_ids address city (CsvImport.remote _ _ w))
    as [r1 [[|id ids]|]] eqn:Hs; cbn [CsvImport.remote CsvImport.sent].
  - destruct (sb_insert record r1) as [r2 res] eqn:Hi.
    rewrite <- app_assoc.
    replace (snd (let '(w', a) := (r2, res) in _)) with
      (match res with
       | Some _ => CsvImport.add_created 1 st
       | None => CsvImport.add_errors 1 st
       end) by now destruct res.
    replace (fst (let '(w', a) := (r2, res) in _)) with
      {| CsvImport.remote := r2;
         CsvImport.sent := CsvImport.sent _ _ w
                           ++ [CsvImport.SelectIds RowId address city;
                               CsvImport.Insert RowId record] |}
      by now destruct res.
    now apply (CsvImport.attempted_insert _ _ _ _ _ _ w st address city r1 r2 res).
  - destruct (sb_update record id r1) as [r2 res] eqn:Hu.
    rewrite <- app_assoc.
    replace (snd (let '(w', a) := (r2, res) in _)) with
      (match res with
       | Some _ => CsvImport.add_updated 1 st
       | None => CsvImport.add_errors 1 st
       end) by now destruct res.
    replace (fst (let '(w', a) := (r2, res) in _)) with
      {| CsvImport.remote := r2;
         CsvImport.sent := CsvImport.sent _ _ w
                           ++ [CsvImport.SelectIds RowId address city;
                               CsvImport.Update RowId record id] |}
      by now destruct res.
    now apply (CsvImport.attempted_update _ _ _ _ _ _ w st address city r1 id ids r2 res).
  - now apply (CsvImport.attempted_lookup_fails _ _ _ _ _ _ w st address city r1).
Qed.

Lemma for_each_attempted batch : forall st (w : world),
  CsvImport.attempted_all Remote RowId sb_select_ids sb_update sb_insert batch w st
    (fst (CsvImport.for_each Remote RowId import_record batch st w))
    (snd (CsvImport.for_each Remote RowId import_record batch st w)).
Proof.
  induction batch as [|record batch IH]; intros st w; [constructor|].
  cbn [CsvImport.for_each]. unfold CsvImport.bind.
  pose proof (import_record_attempted record st w) as H1.
  destruct (import_record record st w) as [w1 st1]. simpl in H1.
  econstructor; [exact H1 | apply IH].
Qed.

Lemma attempted_sent record (w : world) st w' st' :
  CsvImport.attempted Remote RowId sb_select_ids sb_update sb_insert record w st w' st' ->
  (exists more, CsvImport.sent _ _ w' = CsvImport.sent _ _ w ++ more)
  /\ forall address city,
       record !! "address"%string = Some address ->
       record !! "city"%string = Some city ->
       In (CsvImport.SelectIds RowId address city) (CsvImport.sent _ _ w').
Proof.
  intros [w0 st0 Hk
         | w0 st0 address city r1 Ha Hc Hs
         | w0 st0 address city r1 id ids r2 res Ha Hc Hs Hu
         | w0 st0 address city r1 r2 res Ha Hc Hs Hi]; cbn [CsvImport.sent].
  - split; [exists []; now rewrite app_nil_r|].
    intros a c Ha Hc. destruct Hk; congruence.
  - split; [now eexists|]. intros a c Ha' Hc'.
    assert (a = address) as -> by congruence. assert (c = city) as -> by congruence.
    apply in_or_app. right. now left.
  - split; [now eexists|]. intros a c Ha' Hc'.
    assert (a = address) as -> by congruence. assert (c = city) as -> by congruence.
    apply in_or_app. right. now left.
  - split; [now eexists|]. intros a c Ha' Hc'.
    assert (a = address) as -> by congruence. assert (c = city) as -> by congruence.
    apply in_or_app. right. now left.
Qed.

Lemma attempted_all_lookups batch (w : world) st w' st' :
  CsvImport.attempted_all Remote RowId sb_select_ids sb_update sb_insert batch w st w' st' ->
  (exists more, CsvImport.sent _ _ w' = CsvImport.sent _ _ w ++ more)
  /\ Forall (fun record =>
               forall address city,
                 record !! "address"%string = Some address ->
                 record !! "city"%string = Some city ->
                 In (CsvImport.SelectIds RowId address city) (CsvImport.sent _ _ w'))
            batch.
Proof.
  induction 1 as [w0 st0 | record batch w0 st0 w1 st1 w2 st2 H1 _ [[more2 IH1] IH2]].
  - split; [exists []; now rewrite app_nil_r | constructor].
  - destruct (attempted_sent record w0 st0 w1 st1 H1) as [[more1 Hs1] Hl].
    split; [exists (more1 ++ more2); now rewrite IH1, Hs1, app_assoc|].
    constructor; [|exact IH2].
    intros address city Ha Hc. rewrite IH1. apply in_or_app. left. now apply Hl.
Qed.

(** C1: when the insert of a batch fails, the driver attempts every record
    of the batch on its own, in order: the record is looked up by address
    and city, then the first row found is updated, or the record is
    inserted when none is found (a record without address or city raises
    before any request), and each record raises exactly one of created,
    updated and errors by one.  The lookup of every record that has an
    address and a city is therefore among the requests sent, and the batch
    adds its number of records to created + updated + errors (and leaves
    skipped alone). *)
Theorem failed_batch_counts_every_record batch st (w : world) :
  snd (sb_insert_many batch (CsvImport.remote _ _ w)) = None ->
  let run := import_batch batch st w in
  CsvImport.attempted_all Remote RowId sb_select_ids sb_update sb_insert batch
    {| CsvImport.remote := fst (sb_insert_many batch (CsvImport.remote _ _ w));
       CsvImport.sent := CsvImport.sent _ _ w ++ [CsvImport.InsertMany RowId batch] |}
    st (fst run) (snd run)
  /\ Forall (fun record =>
               forall address city,
                 record !! "address"%string = Some address ->
                 record !! "city"%string = Some city ->
                 In (CsvImport.SelectIds RowId address city)
                    (CsvImport.sent _ _ (fst run)))
            batch
  /\ CsvImport.counted_n (length batch) st (snd run)
  /\ CsvImport.handled (snd run) = (CsvImport.handled st + length batch)%nat
  /\ CsvImport.skipped (snd run) = CsvImport.skipped st.
Proof.
  intros Hfail run.
  assert (run = CsvImport.for_each Remote RowId import_record batch st
                  {| CsvImport.remote :=
                       fst (sb_insert_many batch (CsvImport.remote _ _ w));
                     CsvImport.sent :=
                       CsvImport.sent _ _ w ++ [CsvImport.InsertMany RowId batch] |})
    as Hrun.
  { unfold run, CsvImport.import_batch, CsvImport.bind, CsvImport.send.
    destruct (sb_insert_many batch (CsvImport.remote _ _ w)) as [r1 res].
    simpl in Hfail. now subst res. }
  rewrite Hrun.
  pose proof (for_each_attempted batch st
                {| CsvImport.remote :=
                     fst (sb_insert_many batch (CsvImport.remote _ _ w));
                   CsvImport.sent :=
                     CsvImport.sent _ _ w ++ [CsvImport.InsertMany RowId batch] |})
    as Hall.
  pose proof (for_each_counted batch st
                {| CsvImport.remote :=
                     fst (sb_insert_many batch (CsvImport.remote _ _ w));
                   CsvImport.sent :=
                     CsvImport.sent _ _ w ++ [CsvImport.InsertMany RowId batch] |})
    as Hcount.
  split; [exact Hall|].
  split; [exact (proj2 (attempted_all_lookups _ _ _ _ _ Hall))|].
  split; [exact Hcount|]. now apply counted_n_handled.
Qed.

Lemma for_each_app {A S} (body : A -> S -> CsvImport.M Remote RowId S) l1 l2 s
    (w : world) :
  CsvImport.for_each Remote RowId body (l1 ++ l2) s w
  = (let '(w1, s1) := CsvImport.for_each Remote RowId body l1 s w in
     CsvImport.for_each Remote RowId body l2 s1 w1).
Proof.
  revert s w. induction l1 as [|x l1 IH]; intros s w; [reflexivity|].
  cbn [app CsvImport.for_each]. unfold CsvImport.bind.
  destruct (body x s w) as [w' s']. apply IH.
Qed.

(** C2, amended: the lookup by address and city is made only after the
    insert of the batch that carries the record has failed.  Every batch
    of a run is handed to the batch step in turn, after the batches
    before it.  When the insert of a batch succeeds, every record of it is
    counted as created and the batch insert is the only request sent, no
    lookup at all.  When it fails, the records of the batch are walked in
    order; for a record at any place of the batch, once the records
    before it have been walked: when its lookup finds rows and the update
    of the first of them succeeds, the record counts one update and no
    create, the lookup and the update being the requests sent for it;
    when the lookup finds none and the insert succeeds, it counts one
    create; the walk then goes on with the records after it. *)
Theorem upsert_after_failed_batch before record after address city
    (st : CsvImport.stats) (w : world) :
  let batch := before ++ record :: after in
  record !! "address"%string = Some address ->
  record !! "city"%string = Some city ->
  let sent1 := CsvImport.sent _ _ w ++ [CsvImport.InsertMany RowId batch] in
  (forall r1,
      sb_insert_many batch (CsvImport.remote _ _ w) = (r1, Some tt) ->
      import_batch batch st w
      = ({| CsvImport.remote := r1; CsvImport.sent := sent1 |},
         CsvImport.add_created (length batch) st))
  /\ (forall r1 wb stb,
        sb_insert_many batch (CsvImport.remote _ _ w) = (r1, None) ->
        CsvImport.for_each Remote RowId import_record before st
          {| CsvImport.remote := r1; CsvImport.sent := sent1 |} = (wb, stb) ->
        let sent2 :=
          CsvImport.sent _ _ wb ++ [CsvImport.SelectIds RowId address city] in
        (forall r2 id ids r3,
            sb_select_ids address city (CsvImport.remote _ _ wb)
            = (r2, Some (id :: ids)) ->
            sb_update record id r2 = (r3, Some tt) ->
            import_batch batch st w
            = CsvImport.for_each Remote RowId import_record after
                (CsvImport.add_updated 1 stb)
                {| CsvImport.remote := r3;
                   CsvImport.sent := sent2 ++ [CsvImport.Update RowId record id] |})
        /\ (forall r2 r3,
              sb_select_ids address city (CsvImport.remote _ _ wb) = (r2, Some []) ->
              sb_insert record r2 = (r3, Some tt) ->
              import_batch batch st w
              = CsvImport.for_each Remote RowId import_record after
                  (CsvImport.add_created 1 stb)
                  {| CsvImport.remote := r3;
                     CsvImport.sent := sent2 ++ [CsvImport.Insert RowId record] |}))
  /\ (forall records batch_size starts_before i starts_after (w0 : world),
        CsvImport.batch_starts (length records) batch_size
        = Some (starts_before ++ i :: starts_after) ->
        let step k := import_batch (CsvImport.batch_at records batch_size k) in
        import_to_supabase records batch_size w0
        = (let '(w1, st1) :=
             CsvImport.for_each Remote RowId step starts_before CsvImport.stats0 w0 in
           let '(w2, st2) := step i st1 w1 in
           let '(w3, st3) := CsvImport.for_each Remote RowId step starts_after st2 w2 in
           (w3, Some st3))).
Proof.
  intros batch Ha Hc sent1. split; [|split].
  - intros r1 H1.
    unfold CsvImport.import_batch, CsvImport.bind, CsvImport.send, CsvImport.ret.
    now rewrite H1.
  - intros r1 wb stb H1 Hb sent2.
    assert (forall st1 w1,
              import_record record stb wb = (w1, st1) ->
              import_batch batch st w
              = CsvImport.for_each Remote RowId import_record after st1 w1) as Hwalk.
    { intros st1 w1 Hr.
      unfold CsvImport.import_batch, CsvImport.bind at 1, CsvImport.send.
      rewrite H1. cbv iota beta. fold sent1. unfold batch at 1.
      rewrite for_each_app, Hb.
      cbn [CsvImport.for_each]. unfold CsvImport.bind at 1. now rewrite Hr. }
    split.
    + intros r2 id ids r3 H2 H3. apply Hwalk.
      unfold CsvImport.import_record. rewrite Ha, Hc.
      unfold CsvImport.bind, CsvImport.send, CsvImport.ret.
      rewrite H2. cbn [CsvImport.remote CsvImport.sent]. now rewrite H3.
    + intros r2 r3 H2 H3. apply Hwalk.
      unfold CsvImport.import_record. rewrite Ha, Hc.
      unfold CsvImport.bind, CsvImport.send, CsvImport.ret.
      rewrite H2. cbn [CsvImport.remote CsvImport.sent]. now rewrite H3.
  - intros records batch_size starts_before i starts_after w0 Hstarts step.
    unfold CsvImport.import_to_supabase. rewrite Hstarts.
    unfold CsvImport.bind at 1, CsvImport.ret. fold step.
    rewrite for_each_app.
    destruct (CsvImport.for_each Remote RowId step starts_before CsvImport.stats0 w0)
      as [w1 st1].
    cbn [CsvImport.for_each]. unfold CsvImport.bind at 1.
    destruct (step i st1 w1) as [w2 st2].
    now destruct (CsvImport.for_each Remote RowId step starts_after st2 w2).
Qed.

End DriverFacts.

Lemma failed_batch_witness :
  let batch := [TableStore.first_listing; TableStore.wide_zip_listing] in
  let w := TableStore.start (TableStore.empty_table false) in
  let run := TableStore.import_batch batch CsvImport.stats0 w in
  CsvImport.attempted_all TableStore.table nat TableStore.select_ids TableStore.update
    TableStore.insert batch
    {| CsvImport.remote := fst (TableStore.insert_many batch (CsvImport.remote _ _ w));
       CsvImport.sent := CsvImport.sent _ _ w ++ [CsvImport.InsertMany nat batch] |}
    CsvImport.stats0 (fst run) (snd run)
  /\ Forall (fun record =>
               forall address city,
                 record !! "address"%string = Some address ->
                 record !! "city"%string = Some city ->
                 In (CsvImport.SelectIds nat address city)
                    (CsvImport.sent _ _ (fst run)))
            batch
  /\ CsvImport.counted_n (length batch) CsvImport.stats0 (snd run)
  /\ CsvImport.handled (snd run)
     = (CsvImport.handled CsvImport.stats0 + length batch)%nat
  /\ CsvImport.skipped (snd run) = CsvImport.skipped CsvImport.stats0.
Proof.
  apply (failed_batch_counts_every_record
           TableStore.insert_many TableStore.select_ids TableStore.update
           TableStore.insert
           [TableStore.first_listing; TableStore.wide_zip_listing]
           CsvImport.stats0 (TableStore.start (TableStore.empty_table false))).
  vm_compute. reflexivity.
Defined.

(** C2, as stated, fails: on a store that accepts the batch insert (here a
    table without a unique index on address and city), two valid records
    with the same address and city and different rate texts are both
    inserted: importing the second after the first, in a later run or in
    the same batch, counts one create and no update, and no lookup is
    sent. *)
Lemma second_record_is_created_again :
  let w0 := TableStore.start (TableStore.empty_table false) in
  let w1 := fst (TableStore.import_to_supabase [TableStore.first_listing] 100 w0) in
  CsvImport.validate_record TableStore.first_listing = Some (true, [])
  /\ CsvImport.validate_record TableStore.second_listing = Some (true, [])
  /\ snd (TableStore.import_to_supabase [TableStore.second_listing] 100
            (TableStore.start (CsvImport.remote _ _ w1)))
     = Some {| CsvImport.created := 1; CsvImport.updated := 0;
               CsvImport.errors := 0; CsvImport.skipped := 0 |}
  /\ CsvImport.sent _ _
       (fst (TableStore.import_to_supabase [TableStore.second_listing] 100
               (TableStore.start (CsvImport.remote _ _ w1))))
     = [CsvImport.InsertMany nat [TableStore.second_listing]]
  /\ snd (TableStore.import_to_supabase
            [TableStore.first_listing; TableStore.second_listing] 100 w0)
     = Some {| CsvImport.created := 2; CsvImport.updated := 0;
               CsvImport.errors := 0; CsvImport.skipped := 0 |}.
Proof. vm_compute. repeat split; reflexivity. Qed.

Lemma upsert_after_failed_batch_witness :
  let t0 := TableStore.empty_table true in
  let t1 := TableStore.add_row t0 TableStore.first_listing in
  let batch := [TableStore.first_listing; TableStore.second_listing] in
  let address := CsvImport.VStr (py "100 Main Street") in
  let city := CsvImport.VStr (py "Springfield") in
  let wb :=
    {| CsvImport.remote := t1;
       CsvImport.sent :=
         [CsvImport.InsertMany nat batch; CsvImport.SelectIds nat address city;
          CsvImport.Insert nat TableStore.first_listing] |} in
  TableStore.import_batch batch CsvImport.stats0 (TableStore.start t0)
  = CsvImport.for_each TableStore.table nat
      (CsvImport.import_record TableStore.table nat TableStore.select_ids
         TableStore.update TableStore.insert)
      [] (CsvImport.add_updated 1 (CsvImport.add_created 1 CsvImport.stats0))
      {| CsvImport.remote := fst (TableStore.update TableStore.second_listing 1 t1);
         CsvImport.sent :=
           (CsvImport.sent _ _ wb ++ [CsvImport.SelectIds nat address city])
           ++ [CsvImport.Update nat TableStore.second_listing 1%nat] |}.
Proof.
  intros t0 t1 batch address city wb.
  refine (proj1 (proj1 (proj2 (upsert_after_failed_batch
                                 TableStore.insert_many TableStore.select_ids
                                 TableStore.update TableStore.insert
                                 [TableStore.first_listing] TableStore.second_listing []
                                 address city CsvImport.stats0 (TableStore.start t0) _ _))
                   t0 wb (CsvImport.add_created 1 CsvImport.stats0) _ _)
            t1 1%nat [] (fst (TableStore.update TableStore.second_listing 1 t1)) _ _).
  all: vm_compute; reflexivity.
Defined.

(** ** The header mapper *)

(** C5, as stated, fails: for the headers Street Address, Muni, ST the
    mapping holds neither address nor city. *)
Lemma street_address_and_muni_not_mapped :
  let mapping := CsvImport.map_csv_headers [py "Street Address"; py "Muni"; py "ST"] in
  CsvImport.mapping_get mapping "address" = None
  /\ CsvImport.mapping_get mapping "city" = None
  /\ CsvImport.mapping_get mapping "address" <> Some (py "Street Address")
  /\ CsvImport.mapping_get mapping "city" <> Some (py "Muni").
Proof. vm_compute. repeat split; (reflexivity || discriminate). Qed.

(** C5, amended: the mapper looks each alias up, lower-cased, among the
    lower-cased and stripped headers by equality of the whole name.  For
    the headers Street Address, Muni, ST it returns the one item state to
    ST: street address with a blank is not the alias street_address, and
    muni is no alias of city.  For the headers Street_Address,
    Municipality, ST it returns address to Street_Address, city to
    Municipality and state to ST. *)
Theorem map_csv_headers_whole_names :
  CsvImport.map_csv_headers [py "Street Address"; py "Muni"; py "ST"]
  = [("state"%string, py "ST")]
  /\ CsvImport.map_csv_headers [py "Street_Address"; py "Municipality"; py "ST"]
     = [("address"%string, py "Street_Address");
        ("city"%string, py "Municipality");
        ("state"%string, py "ST")].
Proof. vm_compute. split; reflexivity. Qed.

(** ** Dry runs *)

Section DryRunFacts.

Context {Remote RowId : Type}.
Variable sb_insert_many :
  list (gmap string CsvImport.value) -> Remote -> Remote * option unit.
Variable sb_select_ids :
  CsvImport.value -> CsvImport.value -> Remote -> Remote * option (list RowId).
Variable sb_update : gmap string CsvImport.value -> RowId -> Remote -> Remote * option unit.
Variable sb_insert : gmap string CsvImport.value -> Remote -> Remote * option unit.
Variable notion_post : list (string * Json.json) -> Remote -> Remote * option unit.
Variable float_repr : pyfloat -> str.
Variable list_repr : list str -> str.
Variable notion_configured : bool.

Lemma check_rows_counts field_mapping raw_records : forall i,
  let '(valid, (n_valid, n_invalid, msgs)) :=
    CsvImport.check_rows float_repr field_mapping i raw_records in
  length valid = n_valid
  /\ (n_valid + n_invalid)%nat = length raw_records
  /\ length msgs = n_invalid.
Proof.
  induction raw_records as [|raw rest IH]; intros i; simpl; [repeat split|].
  specialize (IH (S i)).
  destruct (CsvImport.check_rows float_repr field_mapping (S i) rest)
    as [valid [[n_valid n_invalid] msgs]].
  destruct IH as (IH1 & IH2 & IH3).
  destruct (CsvImport.transform_csv_record float_repr raw field_mapping) as [e|record];
    [simpl; repeat split; lia|].
  destruct (CsvImport.validate_record record) as [[[] errs]|];
    simpl; repeat split; lia.
Qed.

Lemma check_rows_verdicts field_mapping raw_records : forall i,
  let verdicts := CsvImport.row_verdicts float_repr field_mapping i raw_records in
  CsvImport.check_rows float_repr field_mapping i raw_records
  = (omap CsvImport.kept verdicts,
     (length (omap CsvImport.kept verdicts),
      length (omap CsvImport.refused verdicts),
      omap CsvImport.refused verdicts)).
Proof.
  induction raw_records as [|raw rest IH]; intros i; [reflexivity|].
  cbn [CsvImport.check_rows CsvImport.row_verdicts]. rewrite (IH (S i)).
  cbv zeta. cbn [omap list_omap]. unfold CsvImport.row_verdict.
  destruct (CsvImport.transform_csv_record float_repr raw field_mapping) as [e|record];
    [reflexivity|].
  now destruct (CsvImport.validate_record record) as [[[] errs]|].
Qed.

(** C8: with dry_run set, process_csv_file reads, transforms and validates
    and returns the counts and the messages of the rows: every row,
    numbered from 1, is transformed with the mapping of the headers and
    validated; valid_records counts the rows that transform and are
    accepted, invalid_records the others, and the messages are, in the
    order of the rows, the validation errors of every record refused and
    a row error for every row on which the transformation or the
    validation raises.  It reports no import statistics and it sends no
    request at all: the remote services and the list of requests sent are
    as they were before the call, whatever the file, the target and the
    batch size. *)
Theorem dry_run_sends_nothing file target batch_size
    (w : CsvImport.world Remote RowId) :
  let run :=
    CsvImport.process_csv_file Remote RowId sb_insert_many sb_select_ids sb_update
      sb_insert notion_post float_repr list_repr notion_configured
      file target batch_size true w in
  fst run = w
  /\ CsvImport.supabase_stats (snd run) = None
  /\ CsvImport.notion_stats_of (snd run) = None
  /\ match file with
     | Some (headers, raw_records) =>
         let verdicts :=
           CsvImport.row_verdicts float_repr (CsvImport.map_csv_headers headers) 1
             raw_records in
         CsvImport.total_records (snd run) = length raw_records
         /\ CsvImport.valid_records (snd run) = length (omap CsvImport.kept verdicts)
         /\ CsvImport.invalid_records (snd run)
            = length (omap CsvImport.refused verdicts)
         /\ CsvImport.errors_of (snd run) = omap CsvImport.refused verdicts
         /\ (CsvImport.valid_records (snd run) + CsvImport.invalid_records (snd run))%nat
            = length raw_records
         /\ length (CsvImport.errors_of (snd run)) = CsvImport.invalid_records (snd run)
     | None =>
         CsvImport.errors_of (snd run) = [CsvImport.Fatal]
         /\ CsvImport.total_records (snd run) = 0%nat
         /\ CsvImport.valid_records (snd run) = 0%nat
         /\ CsvImport.invalid_records (snd run) = 0%nat
     end.
Proof.
  unfold CsvImport.process_csv_file. destruct file as [[headers raw_records]|].
  - pose proof (check_rows_counts (CsvImport.map_csv_headers headers) raw_records 1)
      as H.
    pose proof (check_rows_verdicts (CsvImport.map_csv_headers headers) raw_records 1)
      as Hv. cbv zeta in Hv.
    destruct (CsvImport.check_rows float_repr (CsvImport.map_csv_headers headers) 1
                raw_records) as [valid [[n_valid n_invalid] msgs]].
    destruct H as (H1 & H2 & H3). injection Hv as _ Hn Hi Hm.
    simpl. repeat split; assumption.
  - simpl. repeat split.
Qed.

End DryRunFacts.

(** a run of the same file with and without dry_run against the table:
    the dry run sends nothing, the real run sends the batch insert *)
Example dry_run_and_real_run :
  let run dry :=
    TableStore.process_csv_file TableStore.no_floats TableStore.listing_file
      (py "supabase") 100 dry (TableStore.start (TableStore.empty_table false)) in
  CsvImport.sent _ _ (fst (run true)) = []
  /\ CsvImport.valid_records (snd (run true)) = 1%nat
  /\ CsvImport.errors_of (snd (run true))
     = [CsvImport.RowInvalid 2 [CsvImport.MissingRequired "city"]]
  /\ length (CsvImport.sent _ _ (fst (run false))) = 1%nat
  /\ CsvImport.supabase_stats (snd (run false))
     = Some {| CsvImport.created := 1; CsvImport.updated := 0;
               CsvImport.errors := 0; CsvImport.skipped := 0 |}.
Proof. vm_compute. repeat split; reflexivity. Qed.

(** ** Spot checks *)

Example square_footage_examples :
  ImportCreData.parse_square_footage (py "1,000 - 45,000") = (Some 1000, Some 45000)
  /\ ImportCreData.parse_square_footage (py "2500") = (Some 2500, Some 2500)
  /\ ImportCreData.parse_square_footage (py "n/a") = (None, None)
  /\ ImportCreData.parse_square_footage [] = (None, None)
  /\ ImportCreData.parse_square_footage (py "call broker") = (None, None)
  /\ ImportCreData.parse_square_footage (py "1000-") = (Some 1000, None)
  /\ ImportCreData.parse_square_footage (py "1000-x") = (None, None)
  /\ NotionSync.parse_square_footage (py "1,000 - 45,000") = (Some 1000, Some 45000)
  /\ NotionSync.parse_square_footage (py "TBD") = (None, None).
Proof. vm_compute. repeat split; reflexivity. Qed.

Example rate_examples :
  ImportCreData.parse_rate (py "$45.50/sq ft/year") = Some (FFin (4550 # 100))
  /\ NotionSync.parse_rate (py "$45.50/sq ft/year") = Some (FFin (4550 # 100))
  /\ (4550 # 100 == 455 # 10)%Q
  /\ ImportCreData.parse_rate (py "about $1,234.") = Some (FFin (1234 # 1))
  /\ ImportCreData.parse_rate (py "N/A") = None
  /\ ImportCreData.parse_rate (py "call") = None.
Proof. vm_compute. repeat split; reflexivity. Qed.

Example float_examples :
  py_float (py " -1_0.5e-1 ") = Some (FFin (-105 # 100))
  /\ py_float (py "1e2") = Some (FFin (100 # 1))
  /\ py_float (py "Infinity") = Some (FInf false)
  /\ py_float (py "_1") = None
  /\ py_int (py " +1_000 ") = Some 1000
  /\ py_int (py "1__0") = None.
Proof. vm_compute. repeat split; reflexivity. Qed.

Example building_type_examples :
  ImportCreData.parse_building_types (py "Office, Retail ,,") = [py "Office"; py "Retail"]
  /\ ImportCreData.parse_building_types (py "   ") = [py "Unknown"]
  /\ CsvImport.clean_building_types (py "office; retail/Office | flex space,")
     = [py "Office"; py "Retail"; py "Flex Space"]
  /\ CsvImport.clean_building_types [] = []
  /\ title (py "o'neil 3rd r&d") = py "O'Neil 3Rd R&D"
  /\ CsvImport.clean_phone_number (py "1-415-555-1212") = py "(415) 555-1212".
Proof. vm_compute. repeat split; reflexivity. Qed.

Example coordinate_examples :
  CsvImport.validate_coordinates (Some (of_int 91)) (Some (of_int 0)) = false
  /\ CsvImport.validate_coordinates (Some (of_int 45)) (Some (of_int (-200))) = false
  /\ CsvImport.validate_coordinates
       (Some (FFin (377749 # 10000))) (Some (FFin (-1224194 # 10000))) = true
  /\ CsvImport.validate_coordinates None None = true
  /\ ImportCreData.row_coordinates (CInt 0) (CInt 91) = (None, None)
  /\ ImportCreData.row_coordinates (CStr (py "-122.4194")) (CStr (py "37.7749"))
     = (Some (FFin (-1224194 # 10000)), Some (FFin (377749 # 10000))).
Proof. vm_compute. repeat split; reflexivity. Qed.

(** * Further properties of the code *)

(** ** Phone numbers *)

Lemma filter_digits_all (d : str) :
  forallb is_digit d = true -> List.filter is_digit d = d.
Proof.
  induction d as [|c r IH]; simpl; [reflexivity|].
  intros [-> Hr]%andb_prop. now rewrite (IH Hr).
Qed.

Lemma filter_digits_are_digits (s : str) : forallb is_digit (List.filter is_digit s) = true.
Proof.
  induction s as [|c r IH]; simpl; [reflexivity|].
  destruct (is_digit c) eqn:E; simpl; [now rewrite E|exact IH].
Qed.

Lemma forallb_take p n (d : str) : forallb p d = true -> forallb p (take n d) = true.
Proof.
  revert n; induction d as [|c r IH]; intros [|n]; simpl; try reflexivity.
  intros [-> Hr]%andb_prop. now apply IH.
Qed.

Lemma forallb_drop p n (d : str) : forallb p d = true -> forallb p (drop n d) = true.
Proof.
  revert n; induction d as [|c r IH]; intros [|n]; simpl; try reflexivity; [easy|].
  intros [_ Hr]%andb_prop. now apply IH.
Qed.

Lemma us_format_digits d :
  forallb is_digit d = true ->
  List.filter is_digit (Further.us_format d) = d.
Proof.
  intros Hd. unfold Further.us_format.
  rewrite !List.filter_app.
  rewrite (filter_digits_all (take 3 d)) by now apply forallb_take.
  rewrite (filter_digits_all (take 3 (drop 3 d)))
    by now apply forallb_take, forallb_drop.
  rewrite (filter_digits_all (drop 6 d)) by now apply forallb_drop.
  change (List.filter is_digit (py "(")) with (@nil ascii).
  change (List.filter is_digit (py ") ")) with (@nil ascii).
  change (List.filter is_digit (py "-")) with (@nil ascii).
  simpl app. change 6%nat with (3 + 3)%nat. rewrite <- drop_drop.
  now rewrite !take_drop.
Qed.

Lemma us_format_length d : length d = 10%nat -> length (Further.us_format d) = 14%nat.
Proof.
  intros H. unfold Further.us_format.
  rewrite !length_app, !length_take, !length_drop, H. reflexivity.
Qed.

Lemma clean_phone_number_cases phone :
  let digits := List.filter is_digit phone in
  CsvImport.clean_phone_number phone
  = if negb (truthy phone) then []
    else if (length digits =? 10)%nat then Further.us_format digits
    else if (length digits =? 11)%nat && bool_decide (head digits = Some "1"%char)
         then Further.us_format (drop 1 digits)
    else phone.
Proof.
  unfold CsvImport.clean_phone_number, Further.us_format. cbv zeta.
  destruct (negb (truthy phone)); [reflexivity|].
  destruct (length (List.filter is_digit phone) =? 10)%nat; [reflexivity|].
  destruct ((length (List.filter is_digit phone) =? 11)%nat
            && bool_decide (head (List.filter is_digit phone) = Some "1"%char));
    [|reflexivity].
  now rewrite !drop_drop.
Qed.

Lemma clean_phone_number_us_format d :
  forallb is_digit d = true -> length d = 10%nat ->
  CsvImport.clean_phone_number (Further.us_format d) = Further.us_format d.
Proof.
  intros Hd Hlen. rewrite clean_phone_number_cases. cbv zeta.
  rewrite (us_format_digits d Hd), Hlen. reflexivity.
Qed.

(** X1: the phone formatter is idempotent: formatting a formatted number
    changes nothing, whatever the input. *)
Theorem clean_phone_number_idempotent phone :
  CsvImport.clean_phone_number (CsvImport.clean_phone_number phone)
  = CsvImport.clean_phone_number phone.
Proof.
  rewrite (clean_phone_number_cases phone). cbv zeta.
  pose proof (filter_digits_are_digits phone) as Hd.
  destruct (negb (truthy phone)) eqn:Et; [reflexivity|].
  destruct (length (List.filter is_digit phone) =? 10)%nat eqn:E10.
  { apply Nat.eqb_eq in E10. now apply clean_phone_number_us_format. }
  destruct ((length (List.filter is_digit phone) =? 11)%nat
            && bool_decide (head (List.filter is_digit phone) = Some "1"%char)) eqn:E11.
  { apply andb_prop in E11 as [E11 _]. apply Nat.eqb_eq in E11.
    apply clean_phone_number_us_format; [now apply forallb_drop|].
    rewrite length_drop, E11. reflexivity. }
  rewrite (clean_phone_number_cases phone). cbv zeta.
  now rewrite Et, E10, E11.
Qed.

(** X2: a text with exactly ten digits is formatted into fourteen
    characters that hold the same ten digits in the same order; a text
    with eleven digits of which the first is 1 loses that 1 and keeps the
    other ten. *)
Theorem clean_phone_number_keeps_digits phone :
  (length (List.filter is_digit phone) = 10%nat ->
   List.filter is_digit (CsvImport.clean_phone_number phone)
   = List.filter is_digit phone
   /\ length (CsvImport.clean_phone_number phone) = 14%nat)
  /\ (forall rest,
        List.filter is_digit phone = "1"%char :: rest -> length rest = 10%nat ->
        List.filter is_digit (CsvImport.clean_phone_number phone) = rest
        /\ length (CsvImport.clean_phone_number phone) = 14%nat).
Proof.
  pose proof (filter_digits_are_digits phone) as Hd.
  assert (truthy phone = false -> List.filter is_digit phone = []) as Hnil
    by (destruct phone; [reflexivity | discriminate]).
  split.
  - intros H10. rewrite clean_phone_number_cases. cbv zeta.
    destruct (truthy phone) eqn:Et; [|rewrite (Hnil eq_refl) in H10; discriminate].
    simpl negb. cbv iota. rewrite H10. simpl.
    split; [now apply us_format_digits | now apply us_format_length].
  - intros rest Hrest Hlen. rewrite clean_phone_number_cases. cbv zeta.
    destruct (truthy phone) eqn:Et; [|rewrite (Hnil eq_refl) in Hrest; discriminate].
    simpl negb. cbv iota. rewrite Hrest in Hd |- *. simpl length. rewrite Hlen.
    simpl. apply andb_prop in Hd as [_ Hd].
    split; [now apply us_format_digits | now apply us_format_length].
Qed.

Lemma clean_phone_number_keeps_digits_witness :
  List.filter is_digit (CsvImport.clean_phone_number (py "415.555.1212"))
  = List.filter is_digit (py "415.555.1212")
  /\ length (CsvImport.clean_phone_number (py "415.555.1212")) = 14%nat.
Proof.
  apply (proj1 (clean_phone_number_keeps_digits (py "415.555.1212"))).
  reflexivity.
Defined.

(** ** Validation of records *)

(** X3: a record that validate_record accepts comes with an empty error
    list and holds an address that is a text of at least five characters
    once stripped, and a city, a state and a rate text that are present
    and not empty. *)
Theorem validate_record_accepts (record : gmap string CsvImport.value) errs :
  CsvImport.validate_record record = Some (true, errs) ->
  errs = []
  /\ (exists a, record !! "address"%string = Some (CsvImport.VStr a)
                /\ (5 <= length (strip a))%nat)
  /\ CsvImport.value_truthy (record !! "city"%string) = true
  /\ CsvImport.value_truthy (record !! "state"%string) = true
  /\ CsvImport.value_truthy (record !! "rate_text"%string) = true.
Proof.
  unfold CsvImport.validate_record, CsvImport.required_fields. intros H.
  destruct (if CsvImport.value_truthy (record !! "address"%string)
            then match record !! "address"%string with
                 | Some (CsvImport.VStr a) =>
                     Some (if CsvImport.validate_address a then []
                           else [CsvImport.InvalidAddress])
                 | _ => None
                 end
            else Some []) as [address_errors|] eqn:Ea; [|discriminate].
  cbn [mbind option_bind] in H.
  destruct (match record !! "latitude"%string, record !! "longitude"%string with
            | Some lat, Some lng =>
                lat ← CsvImport.number_of lat;
                match CsvImport.number_of lng with
                | Some lng =>
                    Some (if CsvImport.validate_coordinates (Some lat) (Some lng)
                          then [] else [CsvImport.InvalidCoordinates])
                | None =>
                    if fle (of_int (-90)) lat && fle lat (of_int 90) then None
                    else Some [CsvImport.InvalidCoordinates]
                end
            | _, _ => Some []
            end) as [coordinate_errors|]; [|discriminate].
  cbn [mbind option_bind] in H. injection H as Hb <-.
  apply bool_decide_eq_true in Hb.
  destruct (CsvImport.value_truthy (record !! "address"%string)) eqn:Ta;
    [|simpl in Hb; discriminate].
  destruct (CsvImport.value_truthy (record !! "city"%string)) eqn:Tc;
    [|simpl in Hb; discriminate].
  destruct (CsvImport.value_truthy (record !! "state"%string)) eqn:Ts;
    [|simpl in Hb; discriminate].
  destruct (CsvImport.value_truthy (record !! "rate_text"%string)) eqn:Tr;
    [|simpl in Hb; discriminate].
  simpl in Hb. rewrite length_app in Hb.
  assert (address_errors = []) as -> by (destruct address_errors; [easy|simpl in Hb; lia]).
  assert (coordinate_errors = []) as ->
    by (destruct coordinate_errors; [easy|simpl in Hb; lia]).
  repeat split; try reflexivity.
  destruct (record !! "address"%string) as [[a| | |]|]; try discriminate.
  exists a. split; [reflexivity|].
  unfold CsvImport.validate_address in Ea.
  destruct (negb (truthy a) || (length (strip a) <? 5)%nat) eqn:E; [discriminate|].
  apply orb_false_elim in E as [_ E]. apply Nat.ltb_ge in E. exact E.
Qed.

Lemma validate_record_accepts_witness :
  @nil CsvImport.validation_error = []
  /\ (exists a, TableStore.first_listing !! "address"%string = Some (CsvImport.VStr a)
                /\ (5 <= length (strip a))%nat)
  /\ CsvImport.value_truthy (TableStore.first_listing !! "city"%string) = true
  /\ CsvImport.value_truthy (TableStore.first_listing !! "state"%string) = true
  /\ CsvImport.value_truthy (TableStore.first_listing !! "rate_text"%string) = true.
Proof.
  apply (validate_record_accepts TableStore.first_listing []).
  vm_compute. reflexivity.
Defined.

(** ** Transformation of rows *)

Section TransformFacts.

Variable float_repr : pyfloat -> str.

Lemma convert_field_well_typed field value v :
  CsvImport.convert_field float_repr field value = CsvImport.Keep v ->
  Further.well_typed field v.
Proof.
  unfold CsvImport.convert_field, Further.well_typed.
  destruct (bool_decide (field = "building_types"%string)); [intros [= <-]; eauto|].
  destruct (bool_decide (field = "contact_phone"%string)); [intros [= <-]; eauto|].
  destruct (bool_decide (field ∈ ["latitude"; "longitude"]%string)).
  { destruct (float_of_cell value); [intros [= <-]; eauto | discriminate]. }
  destruct (bool_decide (field ∈
              ["number_of_suites"; "year_built"; "parking_spaces"]%string)).
  { destruct (float_of_cell value) as [f|]; [|discriminate].
    destruct (CsvImport.int_of_float f) as [[]|z]; try discriminate.
    intros [= <-]; eauto. }
  intros [= <-]. eexists. split; [reflexivity | apply strip_idem].
Qed.

Lemma convert_field_raises field value e :
  CsvImport.convert_field float_repr field value = CsvImport.Raise e ->
  e = CsvImport.OverflowError.
Proof.
  unfold CsvImport.convert_field.
  destruct (bool_decide (field = "building_types"%string)); [discriminate|].
  destruct (bool_decide (field = "contact_phone"%string)); [discriminate|].
  destruct (bool_decide (field ∈ ["latitude"; "longitude"]%string)).
  { destruct (float_of_cell value); discriminate. }
  destruct (bool_decide (field ∈
              ["number_of_suites"; "year_built"; "parking_spaces"]%string));
    [|discriminate].
  destruct (float_of_cell value) as [f|]; [|discriminate].
  destruct f as [|neg|q]; simpl; try discriminate. now intros [= <-].
Qed.

Lemma transform_fields_invariant (record : gmap str cell) field_mapping :
  forall acc : CsvImport.exn + gmap string CsvImport.value,
  (match acc with
   | inl e => e = CsvImport.OverflowError
   | inr t => forall f v, t !! f = Some v -> Further.well_typed f v
   end) ->
  match fold_left
          (fun acc '(standard_field, csv_field) =>
             match acc with
             | inl e => inl e
             | inr transformed =>
                 let value := default CNone (record !! csv_field) in
                 if CsvImport.blank_cell value then inr transformed
                 else match CsvImport.convert_field float_repr standard_field value with
                      | CsvImport.Keep v => inr (<[standard_field := v]> transformed)
                      | CsvImport.Continue => inr transformed
                      | CsvImport.Raise e => inl e
                      end
             end)
          field_mapping acc with
  | inl e => e = CsvImport.OverflowError
  | inr t => forall f v, t !! f = Some v -> Further.well_typed f v
  end.
Proof.
  induction field_mapping as [|[standard_field csv_field] rest IH]; intros acc Hacc;
    [exact Hacc|].
  simpl. apply IH. destruct acc as [e|t]; [exact Hacc|]. cbv zeta.
  destruct (CsvImport.blank_cell (default CNone (record !! csv_field))); [exact Hacc|].
  destruct (CsvImport.convert_field float_repr standard_field
              (default CNone (record !! csv_field))) as [v| |e] eqn:E.
  - intros f w. destruct (decide (standard_field = f)) as [<-|Hne].
    + rewrite lookup_insert_eq. intros [= <-]. now apply convert_field_well_typed in E.
    + rewrite lookup_insert_ne by assumption. apply Hacc.
  - exact Hacc.
  - now apply convert_field_raises in E.
Qed.

Lemma transform_csv_record_typed (raw : gmap str cell) field_mapping
    (record : gmap string CsvImport.value) :
  CsvImport.transform_csv_record float_repr raw field_mapping = inr record ->
  forall f v, record !! f = Some v -> Further.well_typed f v.
Proof.
  unfold CsvImport.transform_csv_record. cbv zeta.
  pose proof (transform_fields_invariant raw field_mapping (inr ∅)) as H.
  destruct (fold_left _ field_mapping (inr ∅)) as [e|t]; [discriminate|].
  assert (forall f v, t !! f = Some v -> Further.well_typed f v) as Ht.
  { apply H. intros f v. rewrite lookup_empty. discriminate. }
  clear H. intros [= <-].
  set (t' := if bool_decide (is_Some (t !! "building_types"%string)) then t
             else <["building_types"%string := CsvImport.VList [py "Unknown"]]> t).
  assert (forall f v, t' !! f = Some v -> Further.well_typed f v) as Ht'.
  { subst t'. destruct (bool_decide (is_Some (t !! "building_types"%string)));
      [exact Ht|].
    intros f v. destruct (decide ("building_types"%string = f)) as [<-|Hne].
    - rewrite lookup_insert_eq. intros [= <-]. unfold Further.well_typed.
      rewrite bool_decide_eq_true_2 by reflexivity. eauto.
    - rewrite lookup_insert_ne by assumption. apply Ht. }
  intros f v. destruct (decide ("source"%string = f)) as [<-|Hne].
  - rewrite lookup_insert_eq. intros [= <-]. vm_compute. eauto.
  - rewrite lookup_insert_ne by assumption. apply Ht'.
Qed.


(** X5: the only exception that leaves transform_csv_record is the
    OverflowError of int() on an infinite number (in the columns of
    counts); every other failed conversion skips the field. *)
Theorem transform_csv_record_raises_only_overflow (raw : gmap str cell)
    field_mapping e :
  CsvImport.transform_csv_record float_repr raw field_mapping = inl e ->
  e = CsvImport.OverflowError.
Proof.
  unfold CsvImport.transform_csv_record. cbv zeta.
  pose proof (transform_fields_invariant raw field_mapping (inr ∅)) as H.
  destruct (fold_left _ field_mapping (inr ∅)) as [e'|t]; [|discriminate].
  intros [= <-]. apply H. intros f v. rewrite lookup_empty. discriminate.
Qed.

Lemma well_typed_address v :
  Further.well_typed "address" v -> exists s, v = CsvImport.VStr s.
Proof.
  unfold Further.well_typed.
  change (bool_decide ("address"%string = "building_types"%string)) with false.
  change (bool_decide ("address"%string = "contact_phone"%string)) with false.
  change (bool_decide ("address"%string ∈ ["latitude"; "longitude"]%string)) with false.
  change (bool_decide ("address"%string ∈
            ["number_of_suites"; "year_built"; "parking_spaces"]%string)) with false.
  intros (s & -> & _). eauto.
Qed.

Lemma well_typed_coordinate field v :
  field = "latitude"%string \/ field = "longitude"%string ->
  Further.well_typed field v -> exists f, v = CsvImport.VFloat f.
Proof.
  unfold Further.well_typed. intros [-> | ->].
  - change (bool_decide ("latitude"%string = "building_types"%string)) with false.
    change (bool_decide ("latitude"%string = "contact_phone"%string)) with false.
    change (bool_decide ("latitude"%string ∈ ["latitude"; "longitude"]%string)) with true.
    easy.
  - change (bool_decide ("longitude"%string = "building_types"%string)) with false.
    change (bool_decide ("longitude"%string = "contact_phone"%string)) with false.
    change (bool_decide ("longitude"%string ∈ ["latitude"; "longitude"]%string)) with true.
    easy.
Qed.

(** X6: validate_record never raises on a record built by
    transform_csv_record: its address, when present, is a text and its
    coordinates, when present, are floats. *)
Theorem validate_record_total_on_transformed (raw : gmap str cell) field_mapping
    (record : gmap string CsvImport.value) :
  CsvImport.transform_csv_record float_repr raw field_mapping = inr record ->
  is_Some (CsvImport.validate_record record).
Proof.
  intros H. pose proof (transform_csv_record_typed raw field_mapping record H) as Ht.
  unfold CsvImport.validate_record.
  assert (exists ae,
            (if CsvImport.value_truthy (record !! "address"%string)
             then match record !! "address"%string with
                  | Some (CsvImport.VStr a) =>
                      Some (if CsvImport.validate_address a then []
                            else [CsvImport.InvalidAddress])
                  | _ => None
                  end
             else Some []) = Some ae) as [ae ->].
  { destruct (record !! "address"%string) as [v|] eqn:E; [|simpl; eauto].
    apply Ht, well_typed_address in E as [s ->].
    destruct (CsvImport.value_truthy (Some (CsvImport.VStr s))); eauto. }
  cbn [mbind option_bind].
  destruct (record !! "latitude"%string) as [lat|] eqn:Elat; [|eauto].
  destruct (record !! "longitude"%string) as [lng|] eqn:Elng; [|eauto].
  apply Ht, well_typed_coordinate in Elat as [t ->]; [|now left].
  apply Ht, well_typed_coordinate in Elng as [g ->]; [|now right].
  simpl. eauto.
Qed.

End TransformFacts.


Lemma transform_csv_record_raises_witness :
  CsvImport.OverflowError = CsvImport.OverflowError.
Proof.
  apply (transform_csv_record_raises_only_overflow TableStore.no_floats
           Further.endless_suites [("number_of_suites"%string, py "Suites")]).
  vm_compute. reflexivity.
Defined.

Lemma validate_record_total_witness :
  is_Some (CsvImport.validate_record Further.plain_record).
Proof.
  apply (validate_record_total_on_transformed TableStore.no_floats Further.plain_row
           Further.plain_mapping).
  vm_compute. reflexivity.
Defined.

(** ** The header mapper, in general *)

Lemma index_Some x (l : list str) i : CsvImport.index x l = Some i -> l !! i = Some x.
Proof.
  revert i; induction l as [|y r IH]; intros i; simpl; [discriminate|].
  destruct (eqb y x) eqn:E.
  - intros [= <-]. apply eqb_true in E. now subst.
  - destruct (CsvImport.index x r) as [j|]; [|discriminate].
    intros [= <-]. now apply IH.
Qed.

Lemma index_None x (l : list str) : CsvImport.index x l = None -> ~ In x l.
Proof.
  induction l as [|y r IH]; simpl; [tauto|].
  destruct (eqb y x) eqn:E; [discriminate|].
  destruct (CsvImport.index x r); [discriminate|].
  intros _ [->|H]; [|now apply IH]. apply eqb_false in E. now apply E.
Qed.

Lemma map_lookup_Some {A B} (g : A -> B) (l : list A) i y :
  List.map g l !! i = Some y -> exists x, l !! i = Some x /\ y = g x.
Proof.
  revert i; induction l as [|a r IH]; intros [|i]; simpl; try discriminate.
  - intros [= <-]. eauto.
  - apply IH.
Qed.

Lemma first_alias_sound (g : str -> str) hs names h :
  CsvImport.first_alias hs (List.map g hs) names = Some h ->
  In h hs /\ exists alias, In alias names /\ g h = lower alias.
Proof.
  induction names as [|name rest IH]; simpl; [discriminate|].
  destruct (CsvImport.index (lower name) (List.map g hs)) as [i|] eqn:E.
  - intros Hh. apply index_Some in E.
    apply map_lookup_Some in E as (x & Hx & Hg).
    rewrite Hx in Hh. injection Hh as ->.
    split; [apply list_elem_of_In; eapply list_elem_of_lookup_2; eauto|].
    exists name. split; [now left | now symmetry].
  - intros Hh. destruct (IH Hh) as (H1 & alias & H2 & H3).
    split; [exact H1|]. exists alias. split; [now right | exact H3].
Qed.

Lemma first_alias_complete (g : str -> str) hs names alias h :
  In alias names -> In h hs -> g h = lower alias ->
  is_Some (CsvImport.first_alias hs (List.map g hs) names).
Proof.
  intros Halias Hh Hg. induction names as [|name rest IH]; [contradiction|].
  simpl. destruct (CsvImport.index (lower name) (List.map g hs)) as [i|] eqn:E.
  - apply index_Some in E. apply map_lookup_Some in E as (x & Hx & _).
    rewrite Hx. eauto.
  - destruct Halias as [->|Hin]; [|now apply IH].
    exfalso. apply (index_None _ _ E). rewrite <- Hg. now apply in_map.
Qed.

Lemma mapping_get_app a b f :
  CsvImport.mapping_get (a ++ b) f
  = match CsvImport.mapping_get a f with
    | Some h => Some h
    | None => CsvImport.mapping_get b f
    end.
Proof.
  unfold CsvImport.mapping_get. induction a as [|kv a IH]; simpl; [reflexivity|].
  destruct (bool_decide (kv.1 = f)); [reflexivity | exact IH].
Qed.

Section MapperFacts.

Variable csv_headers : list str.

Local Abbreviation lows := (List.map (fun h => strip (lower h)) csv_headers).
Local Abbreviation step :=
  (fun (mapping : list (string * str)) '(standard_field, possible_names) =>
     match CsvImport.first_alias csv_headers lows possible_names with
     | Some original_header => mapping ++ [(standard_field, original_header)]
     | None => mapping
     end).

Lemma fold_step_sound table : forall acc f h,
  CsvImport.mapping_get (fold_left step table acc) f = Some h ->
  CsvImport.mapping_get acc f = Some h
  \/ exists names, In (f, names) table
       /\ CsvImport.first_alias csv_headers lows names = Some h.
Proof.
  induction table as [|[field names] table IH]; intros acc f h; simpl; [now left|].
  intros H. apply IH in H as [H | (names' & Hin & Hfa)];
    [|right; exists names'; split; [now right | exact Hfa]].
  destruct (CsvImport.first_alias csv_headers lows names) as [h'|] eqn:E;
    [|now left].
  rewrite mapping_get_app in H.
  destruct (CsvImport.mapping_get acc f) as [h0|]; [now left|].
  unfold CsvImport.mapping_get in H. simpl in H.
  destruct (bool_decide (field = f)) eqn:Ef; [|discriminate].
  apply bool_decide_eq_true in Ef as ->. simpl in H. injection H as <-.
  right. exists names. split; [now left | exact E].
Qed.

Lemma fold_step_keeps table : forall acc f,
  is_Some (CsvImport.mapping_get acc f) ->
  is_Some (CsvImport.mapping_get (fold_left step table acc) f).
Proof.
  induction table as [|[field names] table IH]; intros acc f H; simpl; [exact H|].
  apply IH. destruct (CsvImport.first_alias csv_headers lows names); [|exact H].
  rewrite mapping_get_app. destruct H as [h ->]. eauto.
Qed.

Lemma fold_step_complete table : forall acc f names,
  In (f, names) table ->
  is_Some (CsvImport.first_alias csv_headers lows names) ->
  is_Some (CsvImport.mapping_get (fold_left step table acc) f).
Proof.
  induction table as [|[field names'] table IH]; intros acc f names Hin Hfa;
    [contradiction|].
  simpl. destruct Hin as [[= -> ->]|Hin]; [|now apply (IH _ _ names)].
  apply fold_step_keeps. destruct Hfa as [h ->].
  rewrite mapping_get_app. destruct (CsvImport.mapping_get acc f); [eauto|].
  unfold CsvImport.mapping_get. simpl.
  rewrite bool_decide_eq_true_2 by reflexivity. simpl. eauto.
Qed.

(** X7: the header mapper is sound and complete for its alias table: a
    standard field is mapped exactly when some header, lower-cased and
    stripped, equals one of the aliases of the field, and the header it is
    mapped to is always such a header of the input. *)
Theorem map_csv_headers_sound_and_complete (f : string) :
  (forall h,
     CsvImport.mapping_get (CsvImport.map_csv_headers csv_headers) f = Some h ->
     In h csv_headers
     /\ exists names alias,
          In (f, names) CsvImport.FIELD_MAPPINGS /\ In alias names
          /\ strip (lower h) = lower alias)
  /\ (forall names alias h,
        In (f, names) CsvImport.FIELD_MAPPINGS -> In alias names ->
        In h csv_headers -> strip (lower h) = lower alias ->
        is_Some (CsvImport.mapping_get (CsvImport.map_csv_headers csv_headers) f)).
Proof.
  split.
  - intros h H. unfold CsvImport.map_csv_headers in H. cbv zeta in H.
    apply fold_step_sound in H as [H | (names & Hin & Hfa)]; [discriminate|].
    apply first_alias_sound in Hfa as (Hh & alias & Ha & Hg).
    split; [exact Hh|]. now exists names, alias.
  - intros names alias h Hin Ha Hh Hg. unfold CsvImport.map_csv_headers. cbv zeta.
    apply (fold_step_complete _ _ _ names Hin).
    now apply (first_alias_complete _ _ _ alias h).
Qed.

End MapperFacts.

(** ** The import driver, as a whole *)



Section ImportFacts.

Context {Remote RowId : Type}.
Variable sb_insert_many :
  list (gmap string CsvImport.value) -> Remote -> Remote * option unit.
Variable sb_select_ids :
  CsvImport.value -> CsvImport.value -> Remote -> Remote * option (list RowId).
Variable sb_update : gmap string CsvImport.value -> RowId -> Remote -> Remote * option unit.
Variable sb_insert : gmap string CsvImport.value -> Remote -> Remote * option unit.
Variable notion_post : list (string * Json.json) -> Remote -> Remote * option unit.
Variable float_repr : pyfloat -> str.
Variable list_repr : list str -> str.

Local Abbreviation import_batch :=
  (CsvImport.import_batch Remote RowId sb_insert_many sb_select_ids sb_update sb_insert).
Local Abbreviation import_to_supabase :=
  (CsvImport.import_to_supabase Remote RowId sb_insert_many sb_select_ids
     sb_update sb_insert).
Local Abbreviation import_to_notion :=
  (CsvImport.import_to_notion Remote RowId notion_post float_repr list_repr).
Local Abbreviation create_property :=
  (CsvImport.create_property Remote RowId notion_post float_repr list_repr).
Local Abbreviation world := (CsvImport.world Remote RowId).





(** X9: a batch size of zero makes import_to_supabase raise (the ValueError
    of range with a zero step) and a negative one makes it return all-zero
    statistics; in both cases no request is sent and no record is
    imported or counted. *)
Theorem import_to_supabase_without_batches records (batch_size : Z) (w : world) :
  batch_size <= 0 ->
  import_to_supabase records batch_size w
  = (w, if batch_size =? 0 then None else Some CsvImport.stats0).
Proof.
  intros Hbs. unfold CsvImport.import_to_supabase, CsvImport.batch_starts.
  destruct (Z.eqb_spec batch_size 0); [reflexivity|].
  destruct (Z.ltb_spec batch_size 0); [reflexivity | lia].
Qed.

Lemma omap_length_le {A B} (f : A -> option B) (l : list A) :
  (length (omap f l) <= length l)%nat.
Proof.
  induction l as [|x l IH]; [simpl; lia|].
  cbn [omap list_omap] in IH |- *. destruct (f x); cbn [length]; lia.
Qed.

Lemma create_property_cases record (w : world) :
  match NotionImporter.property_to_notion_format float_repr list_repr record with
  | Some notion_props =>
      create_property record w
      = ({| CsvImport.remote := fst (notion_post notion_props (CsvImport.remote _ _ w));
            CsvImport.sent :=
              CsvImport.sent _ _ w ++ [CsvImport.NotionCreate RowId notion_props] |},
         snd (notion_post notion_props (CsvImport.remote _ _ w)))
  | None => create_property record w = (w, None)
  end.
Proof.
  unfold CsvImport.create_property.
  destruct (NotionImporter.property_to_notion_format float_repr list_repr record)
    as [notion_props|]; [|reflexivity].
  unfold CsvImport.send.
  now destruct (notion_post notion_props (CsvImport.remote _ _ w)).
Qed.

(** X10: import_to_notion counts every record once (created + errors
    equals the number of records) and sends, in the order of the records,
    one create-page request for every record that
    property_to_notion_format can format, carrying the formatted
    properties; for a record on which the formatter raises nothing is
    sent and an error is counted. *)
Theorem import_to_notion_one_request_per_record records (w : world) :
  let format := NotionImporter.property_to_notion_format float_repr list_repr in
  (CsvImport.n_created (snd (import_to_notion records w))
   + CsvImport.n_errors (snd (import_to_notion records w)))%nat = length records
  /\ CsvImport.sent _ _ (fst (import_to_notion records w))
     = CsvImport.sent _ _ w ++ (CsvImport.NotionCreate RowId <$> omap format records)
  /\ (length records - length (omap format records)
      <= CsvImport.n_errors (snd (import_to_notion records w)))%nat.
Proof.
  intros format. unfold CsvImport.import_to_notion.
  assert (forall st (w : world),
            let run :=
              CsvImport.for_each Remote RowId
                (fun record st =>
                   CsvImport.bind Remote RowId (create_property record)
                     (fun r =>
                        match r with
                        | Some _ =>
                            CsvImport.ret Remote RowId
                              {| CsvImport.n_created := CsvImport.n_created st + 1;
                                 CsvImport.n_errors := CsvImport.n_errors st |}
                        | None =>
                            CsvImport.ret Remote RowId
                              {| CsvImport.n_created := CsvImport.n_created st;
                                 CsvImport.n_errors := CsvImport.n_errors st + 1 |}
                        end))
                records st w in
            (CsvImport.n_created (snd run) + CsvImport.n_errors (snd run))%nat
            = (CsvImport.n_created st + CsvImport.n_errors st + length records)%nat
            /\ CsvImport.sent _ _ (fst run)
               = CsvImport.sent _ _ w
                 ++ (CsvImport.NotionCreate RowId <$> omap format records)
            /\ (CsvImport.n_errors st + (length records - length (omap format records))
                <= CsvImport.n_errors (snd run))%nat) as H.
  { clear w. induction records as [|record records IH]; intros st w.
    - simpl. repeat split; [lia | now rewrite app_nil_r | lia].
    - cbn [CsvImport.for_each omap list_omap].
      unfold CsvImport.bind, CsvImport.ret in IH |- *.
      pose proof (create_property_cases record w) as Hc. fold format in Hc.
      destruct (format record) as [notion_props|].
      + rewrite Hc.
        destruct (snd (notion_post notion_props (CsvImport.remote _ _ w))) as [[]|];
          match goal with
          | |- context [CsvImport.for_each _ _ _ records ?st1 ?w1] =>
              destruct (IH st1 w1) as (H1 & H2 & H3)
          end; cbv zeta in H1, H2, H3; repeat split.
        * rewrite H1. simpl. lia.
        * rewrite H2. simpl. rewrite <- app_assoc. reflexivity.
        * simpl in H3 |- *. lia.
        * rewrite H1. simpl. lia.
        * rewrite H2. simpl. rewrite <- app_assoc. reflexivity.
        * simpl in H3 |- *. lia.
      + rewrite Hc.
        match goal with
        | |- context [CsvImport.for_each _ _ _ records ?st1 ?w1] =>
            destruct (IH st1 w1) as (H1 & H2 & H3)
        end; cbv zeta in H1, H2, H3; repeat split.
        * rewrite H1. simpl. lia.
        * exact H2.
        * simpl in H3 |- *.
          pose proof (omap_length_le format records) as Hle. lia. }
  destruct (H {| CsvImport.n_created := 0; CsvImport.n_errors := 0 |} w)
    as (H1 & H2 & H3).
  cbv zeta in H1, H2, H3. repeat split; [| exact H2 | exact H3].
  rewrite H1. simpl. lia.
Qed.

End ImportFacts.


Lemma import_to_supabase_without_batches_witness :
  TableStore.import_to_supabase [TableStore.first_listing] (-5)
    (TableStore.start (TableStore.empty_table false))
  = (TableStore.start (TableStore.empty_table false), Some CsvImport.stats0).
Proof.
  apply (import_to_supabase_without_batches
           TableStore.insert_many TableStore.select_ids TableStore.update
           TableStore.insert [TableStore.first_listing] (-5)
           (TableStore.start (TableStore.empty_table false))).
  vm_compute. discriminate.
Defined.

(** ** Runs of process_csv_file that send nothing *)

Section RunFacts.

Context {Remote RowId : Type}.
Variable sb_insert_many :
  list (gmap string CsvImport.value) -> Remote -> Remote * option unit.
Variable sb_select_ids :
  CsvImport.value -> CsvImport.value -> Remote -> Remote * option (list RowId).
Variable sb_update : gmap string CsvImport.value -> RowId -> Remote -> Remote * option unit.
Variable sb_insert : gmap string CsvImport.value -> Remote -> Remote * option unit.
Variable notion_post : list (string * Json.json) -> Remote -> Remote * option unit.
Variable float_repr : pyfloat -> str.
Variable list_repr : list str -> str.
Variable notion_configured : bool.

Local Abbreviation process_csv_file :=
  (CsvImport.process_csv_file Remote RowId sb_insert_many sb_select_ids sb_update
     sb_insert notion_post float_repr list_repr notion_configured).

(** X11: when no row of the file is valid (or the file cannot be read),
    process_csv_file sends no request and reports no import statistics,
    with or without dry_run and whatever the target. *)
Theorem process_csv_file_without_valid_records file target batch_size dry_run
    (w : CsvImport.world Remote RowId) :
  CsvImport.valid_records
    (snd (process_csv_file file target batch_size dry_run w)) = 0%nat ->
  fst (process_csv_file file target batch_size dry_run w) = w
  /\ CsvImport.supabase_stats
       (snd (process_csv_file file target batch_size dry_run w)) = None
  /\ CsvImport.notion_stats_of
       (snd (process_csv_file file target batch_size dry_run w)) = None.
Proof.
  unfold CsvImport.process_csv_file.
  destruct file as [[headers raw_records]|]; [|now intros _].
  pose proof (check_rows_counts float_repr (CsvImport.map_csv_headers headers)
                raw_records 1) as H.
  destruct (CsvImport.check_rows float_repr (CsvImport.map_csv_headers headers) 1
              raw_records) as [valid [[n_valid n_invalid] msgs]].
  destruct H as (H1 & _ & _). destruct dry_run; [now intros _|].
  destruct valid as [|v valid].
  - intros _. rewrite !andb_false_r. unfold CsvImport.bind, CsvImport.ret.
    rewrite andb_false_l. now simpl.
  - intros Hv. exfalso. revert Hv. unfold CsvImport.bind, CsvImport.ret.
    destruct (CsvImport.mem target [py "supabase"; py "both"] && true).
    + destruct (CsvImport.import_to_supabase Remote RowId sb_insert_many
                  sb_select_ids sb_update sb_insert (v :: valid) batch_size w)
        as [w1 [st|]]; [|simpl in *; lia].
      destruct (CsvImport.mem target [py "notion"; py "both"] && true
                && notion_configured); [|simpl in *; lia].
      destruct (CsvImport.import_to_notion Remote RowId notion_post float_repr list_repr (v :: valid) w1).
      simpl in *; lia.
    + destruct (CsvImport.mem target [py "notion"; py "both"] && true
                && notion_configured); [|simpl in *; lia].
      destruct (CsvImport.import_to_notion Remote RowId notion_post float_repr list_repr (v :: valid) w).
      simpl in *; lia.
Qed.

(** X12: with a batch size of zero and the target supabase or both, a run
    that has valid records and is not a dry run stops at the Supabase
    import: Fatal is the last message, no statistics are reported, and no
    request is sent, the Notion import of the target both included. *)
Theorem zero_batch_size_aborts_the_run file target
    (w : CsvImport.world Remote RowId) :
  CsvImport.mem target [py "supabase"; py "both"] = true ->
  CsvImport.valid_records (snd (process_csv_file file target 0 false w)) <> 0%nat ->
  fst (process_csv_file file target 0 false w) = w
  /\ CsvImport.supabase_stats (snd (process_csv_file file target 0 false w)) = None
  /\ CsvImport.notion_stats_of (snd (process_csv_file file target 0 false w)) = None
  /\ last (CsvImport.errors_of (snd (process_csv_file file target 0 false w)))
     = Some CsvImport.Fatal.
Proof.
  intros Ht. unfold CsvImport.process_csv_file.
  destruct file as [[headers raw_records]|]; [|now intros []].
  pose proof (check_rows_counts float_repr (CsvImport.map_csv_headers headers)
                raw_records 1) as H.
  destruct (CsvImport.check_rows float_repr (CsvImport.map_csv_headers headers) 1
              raw_records) as [valid [[n_valid n_invalid] msgs]].
  destruct H as (H1 & _ & _). rewrite Ht.
  destruct valid as [|v valid].
  - simpl in H1. subst n_valid. unfold CsvImport.bind, CsvImport.ret.
    rewrite !andb_false_r. simpl. intros Hv. now contradiction Hv.
  - intros _. unfold CsvImport.bind, CsvImport.ret, CsvImport.import_to_supabase.
    simpl. repeat split; try reflexivity. apply last_snoc.
Qed.

End RunFacts.

Lemma process_csv_file_without_valid_records_witness :
  let file := Some ([py "Address"; py "City"; py "State"; py "Rate"],
                    [TableStore.listing_row "7 Oak Avenue" EmptyString]) in
  let w := TableStore.start (TableStore.empty_table false) in
  fst (TableStore.process_csv_file TableStore.no_floats file (py "both") 100 false w) = w
  /\ CsvImport.supabase_stats
       (snd (TableStore.process_csv_file TableStore.no_floats file (py "both") 100
               false w)) = None
  /\ CsvImport.notion_stats_of
       (snd (TableStore.process_csv_file TableStore.no_floats file (py "both") 100
               false w)) = None.
Proof.
  intros file w.
  apply (process_csv_file_without_valid_records
           TableStore.insert_many TableStore.select_ids TableStore.update
           TableStore.insert TableStore.create_page TableStore.no_floats
           NotionImporter.no_lists true
           file (py "both") 100 false w).
  vm_compute. reflexivity.
Defined.

Lemma zero_batch_size_witness :
  let w := TableStore.start (TableStore.empty_table false) in
  let run := TableStore.process_csv_file TableStore.no_floats TableStore.listing_file
               (py "both") 0 false w in
  fst run = w
  /\ CsvImport.supabase_stats (snd run) = None
  /\ CsvImport.notion_stats_of (snd run) = None
  /\ last (CsvImport.errors_of (snd run)) = Some CsvImport.Fatal.
Proof.
  intros w run.
  apply (zero_batch_size_aborts_the_run
           TableStore.insert_many TableStore.select_ids TableStore.update
           TableStore.insert TableStore.create_page TableStore.no_floats
           NotionImporter.no_lists true
           TableStore.listing_file (py "both") w).
  - vm_compute. reflexivity.
  - vm_compute. discriminate.
Defined.

(** ** The coordinate check of import_cre_data.py *)

(** X13: validate_coordinates of import_cre_data.py accepts a pair exactly
    when both coordinates are present and finite with the latitude in
    [-90,90] and the longitude in [-180,180]; a missing coordinate, NaN and
    the infinities are all rejected. *)
Theorem validate_coordinates_accepts_exactly lat lng :
  ImportCreData.validate_coordinates lat lng = true <->
  exists t g, lat = Some t /\ lng = Some g
              /\ within (-90) 90 t /\ within (-180) 180 g.
Proof.
  split.
  - destruct lat as [t|], lng as [g|]; try discriminate.
    intros H. apply row_validate_coordinates_within in H. exists t, g. tauto.
  - intros (t & g & -> & -> & H). now apply row_validate_coordinates_within.
Qed.

(** ** Square footage: cleaning and digits *)

Lemma parse_square_footage_unfold s :
  ImportCreData.parse_square_footage s
  = if negb (truthy s) || eqb (upper s) (py "N/A") || eqb (strip s) []
    then (None, None)
    else Further.sqft_core (remove ImportCreData.comma_or_space s).
Proof. reflexivity. Qed.

Lemma sync_parse_square_footage_unfold s :
  NotionSync.parse_square_footage s
  = if negb (truthy s) || existsb (eqb (upper s)) [py "N/A"; py "TBD"; []]
    then (None, None)
    else Further.sync_sqft_core (remove ImportCreData.comma_or_space s).
Proof. reflexivity. Qed.

Lemma chr_upper_N c : chr_upper c = "N"%char -> c = "N"%char \/ c = "n"%char.
Proof. each_char c. Qed.

Lemma chr_upper_slash c : chr_upper c = "/"%char -> c = "/"%char.
Proof. each_char c. Qed.

Lemma chr_upper_A c : chr_upper c = "A"%char -> c = "A"%char \/ c = "a"%char.
Proof. each_char c. Qed.

Lemma upper_NA_cases t :
  upper t = py "N/A" ->
  Further.sqft_core t = (None, None) /\ Further.sync_sqft_core t = (None, None)
  /\ remove ImportCreData.comma_or_space t = t.
Proof.
  destruct t as [|c1 [|c2 [|c3 [|c4 r]]]]; try discriminate.
  intros [= H1 H2 H3].
  apply chr_upper_N in H1. apply chr_upper_slash in H2. apply chr_upper_A in H3.
  destruct H1 as [-> | ->], H3 as [-> | ->]; subst c2; repeat split; reflexivity.
Qed.

Lemma upper_TBD_cases t :
  upper t = py "TBD" ->
  Further.sqft_core t = (None, None) /\ Further.sync_sqft_core t = (None, None)
  /\ remove ImportCreData.comma_or_space t = t.
Proof.
  destruct t as [|c1 [|c2 [|c3 [|c4 r]]]]; try discriminate.
  intros [= H1 H2 H3].
  apply chr_upper_T in H1. apply chr_upper_B in H2. apply chr_upper_D in H3.
  destruct H1 as [-> | ->], H2 as [-> | ->], H3 as [-> | ->];
    repeat split; reflexivity.
Qed.

Lemma remove_idem cls s : remove cls (remove cls s) = remove cls s.
Proof.
  unfold remove. induction s as [|c r IH]; simpl; [reflexivity|].
  destruct (negb (cls c)) eqn:E; simpl; [rewrite E|]; now rewrite ?IH.
Qed.

Lemma cleaned_no_space s :
  existsb is_space (remove ImportCreData.comma_or_space s) = false.
Proof.
  induction s as [|c r IH]; simpl; [reflexivity|].
  unfold ImportCreData.comma_or_space at 1.
  destruct (is_space c) eqn:E; [now rewrite orb_true_r|].
  destruct (is_chr "," c); simpl; [exact IH | now rewrite E].
Qed.

Lemma cleaned_strip_nil s :
  strip (remove ImportCreData.comma_or_space s) = [] ->
  remove ImportCreData.comma_or_space s = [].
Proof.
  intros H. apply strip_nil in H. pose proof (cleaned_no_space s) as H2.
  destruct (remove ImportCreData.comma_or_space s) as [|c r]; [reflexivity|].
  simpl in H, H2. apply andb_prop in H as [H _].
  apply orb_false_elim in H2 as [H2 _]. congruence.
Qed.

(** X14: commas and white space in the text never change what the
    square-footage parsers return: parsing a text and parsing its cleaned
    form (commas and white space removed) give the same pair, for both
    parsers and every text. *)
Theorem parse_square_footage_ignores_commas_and_blanks s :
  ImportCreData.parse_square_footage s
  = ImportCreData.parse_square_footage (remove ImportCreData.comma_or_space s)
  /\ NotionSync.parse_square_footage s
     = NotionSync.parse_square_footage (remove ImportCreData.comma_or_space s).
Proof.
  set (t := remove ImportCreData.comma_or_space s).
  assert (remove ImportCreData.comma_or_space t = t) as Ht by apply remove_idem.
  split.
  - rewrite (parse_square_footage_unfold s), (parse_square_footage_unfold t), Ht.
    fold t.
    assert (negb (truthy t) || eqb (upper t) (py "N/A") || eqb (strip t) [] = true ->
            Further.sqft_core t = (None, None)) as A.
    { intros [[G|G]%orb_prop|G]%orb_prop.
      - destruct t; [reflexivity | discriminate].
      - apply eqb_true in G. now apply upper_NA_cases.
      - apply eqb_true, cleaned_strip_nil in G. fold t in G. now rewrite G. }
    destruct (negb (truthy s) || eqb (upper s) (py "N/A") || eqb (strip s) []) eqn:G.
    + assert (negb (truthy t) || eqb (upper t) (py "N/A") || eqb (strip t) [] = true)
        as -> ; [|reflexivity].
      apply orb_prop in G as [[G|G]%orb_prop|G].
      * subst t. destruct s; [reflexivity | discriminate].
      * apply eqb_true in G. destruct (upper_NA_cases s G) as (_ & _ & E).
        subst t. rewrite E. apply eqb_true in G. now rewrite G, orb_true_r.
      * apply eqb_true, strip_nil, remove_spaces in G. subst t. now rewrite G.
    + destruct (negb (truthy t) || eqb (upper t) (py "N/A") || eqb (strip t) [])
        eqn:G'; [now rewrite A | reflexivity].
  - rewrite (sync_parse_square_footage_unfold s), (sync_parse_square_footage_unfold t),
      Ht. fold t.
    assert (negb (truthy t) || existsb (eqb (upper t)) [py "N/A"; py "TBD"; []] = true ->
            Further.sync_sqft_core t = (None, None)) as A.
    { intros [G|G]%orb_prop.
      - destruct t; [reflexivity | discriminate].
      - simpl in G. rewrite orb_false_r in G.
        apply orb_prop in G as [G|[G|G]%orb_prop]; apply eqb_true in G.
        + now apply upper_NA_cases.
        + now apply upper_TBD_cases.
        + apply upper_nil in G. now rewrite G. }
    destruct (negb (truthy s) || existsb (eqb (upper s)) [py "N/A"; py "TBD"; []])
      eqn:G.
    + assert (negb (truthy t) || existsb (eqb (upper t)) [py "N/A"; py "TBD"; []]
              = true) as ->; [|reflexivity].
      apply orb_prop in G as [G|G].
      * subst t. destruct s; [reflexivity | discriminate].
      * simpl in G. rewrite orb_false_r in G.
        apply orb_prop in G as [G|[G|G]%orb_prop]; apply eqb_true in G.
        -- destruct (upper_NA_cases s G) as (_ & _ & E). subst t. rewrite E, G.
           apply orb_true_r.
        -- destruct (upper_TBD_cases s G) as (_ & _ & E). subst t. rewrite E, G.
           apply orb_true_r.
        -- apply upper_nil in G. subst s. reflexivity.
    + destruct (negb (truthy t) || existsb (eqb (upper t)) [py "N/A"; py "TBD"; []])
        eqn:G'; [now rewrite A | reflexivity].
Qed.

Lemma digits_from_digits d : forall acc,
  forallb is_digit d = true -> digits_from acc d = Some (digits_value acc d).
Proof.
  induction d as [|c r IH]; intros acc; simpl; [reflexivity|].
  intros [-> Hr]%andb_prop. now apply IH.
Qed.

Lemma digit_not_sign c r :
  is_digit c = true ->
  match c :: r with
  | "+"%char :: r' => int_digits r'
  | "-"%char :: r' => Z.opp <$> int_digits r'
  | t => int_digits t
  end = int_digits (c :: r).
Proof.
  intros H.
  destruct c as [[] [] [] [] [] [] [] []];
    first [reflexivity | (vm_compute in H; discriminate H)].
Qed.

Lemma py_int_digits d :
  forallb is_digit d = true -> d <> [] -> py_int d = Some (digits_value 0 d).
Proof.
  intros Hd Hne. unfold py_int. rewrite (no_space_skip_blanks d (digits_no_space d Hd)).
  destruct d as [|c r]; [contradiction|].
  pose proof Hd as Hd'. simpl in Hd'. apply andb_prop in Hd' as [Hc Hr].
  rewrite (digit_not_sign c r Hc). simpl. rewrite Hc.
  now apply digits_from_digits.
Qed.

Lemma digit_not_comma_or_space c :
  is_digit c = true -> ImportCreData.comma_or_space c = false.
Proof. each_char_imp c. Qed.

Lemma digit_not_hyphen c : is_digit c = true -> is_chr "-" c = false.
Proof. each_char_imp c. Qed.

Lemma digit_chr_upper c : is_digit c = true -> chr_upper c = c.
Proof. each_char_imp c. Qed.

Lemma digits_no_class (cls : ascii -> bool) d :
  (forall c, is_digit c = true -> cls c = false) ->
  forallb is_digit d = true -> existsb cls d = false.
Proof.
  intros Hcls. induction d as [|c r IH]; simpl; [reflexivity|].
  intros [Hc Hr]%andb_prop. now rewrite (Hcls c Hc), (IH Hr).
Qed.

Lemma remove_none cls s : existsb cls s = false -> remove cls s = s.
Proof.
  unfold remove. induction s as [|c r IH]; simpl; [reflexivity|].
  intros [-> Hr]%orb_false_elim. simpl. now rewrite (IH Hr).
Qed.

Lemma digit_led_passes c r :
  is_digit c = true ->
  negb (truthy (c :: r)) || eqb (upper (c :: r)) (py "N/A") || eqb (strip (c :: r)) []
  = false
  /\ negb (truthy (c :: r))
     || existsb (eqb (upper (c :: r))) [py "N/A"; py "TBD"; []] = false.
Proof.
  intros Hc.
  assert (eqb (strip (c :: r)) [] = false) as Hs.
  { apply eqb_false. intros E. apply strip_nil in E. simpl in E.
    now rewrite (digit_not_space c Hc) in E. }
  assert (eqb (upper (c :: r)) (py "N/A") = false) as Hna.
  { apply eqb_false. simpl. rewrite (digit_chr_upper c Hc). intros [= E _].
    subst c. discriminate. }
  assert (eqb (upper (c :: r)) (py "TBD") = false) as Htbd.
  { apply eqb_false. simpl. rewrite (digit_chr_upper c Hc). intros [= E _].
    subst c. discriminate. }
  assert (eqb (upper (c :: r)) [] = false) as Hnil
    by (apply eqb_false; discriminate).
  split.
  - now rewrite Hna, Hs.
  - cbn [existsb]. now rewrite Hna, Htbd, Hnil.
Qed.

(** X15: for two non-empty runs A and B of at most 4300 digits each (the
    longest run int() converts by default), both square-footage parsers
    read the text A-B as the pair of the numbers A and B, and the text A
    alone as the number A for both bounds. *)
Theorem parse_square_footage_of_digits (a b : str) :
  forallb is_digit a = true -> a <> [] -> (length a <= 4300)%nat ->
  forallb is_digit b = true -> b <> [] -> (length b <= 4300)%nat ->
  let va := digits_value 0 a in
  let vb := digits_value 0 b in
  ImportCreData.parse_square_footage (a ++ "-"%char :: b) = (Some va, Some vb)
  /\ NotionSync.parse_square_footage (a ++ "-"%char :: b) = (Some va, Some vb)
  /\ ImportCreData.parse_square_footage a = (Some va, Some va)
  /\ NotionSync.parse_square_footage a = (Some va, Some va).
Proof.
  intros Ha Hane _ Hb Hbne _ va vb.
  pose proof (py_int_digits a Ha Hane) as Hia.
  pose proof (py_int_digits b Hb Hbne) as Hib.
  pose proof (digits_no_class _ a digit_not_hyphen Ha) as Hha.
  pose proof (digits_no_class _ b digit_not_hyphen Hb) as Hhb.
  pose proof (digits_no_class _ a digit_not_comma_or_space Ha) as Hca.
  pose proof (digits_no_class _ b digit_not_comma_or_space Hb) as Hcb.
  assert (remove ImportCreData.comma_or_space (a ++ "-"%char :: b)
          = a ++ "-"%char :: b) as Hclean.
  { apply remove_none. rewrite existsb_app, Hca. simpl. now rewrite Hcb. }
  assert (contains "-" (a ++ "-"%char :: b) = true) as Hcont.
  { unfold contains. rewrite existsb_app. simpl. apply orb_true_r. }
  assert (split "-" (a ++ "-"%char :: b) = [a; b]) as Hsplit.
  { unfold split. rewrite (split_on_app _ a "-"%char b Hha eq_refl).
    now rewrite (split_on_whole _ b Hhb). }
  destruct a as [|c a']; [contradiction|].
  pose proof Ha as Ha'. simpl in Ha'. apply andb_prop in Ha' as [Hc _].
  destruct (digit_led_passes c (a' ++ "-"%char :: b) Hc) as [G1 G2].
  destruct (digit_led_passes c a' Hc) as [G3 G4].
  repeat split.
  - rewrite parse_square_footage_unfold.
    change ((c :: a') ++ "-"%char :: b) with (c :: a' ++ "-"%char :: b) in *.
    rewrite G1, Hclean. unfold Further.sqft_core. rewrite Hcont, Hsplit.
    unfold ImportCreData.int_or_none. simpl truthy. cbv iota.
    destruct b as [|d b']; [contradiction|]. simpl truthy. cbv iota.
    now rewrite Hia, Hib.
  - rewrite sync_parse_square_footage_unfold.
    change ((c :: a') ++ "-"%char :: b) with (c :: a' ++ "-"%char :: b) in *.
    rewrite G2, Hclean. unfold Further.sync_sqft_core. cbv zeta.
    rewrite Hcont, Hsplit. now rewrite Hia, Hib.
  - rewrite parse_square_footage_unfold, G3, (remove_none _ _ Hca).
    unfold Further.sqft_core. unfold contains. now rewrite Hha, Hia.
  - rewrite sync_parse_square_footage_unfold, G4, (remove_none _ _ Hca).
    unfold Further.sync_sqft_core, contains. cbv zeta. now rewrite Hha, Hia.
Qed.

Lemma parse_square_footage_of_digits_witness :
  ImportCreData.parse_square_footage (py "1000" ++ "-"%char :: py "45000")
  = (Some (digits_value 0 (py "1000")), Some (digits_value 0 (py "45000")))
  /\ NotionSync.parse_square_footage (py "1000" ++ "-"%char :: py "45000")
     = (Some (digits_value 0 (py "1000")), Some (digits_value 0 (py "45000")))
  /\ ImportCreData.parse_square_footage (py "1000")
     = (Some (digits_value 0 (py "1000")), Some (digits_value 0 (py "1000")))
  /\ NotionSync.parse_square_footage (py "1000")
     = (Some (digits_value 0 (py "1000")), Some (digits_value 0 (py "1000"))).
Proof.
  apply (parse_square_footage_of_digits (py "1000") (py "45000"));
    first [reflexivity | discriminate | (simpl; lia)].
Defined.

(** ** Paging: services that never finish or fail *)

Section PagingEdges.

Context {Page Service : Type}.
Variable endpoint : option str -> Service -> Service * option (NotionSync.response Page).

Lemma follow_pages_never_returns :
  (forall cursor sv, exists sv' page,
      endpoint cursor sv = (sv', Some page) /\ NotionSync.has_more Page page = true) ->
  forall steps properties cursor sv,
    snd (NotionSync.follow_pages Page Service endpoint steps properties cursor sv)
    = NotionSync.Running.
Proof.
  intros Hmore. induction steps as [|steps IH]; intros properties cursor sv;
    [reflexivity|].
  simpl. unfold NotionSync.query_database.
  destruct cursor as [[|c r]|].
  - destruct (Hmore None sv) as (sv' & page & -> & ->). apply IH.
  - destruct (Hmore (Some (c :: r)) sv) as (sv' & page & -> & ->). apply IH.
  - destruct (Hmore None sv) as (sv' & page & -> & ->). apply IH.
Qed.

(** X16: the page-follow loop has no bound of its own: against a service
    that answers every query with has-more set, get_all_properties is
    still running after any number of iterations and never returns. *)
Theorem get_all_properties_never_gives_up :
  (forall cursor sv, exists sv' page,
      endpoint cursor sv = (sv', Some page) /\ NotionSync.has_more Page page = true) ->
  forall steps sv,
    snd (NotionSync.get_all_properties Page Service endpoint steps sv)
    = NotionSync.Running.
Proof.
  intros Hmore steps sv. now apply follow_pages_never_returns.
Qed.

Lemma follow_pages_fails cursor sv n sv' :
  OddPages.fails_after Page Service endpoint cursor sv n sv' ->
  forall steps properties, (n < steps)%nat ->
    NotionSync.follow_pages Page Service endpoint steps properties cursor sv
    = (sv', NotionSync.Raises).
Proof.
  induction 1 as [cursor sv sv' Hq | cursor sv sv' sv'' page n Hq Hmore _ IH];
    intros steps properties Hsteps.
  - destruct steps as [|steps]; [lia|]. simpl. now rewrite Hq.
  - destruct steps as [|steps]; [lia|]. simpl. rewrite Hq, Hmore.
    apply IH. lia.
Qed.

(** X17: when a query fails after some pages were fetched,
    get_all_properties raises: it returns none of the pages it had
    gathered, however many they were. *)
Theorem get_all_properties_raises_on_failed_query sv n sv' steps :
  OddPages.fails_after Page Service endpoint None sv n sv' ->
  (n < steps)%nat ->
  NotionSync.get_all_properties Page Service endpoint steps sv
  = (sv', NotionSync.Raises).
Proof.
  intros H Hsteps. unfold NotionSync.get_all_properties.
  now apply (follow_pages_fails None sv n sv').
Qed.

End PagingEdges.

Lemma get_all_properties_never_gives_up_witness :
  snd (NotionSync.get_all_properties nat unit OddPages.stuck 1000 tt)
  = NotionSync.Running.
Proof.
  apply (get_all_properties_never_gives_up OddPages.stuck).
  intros cursor sv. eexists _, _. split; reflexivity.
Defined.

Lemma get_all_properties_raises_witness :
  NotionSync.get_all_properties nat unit OddPages.broken 5 tt
  = (tt, NotionSync.Raises).
Proof.
  apply (get_all_properties_raises_on_failed_query OddPages.broken tt 1 tt 5).
  - eapply OddPages.fails_later; [reflexivity | reflexivity |].
    apply OddPages.fails_now. reflexivity.
  - lia.
Defined.

(** ** The row loop of import_cre_data.py *)

Lemma upper_idem s : upper (upper s) = upper s.
Proof.
  unfold upper. induction s as [|c r IH]; simpl; [reflexivity|].
  now rewrite chr_upper_idem, IH.
Qed.

Lemma upper_take n s : upper (take n s) = take n (upper s).
Proof.
  unfold upper. revert n; induction s as [|c r IH]; intros [|n]; simpl;
    try reflexivity. now rewrite IH.
Qed.

Lemma row_coordinates_both c_longitude c_latitude lng lat :
  ImportCreData.row_coordinates c_longitude c_latitude = (Some lng, Some lat) ->
  within (-90) 90 lat /\ within (-180) 180 lng.
Proof.
  unfold ImportCreData.row_coordinates.
  destruct (if notna c_longitude then float_of_cell c_longitude else None) as [g|];
    destruct (if notna c_latitude then float_of_cell c_latitude else None) as [t|];
    try discriminate.
  destruct (ImportCreData.validate_coordinates (Some t) (Some g)) eqn:E; simpl;
    [|discriminate].
  intros [= <- <-]. now apply row_validate_coordinates_within.
Qed.

Section RowFacts.

Variable float_repr : pyfloat -> str.
Context {Remote : Type}.
Variable sb_insert : ImportRows.property_data -> Remote -> Remote * option bool.

Local Abbreviation import_row := (ImportRows.import_row float_repr Remote sb_insert).
Local Abbreviation import_rows := (ImportRows.import_rows float_repr Remote sb_insert).

Lemma import_row_counts st row :
  (ImportRows.imported_count Remote (import_row st row)
   + ImportRows.error_count Remote (import_row st row))%nat
  = S (ImportRows.imported_count Remote st + ImportRows.error_count Remote st)
  /\ (ImportRows.imported_count Remote st <= length (ImportRows.inserts Remote st) ->
      ImportRows.imported_count Remote (import_row st row)
      <= length (ImportRows.inserts Remote (import_row st row)))%nat
  /\ (length (ImportRows.inserts Remote (import_row st row))
      <= S (length (ImportRows.inserts Remote st)))%nat.
Proof.
  unfold ImportRows.import_row. cbv zeta.
  destruct (negb (truthy (ImportRows.address (ImportRows.prepare float_repr row)))
            || negb (truthy (ImportRows.city (ImportRows.prepare float_repr row)))
            || negb (truthy (ImportRows.state (ImportRows.prepare float_repr row)))).
  - simpl. repeat split; lia.
  - destruct (sb_insert (ImportRows.prepare float_repr row) (ImportRows.table Remote st))
      as [t' [[]|]]; simpl; rewrite ?length_app; simpl; repeat split; lia.
Qed.

(** X18: the row loop of import_csv_to_supabase counts every row exactly
    once: when it ends, imported + errors equals the number of rows, and
    no more rows are counted as imported than inserts were sent. *)
Theorem import_rows_counts_every_row rows t :
  (ImportRows.imported_count Remote (import_rows rows t)
   + ImportRows.error_count Remote (import_rows rows t))%nat = length rows
  /\ (ImportRows.imported_count Remote (import_rows rows t)
      <= length (ImportRows.inserts Remote (import_rows rows t)))%nat
  /\ (length (ImportRows.inserts Remote (import_rows rows t)) <= length rows)%nat.
Proof.
  unfold ImportRows.import_rows.
  set (st0 := {| ImportRows.table := t; ImportRows.inserts := [];
                 ImportRows.imported_count := 0; ImportRows.error_count := 0 |}).
  assert (forall rows st,
            let st' := fold_left import_row rows st in
            (ImportRows.imported_count Remote st' + ImportRows.error_count Remote st'
             = ImportRows.imported_count Remote st + ImportRows.error_count Remote st
               + length rows)%nat
            /\ ((ImportRows.imported_count Remote st
                 <= length (ImportRows.inserts Remote st))%nat ->
                (ImportRows.imported_count Remote st'
                 <= length (ImportRows.inserts Remote st'))%nat)
            /\ (length (ImportRows.inserts Remote st')
                <= length (ImportRows.inserts Remote st) + length rows)%nat) as H.
  { clear. induction rows as [|row rows IH]; intros st; simpl; [repeat split; lia|].
    destruct (IH (import_row st row)) as (H1 & H2 & H3).
    destruct (import_row_counts st row) as (C1 & C3 & C4).
    repeat split; [lia | auto | lia]. }
  destruct (H rows st0) as (H1 & H2 & H3). simpl in *.
  repeat split; [lia | apply H2; lia | lia].
Qed.

Lemma prepare_state_shape row :
  (length (ImportRows.state (ImportRows.prepare float_repr row)) <= 2)%nat
  /\ upper (ImportRows.state (ImportRows.prepare float_repr row))
     = ImportRows.state (ImportRows.prepare float_repr row)
  /\ strip (ImportRows.address (ImportRows.prepare float_repr row))
     = ImportRows.address (ImportRows.prepare float_repr row)
  /\ strip (ImportRows.city (ImportRows.prepare float_repr row))
     = ImportRows.city (ImportRows.prepare float_repr row)
  /\ match ImportRows.longitude (ImportRows.prepare float_repr row),
           ImportRows.latitude (ImportRows.prepare float_repr row) with
     | Some lng, Some lat => within (-90) 90 lat /\ within (-180) 180 lng
     | _, _ => True
     end.
Proof.
  unfold ImportRows.prepare.
  destruct (ImportCreData.parse_square_footage _) as [sq_ft_min sq_ft_max].
  pose proof (row_coordinates_both (ImportRows.cell_of row "Longitude")
                (ImportRows.cell_of row "Latitude")) as Hc.
  destruct (ImportCreData.row_coordinates _ _) as [lng lat]. simpl.
  repeat split.
  - rewrite length_take. lia.
  - now rewrite upper_take, upper_idem.
  - apply strip_idem.
  - apply strip_idem.
  - destruct lng as [g|], lat as [u|]; try exact I. now apply Hc.
Qed.

(** X19: every record the row loop sends to the table has a non-empty
    address, city and state, the address and city stripped, the state in
    upper case and at most two characters long, and, when it holds both
    coordinates, the latitude in [-90,90] and the longitude in [-180,180]. *)
Theorem import_rows_sends_only_complete_records rows t :
  Forall
    (fun p =>
       ImportRows.address p <> [] /\ ImportRows.city p <> []
       /\ ImportRows.state p <> []
       /\ strip (ImportRows.address p) = ImportRows.address p
       /\ strip (ImportRows.city p) = ImportRows.city p
       /\ (length (ImportRows.state p) <= 2)%nat
       /\ upper (ImportRows.state p) = ImportRows.state p
       /\ match ImportRows.longitude p, ImportRows.latitude p with
          | Some lng, Some lat => within (-90) 90 lat /\ within (-180) 180 lng
          | _, _ => True
          end)
    (ImportRows.inserts Remote (import_rows rows t)).
Proof.
  unfold ImportRows.import_rows.
  set (ok := fun p : ImportRows.property_data => _).
  assert (forall rows st, Forall ok (ImportRows.inserts Remote st) ->
            Forall ok (ImportRows.inserts Remote (fold_left import_row rows st))) as H.
  { clear rows. induction rows as [|row rows IH]; intros st Hst; simpl; [exact Hst|].
    apply IH. unfold ImportRows.import_row. cbv zeta.
    destruct (negb (truthy (ImportRows.address (ImportRows.prepare float_repr row)))
              || negb (truthy (ImportRows.city (ImportRows.prepare float_repr row)))
              || negb (truthy (ImportRows.state (ImportRows.prepare float_repr row))))
      eqn:E; [exact Hst|].
    apply orb_false_elim in E as [E Es]. apply orb_false_elim in E as [Ea Ec].
    apply negb_false_iff, truthy_true in Ea, Ec, Es.
    assert (ok (ImportRows.prepare float_repr row)) as Hok.
    { destruct (prepare_state_shape row) as (S1 & S2 & S3 & S4 & S5).
      subst ok. cbv beta. repeat split; assumption. }
    destruct (sb_insert (ImportRows.prepare float_repr row) (ImportRows.table Remote st))
      as [t' [[]|]]; simpl; apply Forall_app; split; auto. }
  apply H. constructor.
Qed.

End RowFacts.

(** the two rows against a table that keeps what it is given: the row with
    a longitude only is sent as it is, the row without a city is not sent *)
Example import_rows_example :
  let st := ImportRows.import_rows TableStore.no_floats _ ImportRows.keep_all
              [ImportRows.west_row; ImportRows.cityless_row] [] in
  ImportRows.imported_count _ st = 1%nat
  /\ ImportRows.error_count _ st = 1%nat
  /\ ImportRows.state <$> ImportRows.inserts _ st = [py "CA"]
  /\ ImportRows.longitude <$> ImportRows.inserts _ st = [Some (FFin (-122 # 1))]
  /\ ImportRows.latitude <$> ImportRows.inserts _ st = [None]
  /\ ImportRows.building_types <$> ImportRows.inserts _ st = [[py "Unknown"]].
Proof. vm_compute. repeat split; reflexivity. Qed.

(** ** The sync drivers of notion_supabase_sync.py *)

Section SyncFacts.

Import NotionSyncDrivers.

Variable now : str.
Context {Remote : Type}.
Variable endpoint : option str -> Remote -> Remote * option (NotionSync.response Json.json).
Variable select_by_notion_id : Json.json -> Remote -> Remote * option bool.
Variable update_by_notion_id :
  list (string * Json.json) -> Json.json -> Remote -> Remote * option unit.
Variable insert : list (string * Json.json) -> Remote -> Remote * option unit.
Variable select_unsynced : Remote -> Remote * option (list Json.json).
Variable create_page : Json.json -> Remote -> Remote * option Json.json.
Variable set_notion_id : Json.json -> Json.json -> Remote -> Remote * option unit.

Local Abbreviation sync_page :=
  (NotionSyncDrivers.sync_page now Remote select_by_notion_id update_by_notion_id insert).
Local Abbreviation sync_row :=
  (NotionSyncDrivers.sync_row Remote create_page set_notion_id).
Local Abbreviation total :=
  (fun st : sync_stats => (created st + updated st + errors st)%nat).

Lemma sync_page_counts state notion_page :
  total (snd (sync_page state notion_page)) = S (total (snd state))
  /\ (length (sent Remote (fst state))
      <= length (sent Remote (fst (sync_page state notion_page)))
      <= length (sent Remote (fst state)) + 2)%nat.
Proof.
  destruct state as [w st]. unfold NotionSyncDrivers.sync_page.
  destruct (notion_to_supabase now notion_page) as [data|]; [|simpl; lia].
  destruct (Json.lookup "notion_id" data) as [notion_id|]; [|simpl; lia].
  unfold send.
  destruct (select_by_notion_id notion_id (remote Remote w)) as [r1 [[]|]]; simpl.
  - destruct (update_by_notion_id data notion_id r1) as [r2 [[]|]]; simpl;
      rewrite !length_app; simpl; lia.
  - destruct (insert data r1) as [r2 [[]|]]; simpl; rewrite !length_app; simpl; lia.
  - rewrite length_app. simpl. lia.
Qed.

Lemma fold_sync_page_counts pages : forall state,
  total (snd (fold_left sync_page pages state)) = (total (snd state) + length pages)%nat
  /\ (length (sent Remote (fst (fold_left sync_page pages state)))
      <= length (sent Remote (fst state)) + 2 * length pages)%nat.
Proof.
  induction pages as [|page pages IH]; intros state; simpl; [lia|].
  destruct (IH (sync_page state page)) as [H1 H2].
  destruct (sync_page_counts state page) as [C1 C2]. lia.
Qed.

(** X20: sync_notion_to_supabase counts every page of the database exactly
    once: when the paging returns, created + updated + errors equals the
    number of pages fetched, and at most two requests (a lookup and a
    write) are sent per page; when the paging raises, the sync raises too
    and nothing is sent to the table. *)
Theorem sync_notion_to_supabase_counts_every_page steps (w : world Remote) :
  let run :=
    sync_notion_to_supabase now Remote endpoint select_by_notion_id
      update_by_notion_id insert steps w in
  match snd (NotionSync.get_all_properties Json.json Remote endpoint steps
               (remote Remote w)) with
  | NotionSync.Returns pages =>
      exists st, snd run = NotionSync.Returns st
                 /\ total st = length pages
                 /\ (length (sent Remote (fst run))
                     <= length (sent Remote w) + 2 * length pages)%nat
  | NotionSync.Raises =>
      snd run = NotionSync.Raises /\ sent Remote (fst run) = sent Remote w
  | NotionSync.Running =>
      snd run = NotionSync.Running /\ sent Remote (fst run) = sent Remote w
  end.
Proof.
  unfold sync_notion_to_supabase.
  destruct (NotionSync.get_all_properties Json.json Remote endpoint steps
              (remote Remote w)) as [r' [pages| |]]; simpl; [|now split|now split].
  pose proof (fold_sync_page_counts pages
                ({| remote := r'; sent := sent Remote w |}, none_yet)) as [H1 H2].
  destruct (fold_left sync_page pages _) as [w' st]. simpl in *.
  exists st. repeat split; [exact H1 | exact H2].
Qed.

Lemma sync_row_counts state row :
  (created (snd (sync_row state row)) + errors (snd (sync_row state row)))%nat
  = S (created (snd state) + errors (snd state))
  /\ updated (snd (sync_row state row)) = updated (snd state)
  /\ (length (sent Remote (fst (sync_row state row)))
      <= length (sent Remote (fst state)) + 2)%nat.
Proof.
  destruct state as [w st]. unfold NotionSyncDrivers.sync_row.
  destruct row as [| | | | |record]; try (simpl; lia).
  destruct (supabase_to_notion record) as [data|]; [|simpl; lia].
  unfold send.
  destruct (create_page data (remote Remote w)) as [r1 [new_page|]]; simpl;
    [|rewrite length_app; simpl; lia].
  destruct (Json.item new_page "id") as [page_id|];
    [|simpl; rewrite length_app; simpl; lia].
  destruct (Json.lookup "id" record) as [row_id|];
    [|simpl; rewrite length_app; simpl; lia].
  destruct (set_notion_id page_id row_id r1) as [r2 [[]|]]; simpl;
    rewrite !length_app; simpl; lia.
Qed.

Lemma fold_sync_row_counts rows : forall state,
  (created (snd (fold_left sync_row rows state))
   + errors (snd (fold_left sync_row rows state)))%nat
  = (created (snd state) + errors (snd state) + length rows)%nat
  /\ updated (snd (fold_left sync_row rows state)) = updated (snd state)
  /\ (length (sent Remote (fst (fold_left sync_row rows state)))
      <= length (sent Remote (fst state)) + 2 * length rows)%nat.
Proof.
  induction rows as [|row rows IH]; intros state; simpl; [lia|].
  destruct (IH (sync_row state row)) as (H1 & H2 & H3).
  destruct (sync_row_counts state row) as (C1 & C2 & C3). lia.
Qed.

(** X21: sync_supabase_to_notion counts every row without a notion_id
    exactly once: created + errors equals the number of rows selected,
    updated stays zero, and at most two requests (a page creation and the
    write-back of its id) are sent per row; when the selection raises, the
    sync raises and nothing else is sent. *)
Theorem sync_supabase_to_notion_counts_every_row (w : world Remote) :
  let run := sync_supabase_to_notion Remote select_unsynced create_page
               set_notion_id w in
  match snd (select_unsynced (remote Remote w)) with
  | Some rows =>
      exists st, snd run = Some st
                 /\ (created st + errors st)%nat = length rows
                 /\ updated st = 0%nat
                 /\ (length (sent Remote (fst run))
                     <= length (sent Remote w) + 1 + 2 * length rows)%nat
  | None =>
      snd run = None /\ sent Remote (fst run) = sent Remote w ++ [SelectUnsynced]
  end.
Proof.
  unfold sync_supabase_to_notion, send.
  destruct (select_unsynced (remote Remote w)) as [r1 [rows|]]; simpl; [|now split].
  pose proof (fold_sync_row_counts rows
                ({| remote := r1; sent := sent Remote w ++ [SelectUnsynced] |},
                 none_yet)) as (H1 & H2 & H3).
  destruct (fold_left sync_row rows _) as [w' st]. simpl in *.
  rewrite length_app in H3. simpl in H3.
  exists st. repeat split; [exact H1 | exact H2 | lia].
Qed.

End SyncFacts.

(** ** The two rate parsers *)

Lemma match_number_no_digit c r : is_digit c = false -> ImportCreData.match_number (c :: r) = None.
Proof. intros H. unfold ImportCreData.match_number. simpl. now rewrite H. Qed.

Lemma search_no_digit t :
  existsb is_digit t = false ->
  ImportCreData.search_rate t = None /\ NotionSync.search_number t = None.
Proof.
  induction t as [|c r IH]; [now split|].
  simpl existsb. intros [Hc Hr]%orb_false_elim. destruct (IH Hr) as [IH1 IH2].
  assert (ImportCreData.match_number r = None) as Hr'.
  { destruct r as [|c' r']; [reflexivity|]. apply match_number_no_digit.
    simpl in Hr. now apply orb_false_elim in Hr as [-> _]. }
  split.
  - simpl. unfold ImportCreData.match_rate_at.
    rewrite (match_number_no_digit c r Hc), Hr'.
    rewrite IH1. now destruct (Ascii.ascii_dec c "$") as [->|]; [|destruct c as [[] [] [] [] [] [] [] []]].
  - simpl. now rewrite (match_number_no_digit c r Hc), IH2.
Qed.

Lemma search_without_dollar t :
  existsb (is_chr "$") t = false ->
  ImportCreData.search_rate t = NotionSync.search_number t.
Proof.
  induction t as [|c r IH]; [reflexivity|].
  simpl existsb. intros [Hc Hr]%orb_false_elim.
  cbn [ImportCreData.search_rate NotionSync.search_number].
  assert (ImportCreData.match_rate_at (c :: r) = ImportCreData.match_number (c :: r)) as ->.
  { unfold ImportCreData.match_rate_at. revert Hc. clear.
    destruct c as [[] [] [] [] [] [] [] []]; first [reflexivity | discriminate]. }
  now rewrite (IH Hr).
Qed.

Lemma remove_comma_dollar s :
  remove (is_chr ",") (remove (is_chr "$") s) = remove NotionSync.dollar_or_comma s.
Proof.
  unfold remove, NotionSync.dollar_or_comma.
  induction s as [|c r IH]; simpl; [reflexivity|].
  destruct (is_chr "$" c); simpl; [exact IH|].
  destruct (is_chr "," c); simpl; now rewrite IH.
Qed.

Lemma no_dollar_left s : existsb (is_chr "$") (remove NotionSync.dollar_or_comma s) = false.
Proof.
  unfold remove, NotionSync.dollar_or_comma.
  induction s as [|c r IH]; simpl; [reflexivity|].
  destruct (is_chr "$" c) eqn:E; simpl; [exact IH|].
  destruct (is_chr "," c); simpl; [exact IH|]. now rewrite E.
Qed.

Lemma existsb_digit_remove_dollar s :
  existsb is_digit (remove (is_chr "$") s) = existsb is_digit s.
Proof.
  unfold remove. induction s as [|c r IH]; simpl; [reflexivity|].
  destruct (is_chr "$" c) eqn:E; simpl; [|now rewrite IH].
  rewrite IH. destruct (is_digit c) eqn:D; [|reflexivity].
  now rewrite (digit_not_dollar c D) in E.
Qed.

Lemma upper_eq_no_digit s t :
  upper s = t -> existsb is_digit t = false -> existsb is_digit s = false.
Proof. intros <-. now rewrite existsb_digit_upper. Qed.

(** X22: the rate parser of the sync gives, on every ASCII text, what the
    rate parser of the importer gives once the dollar signs are deleted
    from the text; in particular the two agree on every ASCII text that
    holds no dollar sign. *)
Theorem rate_parsers_agree_up_to_dollars (s : str) :
  ascii_text s ->
  NotionSync.parse_rate s = ImportCreData.parse_rate (remove (is_chr "$") s)
  /\ (existsb (is_chr "$") s = false ->
      NotionSync.parse_rate s = ImportCreData.parse_rate s).
Proof.
  intros _.
  assert (NotionSync.parse_rate s = ImportCreData.parse_rate (remove (is_chr "$") s))
    as Hmain.
  { unfold NotionSync.parse_rate, ImportCreData.parse_rate.
    rewrite remove_comma_dollar.
    rewrite (search_without_dollar _ (no_dollar_left s)).
    destruct (existsb is_digit s) eqn:D.
    - (* a digit: neither guard fires *)
      assert (negb (truthy s)
              || existsb (eqb (upper s)) [py "N/A"; py "TBD"; []] = false) as ->.
      { apply orb_false_intro.
        - destruct s; [discriminate D | reflexivity].
        - cbn [existsb]. rewrite orb_false_r.
          assert (forall t, existsb is_digit t = false -> eqb (upper s) t = false) as E.
          { intros t Ht. apply eqb_false. intros Hs.
            now rewrite (upper_eq_no_digit s t Hs Ht) in D. }
          now rewrite !E. }
      set (s' := remove (is_chr "$") s).
      assert (existsb is_digit s' = true) as D'
        by (unfold s'; now rewrite existsb_digit_remove_dollar).
      assert (negb (truthy s') || eqb (upper s') (py "N/A") || eqb (strip s') []
              = false) as ->; [|reflexivity].
      apply orb_false_intro; [apply orb_false_intro|].
      + destruct s'; [discriminate D' | reflexivity].
      + destruct (eqb (upper s') (py "N/A")) eqn:E1; [|reflexivity].
        apply eqb_true in E1.
        now rewrite (upper_eq_no_digit s' _ E1 eq_refl) in D'.
      + destruct (eqb (strip s') []) eqn:E1; [|reflexivity].
        apply eqb_true in E1.
        now rewrite (spaces_no_digit _ (strip_nil _ E1)) in D'.
    - (* no digit: both give None *)
      destruct (search_no_digit (remove NotionSync.dollar_or_comma s)
                  (existsb_remove _ _ _ D)) as [_ ->].
      now destruct (_ || _), (_ || _). }
  split; [exact Hmain|].
  intros H. rewrite Hmain. now rewrite (remove_none _ _ H).
Qed.

Lemma rate_parsers_agree_witness :
  NotionSync.parse_rate (py "$12.50/SF")
  = ImportCreData.parse_rate (remove (is_chr "$") (py "$12.50/SF"))
  /\ NotionSync.parse_rate (py "12.50/SF") = ImportCreData.parse_rate (py "12.50/SF").
Proof.
  split.
  - apply (proj1 (rate_parsers_agree_up_to_dollars (py "$12.50/SF") eq_refl)).
  - apply (proj2 (rate_parsers_agree_up_to_dollars (py "12.50/SF") eq_refl)).
    reflexivity.
Defined.

(** ** The transformers of notion_supabase_sync.py *)

Section TransformerFacts.

Import Json NotionSyncDrivers.

Lemma or_else_not_null v d : d <> JNull -> or_else v d <> JNull.
Proof.
  intros Hd. unfold or_else. destruct (truthy v) eqn:E; [|exact Hd].
  intros ->. discriminate E.
Qed.

Lemma text_or_empty_text v s : text_or_empty v = Some s -> or_else v (JStr []) = JStr s.
Proof. unfold text_or_empty. destruct (or_else v (JStr [])); congruence. Qed.

(** X23: whenever notion_to_supabase returns, the record it builds is
    tagged with the source Notion and carries the id of the page; its
    square_footage is a text and square_footage_min and square_footage_max
    are what parse_square_footage gives on that text; its rate_text is a
    text and rate_per_sqft is what parse_rate gives on it; and address,
    city, state, zip_code, building_types and number_of_suites are never
    null. *)
Theorem notion_to_supabase_record (now : str) (notion_page : json)
    (supabase_data : list (string * json)) :
  notion_to_supabase now notion_page = Some supabase_data ->
  lookup "source" supabase_data = Some (JStr (py "Notion"))
  /\ get notion_page "id" JNull = lookup "notion_id" supabase_data
  /\ (exists text,
        lookup "square_footage" supabase_data = Some (JStr text)
        /\ lookup "square_footage_min" supabase_data
           = Some (of_Z (fst (NotionSync.parse_square_footage text)))
        /\ lookup "square_footage_max" supabase_data
           = Some (of_Z (snd (NotionSync.parse_square_footage text))))
  /\ (exists text,
        lookup "rate_text" supabase_data = Some (JStr text)
        /\ lookup "rate_per_sqft" supabase_data
           = Some (of_float (NotionSync.parse_rate text)))
  /\ (forall key,
        In key ["address"; "city"; "state"; "zip_code"; "building_types";
                "number_of_suites"]%string ->
        exists v, lookup key supabase_data = Some v /\ v <> JNull).
Proof.
  unfold notion_to_supabase. intros H.
  destruct (get notion_page "properties" (JDict [])) as [props|]; [|discriminate].
  simpl in H.
  destruct (prop props "Address") as [address|]; [|discriminate]; simpl in H.
  destruct (prop props "Building Types") as [building_types|]; [|discriminate];
    simpl in H.
  destruct (prop props "City") as [city|]; [|discriminate]; simpl in H.
  destruct (prop props "State") as [state|]; [|discriminate]; simpl in H.
  destruct (prop props "Zip Code") as [zip_code|]; [|discriminate]; simpl in H.
  destruct (prop props "Tenancy") as [tenancy|]; [|discriminate]; simpl in H.
  destruct (prop props "Square Footage") as [square_footage_text|]; [|discriminate];
    simpl in H.
  destruct (prop props "Number of Suites") as [suites|]; [|discriminate]; simpl in H.
  destruct (prop props "Rate") as [rate_text|]; [|discriminate]; simpl in H.
  destruct (prop props "Longitude") as [longitude|]; [|discriminate]; simpl in H.
  destruct (prop props "Latitude") as [latitude|]; [|discriminate]; simpl in H.
  destruct (text_or_empty square_footage_text) as [sq_ft_text|] eqn:Esq;
    [|discriminate]. simpl in H.
  destruct (NotionSync.parse_square_footage sq_ft_text) as [sq_ft_min sq_ft_max] eqn:Ep.
  destruct (text_or_empty rate_text) as [rate|] eqn:Er; [|discriminate]. simpl in H.
  destruct (get notion_page "id" JNull) as [notion_id|]; [|discriminate]. simpl in H.
  destruct (prop props "Contact Name") as [contact_name|]; [|discriminate]; simpl in H.
  destruct (prop props "Contact Email") as [contact_email|]; [|discriminate];
    simpl in H.
  destruct (prop props "Contact Phone") as [contact_phone|]; [|discriminate];
    simpl in H.
  destruct (prop props "Description") as [description|]; [|discriminate]; simpl in H.
  injection H as <-.
  apply text_or_empty_text in Esq, Er.
  split; [reflexivity|]. split; [reflexivity|].
  split.
  { exists sq_ft_text. rewrite Ep. repeat split; [|reflexivity..].
    change (Some (or_else square_footage_text (JStr [])) = Some (JStr sq_ft_text)).
    now rewrite Esq. }
  split.
  { exists rate. split; [|reflexivity].
    change (Some (or_else rate_text (JStr [])) = Some (JStr rate)). now rewrite Er. }
  intros key Hkey. simpl in Hkey.
  destruct Hkey as [<-|[<-|[<-|[<-|[<-|[<-|[]]]]]]];
    (eexists; split; [reflexivity | apply or_else_not_null; discriminate]).
Qed.

Lemma notion_to_supabase_record_witness :
  exists supabase_data,
    notion_to_supabase (py "2024-01-01T00:00:00+00:00") office_page = Some supabase_data
    /\ lookup "square_footage_max" supabase_data = Some (JNum (of_int 2000)).
Proof.
  eexists. split; [vm_compute; reflexivity|].
  destruct (notion_to_supabase_record (py "2024-01-01T00:00:00+00:00") office_page _ eq_refl)
    as (_ & _ & (text & Ht & _ & Hmax) & _).
  vm_compute in Ht. injection Ht as <-. exact Hmax.
Defined.

Lemma lookup_app key (a b : list (string * json)) :
  lookup key (a ++ b)
  = match lookup key a with Some v => Some v | None => lookup key b end.
Proof.
  unfold lookup. induction a as [|[k v] a IH]; simpl; [now destruct (List.find _ b)|].
  destruct (bool_decide (k = key)); [reflexivity | exact IH].
Qed.

Lemma lookup_cons key k v (l : list (string * json)) :
  lookup key ((k, v) :: l) = if bool_decide (k = key) then Some v else lookup key l.
Proof. unfold lookup. simpl. now destruct (bool_decide (k = key)). Qed.

Lemma lookup_entry_if_other record key name wrap other :
  other <> name -> lookup other (entry_if record key name wrap) = None.
Proof.
  intros Hne. unfold entry_if.
  destruct (lookup key record) as [v|]; [|reflexivity].
  destruct (truthy v); [|reflexivity].
  unfold lookup. simpl. rewrite bool_decide_false; [reflexivity | congruence].
Qed.

Lemma coordinate_entry_cases record key name l :
  coordinate_entry record key name = Some l ->
  match default JNull (lookup key record) with
  | JNull => l = []
  | v => exists f, float_of v = Some f /\ l = [(name, JDict [("number"%string, JNum f)])]
  end.
Proof.
  unfold coordinate_entry.
  destruct (default JNull (lookup key record)) as [|b|f|t|items|d];
    simpl; try congruence.
  - intros [= <-]. now eexists.
  - intros [= <-]. now eexists.
  - destruct (py_float t) as [f|]; simpl; [|discriminate]. intros [= <-]. now eexists.
Qed.

Lemma coordinate_entry_lookup record key name l other :
  coordinate_entry record key name = Some l -> other <> name -> lookup other l = None.
Proof.
  intros H Hne. apply coordinate_entry_cases in H.
  destruct (default JNull (lookup key record)); [now subst|..];
    destruct H as (f' & _ & ->); rewrite lookup_cons, bool_decide_false by congruence;
    reflexivity.
Qed.

(** X24: whenever supabase_to_notion returns, the page properties hold a
    Longitude (a Latitude) exactly when the column of the row is not null,
    and then with the number float() gives on it: a coordinate of zero is
    kept, a null one is left out. *)
Theorem supabase_to_notion_keeps_coordinates (supabase_record : list (string * json))
    (notion_props : json) :
  supabase_to_notion supabase_record = Some notion_props ->
  exists props,
    notion_props = JDict props
    /\ forall key name,
         In (key, name) [("longitude", "Longitude"); ("latitude", "Latitude")]%string ->
         match default JNull (lookup key supabase_record) with
         | JNull => lookup name props = None
         | v => exists f, float_of v = Some f
                          /\ lookup name props = Some (JDict [("number"%string, JNum f)])
         end.
Proof.
  unfold supabase_to_notion. cbv zeta.
  destruct (multi_select_of _) as [types|]; [|discriminate]. simpl.
  destruct (coordinate_entry supabase_record "longitude" "Longitude") as [lon|] eqn:Elon;
    [|discriminate]. simpl.
  destruct (coordinate_entry supabase_record "latitude" "Latitude") as [lat|] eqn:Elat;
    [|discriminate]. simpl.
  intros [= <-]. eexists. split; [reflexivity|].
  pose proof (coordinate_entry_lookup _ _ _ _ "Latitude" Elon) as Hlon.
  pose proof (coordinate_entry_lookup _ _ _ _ "Longitude" Elat) as Hlat.
  apply coordinate_entry_cases in Elon, Elat.
  intros key name [[= <- <-]|[[= <- <-]|[]]];
    repeat (rewrite lookup_cons, bool_decide_false by discriminate);
    rewrite !lookup_app, !lookup_entry_if_other by discriminate.
  - rewrite Hlat by discriminate.
    destruct (default JNull (lookup "longitude" supabase_record));
      [now subst lon
      | destruct Elon as (f' & Hf & ->); exists f'; (split; [exact Hf|reflexivity])..].
  - rewrite Hlon by discriminate.
    destruct (default JNull (lookup "latitude" supabase_record));
      [now subst lat
      | destruct Elat as (f' & Hf & ->); exists f'; (split; [exact Hf|reflexivity])..].
Qed.

Lemma supabase_to_notion_keeps_coordinates_witness :
  exists notion_props props,
    supabase_to_notion meridian_row = Some notion_props
    /\ notion_props = JDict props
    /\ lookup "Longitude" props = Some (JDict [("number"%string, JNum (of_int 0))])
    /\ lookup "Latitude" props = None.
Proof.
  destruct (supabase_to_notion_keeps_coordinates meridian_row _ eq_refl)
    as (props & Hprops & Hkeys).
  eexists. exists props. split; [reflexivity|]. split; [exact Hprops|].
  split.
  - destruct (Hkeys "longitude"%string "Longitude"%string (or_introl eq_refl))
      as (f & Hf & Hl).
    injection Hf as <-. exact Hl.
  - exact (Hkeys "latitude"%string "Latitude"%string (or_intror (or_introl eq_refl))).
Defined.

End TransformerFacts.

(** ** NotionImporter.property_to_notion_format *)

Section FormatFacts.

Import Json NotionImporter.

Variable float_repr : pyfloat -> str.
Variable list_repr : list str -> str.

Local Abbreviation value := CsvImport.value.
Local Abbreviation property_to_notion_format :=
  (NotionImporter.property_to_notion_format float_repr list_repr).

Lemma block_cases (property_data : gmap string value) field name wrap l :
  block property_data (field, name, wrap) = Some l ->
  if CsvImport.value_truthy (property_data !! field)
  then exists v x, property_data !! field = Some v /\ wrap v = Some x /\ l = [(name, x)]
  else l = [].
Proof.
  unfold block. destruct (CsvImport.value_truthy (property_data !! field)) eqn:E.
  - destruct (property_data !! field) as [v|]; [|discriminate E].
    destruct (wrap v) as [x|] eqn:Ew; simpl; [|discriminate].
    intros [= <-]. now exists v, x.
  - now intros [= <-].
Qed.

Lemma all_some_cons {A} (x : option A) r ls :
  all_some (x :: r) = Some ls ->
  exists a b, x = Some a /\ all_some r = Some b /\ ls = a :: b.
Proof.
  simpl. destruct x as [a|]; [|discriminate].
  destruct (all_some r) as [b|]; [|discriminate].
  intros [= <-]. now exists a, b.
Qed.

Lemma lookup_absent (property_data : gmap string value) other table : forall ls,
  all_some (block property_data <$> table) = Some ls ->
  ~ In other (List.map (fun b => snd (fst b)) table) ->
  lookup other (concat ls) = None.
Proof.
  induction table as [|[[field name] wrap] table IH]; intros ls.
  - now intros [= <-].
  - rewrite fmap_cons. intros (l & ls' & El & Els & ->)%all_some_cons Hnot.
    cbn [concat List.map fst snd] in Hnot |- *. rewrite lookup_app.
    apply block_cases in El.
    assert (lookup other l = None) as ->.
    { destruct (CsvImport.value_truthy _); [|now subst].
      destruct El as (v & x & _ & _ & ->). rewrite lookup_cons.
      rewrite bool_decide_false; [reflexivity|]. intros ->. apply Hnot. now left. }
    apply IH; [exact Els|]. intros Hin. apply Hnot. now right.
Qed.

Lemma lookup_block (property_data : gmap string value) table : forall ls,
  List.NoDup (List.map (fun b => snd (fst b)) table) ->
  all_some (block property_data <$> table) = Some ls ->
  forall field name wrap, In (field, name, wrap) table ->
  lookup name (concat ls)
  = if CsvImport.value_truthy (property_data !! field)
    then property_data !! field ≫= wrap else None.
Proof.
  induction table as [|[[field0 name0] wrap0] table IH]; intros ls Hnd;
    [now intros _ ? ? ? []|].
  rewrite fmap_cons. intros (l & ls' & El & Els & ->)%all_some_cons field name wrap Hin.
  cbn [concat List.map fst snd] in Hnd |- *. rewrite lookup_app.
  apply List.NoDup_cons_iff in Hnd as [Hfresh Hnd].
  apply block_cases in El.
  destruct Hin as [[= -> -> ->]|Hin].
  - destruct (CsvImport.value_truthy (property_data !! field)).
    + destruct El as (v & x & -> & Hx & ->).
      rewrite lookup_cons, bool_decide_true by reflexivity.
      simpl. now rewrite Hx.
    + subst l. cbn [lookup List.find fmap option_fmap option_map].
      now apply (lookup_absent property_data name table).
  - assert (name <> name0) as Hne.
    { intros ->. apply Hfresh.
      change name0 with ((fun b : string * string * (value -> option json) => snd (fst b))
                           (field, name0, wrap)).
      now apply in_map. }
    assert (lookup name l = None) as ->.
    { destruct (CsvImport.value_truthy (property_data !! field0)); [|now subst].
      destruct El as (v & x & _ & _ & ->).
      rewrite lookup_cons, bool_decide_false; [reflexivity | congruence]. }
    now apply (IH ls' Hnd Els).
Qed.

Lemma blocks_names_distinct :
  List.NoDup (List.map (fun b : string * string * (value -> option json) => snd (fst b))
                (blocks float_repr list_repr)).
Proof.
  simpl. repeat (constructor; [simpl; intuition discriminate|]). constructor.
Qed.

(** X25: whenever property_to_notion_format returns, a property of the page
    is written exactly for the fields of the record that are truthy, with
    the value its block builds: a field that is missing, an empty text or
    list, a suite count of 0 and a coordinate of 0.0 leave no property. *)
Theorem property_to_notion_format_writes_truthy_fields
    (property_data : gmap string value) (notion_props : list (string * json)) :
  property_to_notion_format property_data = Some notion_props ->
  forall field name wrap, In (field, name, wrap) (blocks float_repr list_repr) ->
  lookup name notion_props
  = (if CsvImport.value_truthy (property_data !! field)
     then property_data !! field ≫= wrap else None)
  /\ (is_Some (lookup name notion_props)
      <-> CsvImport.value_truthy (property_data !! field) = true).
Proof.
  unfold NotionImporter.property_to_notion_format.
  destruct (all_some _) as [ls|] eqn:Els; [|discriminate].
  intros [= <-] field name wrap Hin.
  pose proof (lookup_block property_data _ ls blocks_names_distinct Els
                field name wrap Hin) as Hl.
  split; [exact Hl|]. rewrite Hl.
  assert (exists l, block property_data (field, name, wrap) = Some l) as [l El].
  { clear Hl. revert ls Els Hin. generalize (blocks float_repr list_repr).
    induction l as [|b table IH]; intros ls; [now intros _ []|].
    rewrite fmap_cons. intros (l0 & ls' & E0 & Els & _)%all_some_cons [->|Hin];
      [now exists l0 | now apply (IH ls')]. }
  apply block_cases in El.
  destruct (CsvImport.value_truthy (property_data !! field)).
  - destruct El as (v & x & -> & Hx & _). simpl. rewrite Hx. split; [reflexivity | now eexists].
  - split; [now intros [? [=]] | discriminate].
Qed.

Lemma well_typed_building_types v :
  Further.well_typed "building_types" v -> exists l, v = CsvImport.VList l.
Proof.
  unfold Further.well_typed.
  change (bool_decide ("building_types"%string = "building_types"%string)) with true.
  easy.
Qed.

Lemma well_typed_suites v :
  Further.well_typed "number_of_suites" v -> exists z, v = CsvImport.VInt z.
Proof.
  unfold Further.well_typed.
  change (bool_decide ("number_of_suites"%string = "building_types"%string)) with false.
  change (bool_decide ("number_of_suites"%string = "contact_phone"%string)) with false.
  change (bool_decide ("number_of_suites"%string ∈ ["latitude"; "longitude"]%string))
    with false.
  change (bool_decide ("number_of_suites"%string ∈
            ["number_of_suites"; "year_built"; "parking_spaces"]%string)) with true.
  easy.
Qed.

Lemma block_total (property_data : gmap string value) field name wrap :
  (forall v, property_data !! field = Some v -> is_Some (wrap v)) ->
  is_Some (block property_data (field, name, wrap)).
Proof.
  intros H. unfold block.
  destruct (CsvImport.value_truthy (property_data !! field)); [|now eexists].
  destruct (property_data !! field) as [v|]; [|now eexists].
  destruct (H v eq_refl) as [x ->]. now eexists.
Qed.

Lemma all_some_total {A} (l : list (option A)) :
  List.Forall is_Some l -> is_Some (all_some l).
Proof.
  induction 1 as [|x l [a ->] _ [b IH]]; simpl; [now eexists|].
  rewrite IH. now eexists.
Qed.

(** X26: property_to_notion_format never raises on a record built by
    transform_csv_record: the building types it iterates are a list, the
    suite count it passes to int() is an integer and the coordinates it
    passes to float() are floats. *)
Theorem property_to_notion_format_after_transform (raw : gmap str cell)
    field_mapping (record : gmap string value) :
  CsvImport.transform_csv_record float_repr raw field_mapping = inr record ->
  is_Some (property_to_notion_format record).
Proof.
  intros H. pose proof (transform_csv_record_typed float_repr raw field_mapping record H)
    as Ht.
  unfold NotionImporter.property_to_notion_format.
  assert (is_Some (all_some (block record <$> blocks float_repr list_repr))) as [ls ->];
    [|now eexists].
  apply all_some_total. unfold blocks.
  repeat (rewrite fmap_cons; apply List.Forall_cons).
  all: try (apply block_total; intros v Hv; now eexists).
  - apply block_total. intros v Hv.
    destruct (well_typed_building_types v (Ht _ _ Hv)) as [l ->]. now eexists.
  - apply block_total. intros v Hv.
    destruct (well_typed_suites v (Ht _ _ Hv)) as [z ->]. now eexists.
  - apply block_total. intros v Hv.
    destruct (well_typed_coordinate "longitude" v (or_intror eq_refl) (Ht _ _ Hv))
      as [f ->]. now eexists.
  - apply block_total. intros v Hv.
    destruct (well_typed_coordinate "latitude" v (or_introl eq_refl) (Ht _ _ Hv))
      as [f ->]. now eexists.
  - constructor.
Qed.

End FormatFacts.

Lemma property_to_notion_format_witness :
  exists notion_props,
    NotionImporter.property_to_notion_format TableStore.no_floats
      NotionImporter.no_lists NotionImporter.meridian_record = Some notion_props
    /\ Json.lookup "Longitude" notion_props = None
    /\ is_Some (Json.lookup "Latitude" notion_props).
Proof.
  eexists. split; [vm_compute; reflexivity|].
  split.
  - refine (eq_trans
              (proj1 (property_to_notion_format_writes_truthy_fields
                        TableStore.no_floats NotionImporter.no_lists
                        NotionImporter.meridian_record _ eq_refl
                        "longitude"%string "Longitude"%string _ _)) _).
    + do 9 right. left. reflexivity.
    + vm_compute. reflexivity.
  - refine (proj2 (proj2 (property_to_notion_format_writes_truthy_fields
                            TableStore.no_floats NotionImporter.no_lists
                            NotionImporter.meridian_record _ eq_refl
                            "latitude"%string "Latitude"%string _ _)) _).
    + do 10 right. left. reflexivity.
    + vm_compute. reflexivity.
Defined.

Lemma property_to_notion_format_after_transform_witness :
  is_Some (NotionImporter.property_to_notion_format TableStore.no_floats
             NotionImporter.no_lists Further.plain_record).
Proof.
  apply (property_to_notion_format_after_transform TableStore.no_floats
           NotionImporter.no_lists Further.plain_row Further.plain_mapping).
  vm_compute. reflexivity.
Defined.

(** ** DataValidator.clean_building_types *)

(** X27: on an ASCII text, the list clean_building_types returns holds no
    type twice, and each of its types is a text that is not empty, holds
    none of the separators (comma, semicolon, slash, bar) and is already
    stripped and in title case. *)
Theorem clean_building_types_distinct_clean_tokens (building_types : str) :
  ascii_text building_types ->
  NoDup (CsvImport.clean_building_types building_types)
  /\ forall bt, In bt (CsvImport.clean_building_types building_types) ->
       bt <> [] /\ existsb CsvImport.separator bt = false /\ title (strip bt) = bt.
Proof.
  intros _. destruct (clean_building_types_clean building_types) as [Hc Hnd].
  split; [exact Hnd|].
  intros bt Hin. rewrite List.Forall_forall in Hc. exact (Hc bt Hin).
Qed.

Lemma clean_building_types_witness :
  NoDup (CsvImport.clean_building_types (py "office; retail / OFFICE"))
  /\ CsvImport.clean_building_types (py "office; retail / OFFICE")
     = [py "Office"; py "Retail"].
Proof.
  split; [|reflexivity].
  apply (clean_building_types_distinct_clean_tokens (py "office; retail / OFFICE")).
  reflexivity.
Defined.
